(** * Workflow step contracts, usage merging and workspace-name caching

    A shallow embedding of
      - [inference/enterprise/workflows/entities/steps.py]
        (the step variants, their field validators, [validate_field_selector]
        and [validate_field_binding]),
      - [inference/usage_tracking/collector_utils.py] ([merge_usage_dicts]),
      - [inference/core/workflows/core_steps/sinks/roboflow/data_collector.py]
        ([get_workspace_name]).

    Python values are a small universe [pyval]; a float is a binary64
    number, with its rounding, its infinities and its NaN; a raising
    function returns [Raise e] in the [result] monad; dictionaries are
    [gmap string pyval]. *)

From Stdlib Require Import ZArith QArith Qround Qabs Bool List.
From stdpp Require Import gmap strings list fin_maps.
Import ListNotations.

Set Warnings "-register-all".
Local Open Scope Z_scope.
Local Open Scope string_scope.

(* ===================================================================== *)
(** ** Exceptions and the result monad *)
(* ===================================================================== *)

(** The exception classes the three modules raise or let escape. *)
Inductive exn : Type :=
| ExecutionGraphError
| InvalidStepInputDetected
| VariableTypeError
| ValueError
| IndexError
| TypeError
| AttributeError
| OverflowError.

Inductive result (A : Type) : Type :=
| Ok (a : A)
| Raise (e : exn).
Arguments Ok {A} a.
Arguments Raise {A} e.

#[global] Instance result_ret : MRet result := fun A a => Ok a.

#[global] Instance result_bind : MBind result := fun A B k c =>
  match c with
  | Ok a => k a
  | Raise e => Raise e
  end.

Definition is_ok {A : Type} (r : result A) : bool :=
  match r with Ok _ => true | Raise _ => false end.

(* ===================================================================== *)
(** ** Floats *)
(* ===================================================================== *)

(** Python [round(q)] of a finite float with no digits argument: the nearest
    integer, ties going to the even one. *)
Definition py_round_float (q : Q) : Z :=
  let f := Qfloor q in
  let r := (q - inject_Z f)%Q in
  match (r ?= 1 # 2)%Q with
  | Lt => f
  | Gt => f + 1
  | Eq => if Z.even f then f else f + 1
  end.

(** What a Python [float] (an IEEE 754 binary64) holds: a finite number, an
    infinity or a NaN.  The two zeros compare equal and are one [Finite 0]. *)
Inductive number : Type :=
| Finite (q : Q)
| Infinite (negative : bool)
| NaN.

(** [floor (log2 (n / d))] for positive [n] and [d]. *)
Definition floor_log2 (n d : Z) : Z :=
  let e := Z.log2 n - Z.log2 d in
  if Z.leb 0 e
  then if Z.ltb n (d * 2 ^ e) then e - 1 else e
  else if Z.ltb (n * 2 ^ (- e)) d then e - 1 else e.

Definition pow2 (e : Z) : Q :=
  if Z.leb 0 e then inject_Z (2 ^ e) else 1 # Z.to_pos (2 ^ (- e)).

(** The float nearest to the rational [q], ties going to the even
    significand: 53 bits of significand, the least exponent [-1074], and an
    infinity once the rounded magnitude reaches [2 ^ 1024].  This is the
    float a literal denotes, the float an [int] converts to and the rounding
    every float operation ends with. *)
Definition binary64 (q : Q) : number :=
  let q := Qred q in
  if Z.eqb (Qnum q) 0 then Finite 0
  else
    let e := floor_log2 (Z.abs (Qnum q)) (Zpos (Qden q)) in
    let quantum := Z.max (e - 52) (-1074) in
    let m := py_round_float (Qabs q * pow2 (- quantum))%Q in
    let r := Qred (inject_Z m * pow2 quantum)%Q in
    if Qle_bool (pow2 1024) r then Infinite (Z.ltb (Qnum q) 0)
    else Finite (if Z.ltb (Qnum q) 0 then Qopp r else r).
Arguments binary64 : simpl never.

(** Float addition: the exact sum, rounded; an infinity absorbs a finite
    number, opposite infinities and a NaN give a NaN. *)
Definition fadd (x y : number) : number :=
  match x, y with
  | NaN, _ | _, NaN => NaN
  | Infinite s, Infinite t => if Bool.eqb s t then Infinite s else NaN
  | Infinite s, Finite _ => Infinite s
  | Finite _, Infinite t => Infinite t
  | Finite p, Finite q => binary64 (p + q)
  end.

Definition Qlt_bool (p q : Q) : bool := negb (Qle_bool q p).

(** [x == y] and [x < y] on numbers, exact on finite ones; every comparison
    with a NaN is false. *)
Definition num_eqb (x y : number) : bool :=
  match x, y with
  | Finite p, Finite q => Qeq_bool p q
  | Infinite s, Infinite t => Bool.eqb s t
  | _, _ => false
  end.

Definition num_ltb (x y : number) : bool :=
  match x, y with
  | NaN, _ | _, NaN => false
  | Finite p, Finite q => Qlt_bool p q
  | Infinite s, Infinite t => s && negb t
  | Infinite s, Finite _ => s
  | Finite _, Infinite t => negb t
  end.

(** [round(x)] of a float: a NaN raises [ValueError], an infinity
    [OverflowError]. *)
Definition round_number (x : number) : result Z :=
  match x with
  | Finite q => Ok (py_round_float q)
  | Infinite _ => Raise OverflowError
  | NaN => Raise ValueError
  end.

(* ===================================================================== *)
(** ** Python values *)
(* ===================================================================== *)

(** The values a step field, a bound parameter or a usage payload entry can
    hold.  A [PFloat q] is the float the literal [q] denotes, the float
    nearest to the rational [q]; [PFloatInf] and [PFloatNaN] are the floats
    [inf], [-inf] and [nan].  [PObject] stands for an enum member or a
    nested model, which the functions below only pass around. *)
Inductive pyval : Type :=
| PNone
| PBool (b : bool)
| PInt (z : Z)
| PFloat (q : Q)
| PStr (s : string)
| PList (l : list pyval)
| PDict (d : list (string * pyval))
| PObject (repr : string)
| PFloatInf (negative : bool)
| PFloatNaN.

(** The number a [bool], an [int] or a [float] holds ([bool] is a subclass
    of [int] in Python). *)
Definition number_of (v : pyval) : option number :=
  match v with
  | PBool b => Some (Finite (inject_Z (if b then 1 else 0)))
  | PInt z => Some (Finite (inject_Z z))
  | PFloat q => Some (binary64 q)
  | PFloatInf negative => Some (Infinite negative)
  | PFloatNaN => Some NaN
  | _ => None
  end.

(** The float holding a number. *)
Definition of_number (x : number) : pyval :=
  match x with
  | Finite q => PFloat q
  | Infinite negative => PFloatInf negative
  | NaN => PFloatNaN
  end.

(** Numeric value of a [bool], an [int] and a finite [float]. *)
Definition num_val (v : pyval) : option Q :=
  match number_of v with
  | Some (Finite q) => Some q
  | _ => None
  end.

Definition is_number (v : pyval) : bool :=
  match number_of v with Some _ => true | None => false end.

(** Integer value of [bool] and [int]. *)
Definition int_val (v : pyval) : option Z :=
  match v with
  | PBool b => Some (if b then 1 else 0)
  | PInt z => Some z
  | _ => None
  end.

Fixpoint assoc (k : string) (d : list (string * pyval)) : option pyval :=
  match d with
  | [] => None
  | (k', v) :: d' => if String.eqb k k' then Some v else assoc k d'
  end.

(** Python [a == b].  Numbers are compared by their exact values (an [int]
    is not rounded to a float first) and a NaN is unequal to everything;
    containers are compared entry by entry, by value. *)
Fixpoint py_eq (a b : pyval) {struct a} : bool :=
  match a, b with
  | PNone, PNone => true
  | PStr s, PStr t => String.eqb s t
  | PObject s, PObject t => String.eqb s t
  | PList l, PList m =>
      (fix go (l m : list pyval) {struct l} : bool :=
         match l, m with
         | [], [] => true
         | x :: l', y :: m' => py_eq x y && go l' m'
         | _, _ => false
         end) l m
  | PDict d, PDict e =>
      Nat.eqb (length d) (length e) &&
      (fix all (d : list (string * pyval)) {struct d} : bool :=
         match d with
         | [] => true
         | kv :: d' =>
             match assoc (fst kv) e with
             | Some w => py_eq (snd kv) w
             | None => false
             end && all d'
         end) d
  | PBool _, _ | PInt _, _ | PFloat _, _ | PFloatInf _, _ | PFloatNaN, _ =>
      match number_of a, number_of b with
      | Some x, Some y => num_eqb x y
      | _, _ => false
      end
  | _, _ => false
  end.

Definition py_ne (a b : pyval) : bool := negb (py_eq a b).

(** Python [a < b]: numbers by value, strings and lists lexicographically;
    [None] when [<] is not supported between the two operands. *)
Fixpoint py_lt (a b : pyval) {struct a} : option bool :=
  match a, b with
  | PStr s, PStr t => Some (String.ltb s t)
  | PList l, PList m =>
      (fix go (l m : list pyval) {struct l} : option bool :=
         match l, m with
         | [], [] => Some false
         | [], _ :: _ => Some true
         | _ :: _, [] => Some false
         | x :: l', y :: m' => if py_eq x y then go l' m' else py_lt x y
         end) l m
  | _, _ =>
      match number_of a, number_of b with
      | Some x, Some y => Some (num_ltb x y)
      | _, _ => None
      end
  end.

(** Python [min(a, b)] keeps [a] unless [b < a]; operands that cannot be
    ordered raise [TypeError]. *)
Definition py_min (a b : pyval) : result pyval :=
  match py_lt b a with
  | Some less => Ok (if less then b else a)
  | None => Raise TypeError
  end.

(** Python [max(a, b)] keeps [a] unless [b > a]. *)
Definition py_max (a b : pyval) : result pyval :=
  match py_lt a b with
  | Some more => Ok (if more then b else a)
  | None => Raise TypeError
  end.

(** [float(z)] of an [int]: the nearest float, and [OverflowError] when
    that is beyond the largest float. *)
Definition int_to_float (z : Z) : result number :=
  match binary64 (inject_Z z) with
  | Infinite _ => Raise OverflowError
  | x => Ok x
  end.

(** The float an operand of a float operation is converted to; [None] for a
    value that is not a number. *)
Definition to_float (v : pyval) : option (result number) :=
  match v with
  | PBool b => Some (int_to_float (if b then 1 else 0))
  | PInt z => Some (int_to_float z)
  | PFloat q => Some (Ok (binary64 q))
  | PFloatInf negative => Some (Ok (Infinite negative))
  | PFloatNaN => Some (Ok NaN)
  | _ => None
  end.

(** Python [a + b]: integer addition on [bool]/[int]; as soon as one operand
    is a float, the other is converted to a float and the two are added as
    floats; concatenation of strings and of lists. *)
Definition py_add (a b : pyval) : result pyval :=
  match a, b with
  | PStr s, PStr t => Ok (PStr (s ++ t))
  | PList l, PList m => Ok (PList (l ++ m))
  | _, _ =>
      match int_val a, int_val b with
      | Some x, Some y => Ok (PInt (x + y))
      | _, _ =>
          match to_float a, to_float b with
          | Some fa, Some fb => x ← fa; y ← fb; Ok (of_number (fadd x y))
          | _, _ => Raise TypeError
          end
      end
  end.

(** Truthiness of a value ([if v:]); a float is false when it is zero. *)
Definition py_truthy (v : pyval) : bool :=
  match v with
  | PNone => false
  | PBool b => b
  | PInt z => negb (Z.eqb z 0)
  | PFloat q => negb (num_eqb (binary64 q) (Finite 0))
  | PStr s => negb (String.eqb s "")
  | PList l => match l with [] => false | _ => true end
  | PDict d => match d with [] => false | _ => true end
  | PObject _ => true
  | PFloatInf _ => true
  | PFloatNaN => true
  end.

(** Python [l[i]] on a list: negative indices count from the end, anything
    outside [-len, len) is an [IndexError]. *)
Definition py_getitem {A : Type} (l : list A) (i : Z) : result A :=
  let n := Z.of_nat (length l) in
  let j := if Z.ltb i 0 then i + n else i in
  if Z.leb 0 j && Z.ltb j n
  then match nth_error l (Z.to_nat j) with
       | Some x => Ok x
       | None => Raise IndexError
       end
  else Raise IndexError.

(* ===================================================================== *)
(** ** Helpers of [entities/validators.py] and the producer node *)
(* ===================================================================== *)

(** The Python classes passed as [allowed_types]. *)
Inductive pytype : Type :=
| TNoneType | TBool | TInt | TFloat | TStr | TList | TDict.

(** Modelled from the spec: [GraphNone] of [entities/base.py], which is not
    among the sources.  A resolved producer (a workflow input, a workflow
    parameter or another step); the step contracts only ever ask it for its
    type tag through [get_type()]. *)
Record GraphNone : Type := mkGraphNone { node_type : string }.

Definition GraphNone_get_type (n : GraphNone) : string := node_type n.

(** The functions [steps.py] imports from [entities/validators.py].  That
    module is not among the sources, so the step contracts take its functions
    as an interface; an optional Python argument is an [option]. *)
Class Validators : Type := {
  is_selector : pyval -> bool;
  validate_field_has_given_type :
    string -> list pytype -> pyval -> option exn -> result unit;
  validate_field_is_empty_or_selector_or_list_of_string :
    pyval -> string -> result unit;
  validate_field_is_in_range_zero_one_or_empty_or_selector :
    pyval -> option string -> result unit;
  validate_field_is_list_of_selectors : pyval -> string -> result unit;
  validate_field_is_list_of_string :
    pyval -> string -> option exn -> result unit;
  validate_field_is_one_of_selected_values :
    pyval -> string -> gset string -> option exn -> result unit;
  validate_field_is_selector_or_has_given_type :
    pyval -> string -> list pytype -> result unit;
  validate_field_is_selector_or_one_of_values :
    pyval -> string -> gset string -> result unit;
  validate_image_biding : pyval -> result unit;
  validate_image_is_valid_selector : pyval -> result unit;
  validate_selector_holds_detections :
    string -> pyval -> pyval -> string -> GraphNone ->
    option (gset string) -> result unit;
  validate_selector_holds_image :
    string -> string -> GraphNone -> result unit;
  validate_selector_is_inference_parameter :
    string -> string -> GraphNone -> gset string -> result unit;
  validate_value_is_empty_or_number_in_range_zero_one :
    pyval -> option string -> option exn -> result unit;
  validate_value_is_empty_or_positive_number :
    pyval -> string -> option exn -> result unit;
  validate_value_is_empty_or_selector_or_positive_number :
    pyval -> string -> result unit
}.

(* ===================================================================== *)
(** ** The step variants *)
(* ===================================================================== *)

Record RoboflowModel : Type := {
  rm_name : string;
  rm_image : pyval;
  rm_model_id : pyval;
  rm_disable_active_learning : pyval
}.

Record ClassificationModel : Type := {
  cm_base : RoboflowModel;
  cm_confidence : pyval
}.

Record MultiLabelClassificationModel : Type := {
  ml_base : RoboflowModel;
  ml_confidence : pyval
}.

Record ObjectDetectionModel : Type := {
  od_base : RoboflowModel;
  od_class_agnostic_nms : pyval;
  od_class_filter : pyval;
  od_confidence : pyval;
  od_iou_threshold : pyval;
  od_max_detections : pyval;
  od_max_candidates : pyval
}.

Record KeypointsDetectionModel : Type := {
  kp_base : ObjectDetectionModel;
  kp_keypoint_confidence : pyval
}.

Definition DECODE_MODES : gset string := {[ "accurate"; "tradeoff"; "fast" ]}.

Record InstanceSegmentationModel : Type := {
  is_base : ObjectDetectionModel;
  is_mask_decode_mode : pyval;
  is_tradeoff_factor : pyval
}.

Record OCRModel : Type := {
  ocr_name : string;
  ocr_image : pyval
}.

Record Crop : Type := {
  crop_name : string;
  crop_image : pyval;
  crop_detections : pyval
}.

Inductive Operator : Type :=
| EQUAL | NOT_EQUAL | LOWER_THAN | GREATER_THAN
| LOWER_OR_EQUAL_THAN | GREATER_OR_EQUAL_THAN | IN.

Record Condition : Type := {
  cond_name : string;
  cond_left : pyval;
  cond_operator : Operator;
  cond_right : pyval;
  cond_step_if_true : string;
  cond_step_if_false : string
}.

Inductive BinaryOperator : Type := OR | AND.

Record DetectionFilterDefinition : Type := {
  dfd_field_name : string;
  dfd_operator : Operator;
  dfd_reference_value : pyval
}.

Record CompoundDetectionFilterDefinition : Type := {
  cdfd_left : DetectionFilterDefinition;
  cdfd_operator : BinaryOperator;
  cdfd_right : DetectionFilterDefinition
}.

Inductive FilterDefinition : Type :=
| SimpleFilter (d : DetectionFilterDefinition)
| CompoundFilter (c : CompoundDetectionFilterDefinition).

Record DetectionFilter : Type := {
  df_name : string;
  df_predictions : pyval;
  df_filter_definition : FilterDefinition
}.

Record DetectionOffset : Type := {
  doff_name : string;
  doff_predictions : pyval;
  doff_offset_x : pyval;
  doff_offset_y : pyval
}.

Record AbsoluteStaticCrop : Type := {
  asc_name : string;
  asc_image : pyval;
  asc_x_center : pyval;
  asc_y_center : pyval;
  asc_width : pyval;
  asc_height : pyval
}.

Record RelativeStaticCrop : Type := {
  rsc_name : string;
  rsc_image : pyval;
  rsc_x_center : pyval;
  rsc_y_center : pyval;
  rsc_width : pyval;
  rsc_height : pyval
}.

Record ClipComparison : Type := {
  clip_name : string;
  clip_image : pyval;
  clip_text : pyval
}.

Inductive AggregationMode : Type := AVERAGE | MAX | MIN.

Record DetectionsConsensus : Type := {
  dc_name : string;
  dc_predictions : list pyval;
  dc_required_votes : pyval;
  dc_class_aware : pyval;
  dc_iou_threshold : pyval;
  dc_confidence : pyval;
  dc_classes_to_consider : pyval;
  dc_required_objects : pyval;
  dc_presence_confidence_aggregation : AggregationMode;
  dc_detections_merge_confidence_aggregation : AggregationMode;
  dc_detections_merge_coordinates_aggregation : AggregationMode
}.

(** The closed set of step classes; a value of [step] is an instance
    together with its dynamic class. *)
Inductive step : Type :=
| SRoboflowModel (m : RoboflowModel)
| SClassificationModel (m : ClassificationModel)
| SMultiLabelClassificationModel (m : MultiLabelClassificationModel)
| SObjectDetectionModel (m : ObjectDetectionModel)
| SKeypointsDetectionModel (m : KeypointsDetectionModel)
| SInstanceSegmentationModel (m : InstanceSegmentationModel)
| SOCRModel (m : OCRModel)
| SCrop (m : Crop)
| SCondition (m : Condition)
| SDetectionFilter (m : DetectionFilter)
| SDetectionOffset (m : DetectionOffset)
| SAbsoluteStaticCrop (m : AbsoluteStaticCrop)
| SRelativeStaticCrop (m : RelativeStaticCrop)
| SClipComparison (m : ClipComparison)
| SDetectionsConsensus (m : DetectionsConsensus).

(** [self.type], the [Literal] tag of the dynamic class. *)
Definition get_type (self : step) : string :=
  match self with
  | SRoboflowModel _ => "RoboflowModel"
  | SClassificationModel _ => "ClassificationModel"
  | SMultiLabelClassificationModel _ => "MultiLabelClassificationModel"
  | SObjectDetectionModel _ => "ObjectDetectionModel"
  | SKeypointsDetectionModel _ => "KeypointsDetectionModel"
  | SInstanceSegmentationModel _ => "InstanceSegmentationModel"
  | SOCRModel _ => "OCRModel"
  | SCrop _ => "Crop"
  | SCondition _ => "Condition"
  | SDetectionFilter _ => "DetectionFilter"
  | SDetectionOffset _ => "DetectionOffset"
  | SAbsoluteStaticCrop _ => "AbsoluteStaticCrop"
  | SRelativeStaticCrop _ => "RelativeStaticCrop"
  | SClipComparison _ => "ClipComparison"
  | SDetectionsConsensus _ => "DetectionsConsensus"
  end.

Definition Operator_value (o : Operator) : string :=
  match o with
  | EQUAL => "equal"
  | NOT_EQUAL => "not_equal"
  | LOWER_THAN => "lower_than"
  | GREATER_THAN => "greater_than"
  | LOWER_OR_EQUAL_THAN => "lower_or_equal_than"
  | GREATER_OR_EQUAL_THAN => "greater_or_equal_than"
  | IN => "in"
  end.

Definition AggregationMode_value (a : AggregationMode) : string :=
  match a with
  | AVERAGE => "average"
  | MAX => "max"
  | MIN => "min"
  end.

(** *** Instance attributes

    The declared fields of each class, in declaration order, as the
    instance dictionary [getattr] reads. *)

Definition RoboflowModel_fields (m : RoboflowModel) : list (string * pyval) :=
  [ ("name", PStr (rm_name m));
    ("image", rm_image m);
    ("model_id", rm_model_id m);
    ("disable_active_learning", rm_disable_active_learning m) ].

Definition ObjectDetectionModel_fields (m : ObjectDetectionModel)
  : list (string * pyval) :=
  RoboflowModel_fields (od_base m) ++
  [ ("class_agnostic_nms", od_class_agnostic_nms m);
    ("class_filter", od_class_filter m);
    ("confidence", od_confidence m);
    ("iou_threshold", od_iou_threshold m);
    ("max_detections", od_max_detections m);
    ("max_candidates", od_max_candidates m) ].

Definition step_fields (self : step) : list (string * pyval) :=
  match self with
  | SRoboflowModel m => RoboflowModel_fields m
  | SClassificationModel m =>
      RoboflowModel_fields (cm_base m) ++ [ ("confidence", cm_confidence m) ]
  | SMultiLabelClassificationModel m =>
      RoboflowModel_fields (ml_base m) ++ [ ("confidence", ml_confidence m) ]
  | SObjectDetectionModel m => ObjectDetectionModel_fields m
  | SKeypointsDetectionModel m =>
      ObjectDetectionModel_fields (kp_base m) ++
      [ ("keypoint_confidence", kp_keypoint_confidence m) ]
  | SInstanceSegmentationModel m =>
      ObjectDetectionModel_fields (is_base m) ++
      [ ("mask_decode_mode", is_mask_decode_mode m);
        ("tradeoff_factor", is_tradeoff_factor m) ]
  | SOCRModel m =>
      [ ("name", PStr (ocr_name m)); ("image", ocr_image m) ]
  | SCrop m =>
      [ ("name", PStr (crop_name m)); ("image", crop_image m);
        ("detections", crop_detections m) ]
  | SCondition m =>
      [ ("name", PStr (cond_name m));
        ("left", cond_left m);
        ("operator", PObject (Operator_value (cond_operator m)));
        ("right", cond_right m);
        ("step_if_true", PStr (cond_step_if_true m));
        ("step_if_false", PStr (cond_step_if_false m)) ]
  | SDetectionFilter m =>
      [ ("name", PStr (df_name m));
        ("predictions", df_predictions m);
        ("filter_definition",
          PObject (match df_filter_definition m with
                   | SimpleFilter _ => "DetectionFilterDefinition"
                   | CompoundFilter _ => "CompoundDetectionFilterDefinition"
                   end)) ]
  | SDetectionOffset m =>
      [ ("name", PStr (doff_name m));
        ("predictions", doff_predictions m);
        ("offset_x", doff_offset_x m);
        ("offset_y", doff_offset_y m) ]
  | SAbsoluteStaticCrop m =>
      [ ("name", PStr (asc_name m)); ("image", asc_image m);
        ("x_center", asc_x_center m); ("y_center", asc_y_center m);
        ("width", asc_width m); ("height", asc_height m) ]
  | SRelativeStaticCrop m =>
      [ ("name", PStr (rsc_name m)); ("image", rsc_image m);
        ("x_center", rsc_x_center m); ("y_center", rsc_y_center m);
        ("width", rsc_width m); ("height", rsc_height m) ]
  | SClipComparison m =>
      [ ("name", PStr (clip_name m)); ("image", clip_image m);
        ("text", clip_text m) ]
  | SDetectionsConsensus m =>
      [ ("name", PStr (dc_name m));
        ("predictions", PList (dc_predictions m));
        ("required_votes", dc_required_votes m);
        ("class_aware", dc_class_aware m);
        ("iou_threshold", dc_iou_threshold m);
        ("confidence", dc_confidence m);
        ("classes_to_consider", dc_classes_to_consider m);
        ("required_objects", dc_required_objects m);
        ("presence_confidence_aggregation",
          PObject (AggregationMode_value
                     (dc_presence_confidence_aggregation m)));
        ("detections_merge_confidence_aggregation",
          PObject (AggregationMode_value
                     (dc_detections_merge_confidence_aggregation m)));
        ("detections_merge_coordinates_aggregation",
          PObject (AggregationMode_value
                     (dc_detections_merge_coordinates_aggregation m))) ]
  end.

(** [getattr(self, field_name)]: the stored field, [AttributeError] for a
    name the instance does not have. *)
Definition getattr (self : step) (field_name : string) : result pyval :=
  match assoc field_name (("type", PStr (get_type self)) :: step_fields self) with
  | Some v => Ok v
  | None => Raise AttributeError
  end.

(** [field_name in {...}]. *)
Definition in_set (x : string) (s : gset string) : bool := bool_decide (x ∈ s).

(* ===================================================================== *)
(** ** [validate_field_selector] *)
(* ===================================================================== *)

Section StepContracts.

Context {V : Validators}.

(** The guard every single-valued path starts with:
    [if not is_selector(getattr(self, field_name)): raise ExecutionGraphError]. *)
Definition require_selector (self : step) (field_name : string) : result unit :=
  v ← getattr self field_name;
  if negb (is_selector v) then Raise ExecutionGraphError else Ok tt.

Definition RoboflowModel_validate_field_selector
  (self : step) (field_name : string) (input_step : GraphNone)
  (index : option Z) : result unit :=
  require_selector self field_name;;
  validate_selector_holds_image (get_type self) field_name input_step;;
  validate_selector_is_inference_parameter
    (get_type self) field_name input_step
    {[ "model_id"; "disable_active_learning" ]}.

Definition ClassificationModel_validate_field_selector
  (self : step) (field_name : string) (input_step : GraphNone)
  (index : option Z) : result unit :=
  RoboflowModel_validate_field_selector self field_name input_step None;;
  validate_selector_is_inference_parameter
    (get_type self) field_name input_step {[ "confidence" ]}.

Definition MultiLabelClassificationModel_validate_field_selector
  (self : step) (field_name : string) (input_step : GraphNone)
  (index : option Z) : result unit :=
  RoboflowModel_validate_field_selector self field_name input_step None;;
  validate_selector_is_inference_parameter
    (get_type self) field_name input_step {[ "confidence" ]}.

Definition ObjectDetectionModel_validate_field_selector
  (self : step) (field_name : string) (input_step : GraphNone)
  (index : option Z) : result unit :=
  RoboflowModel_validate_field_selector self field_name input_step None;;
  validate_selector_is_inference_parameter
    (get_type self) field_name input_step
    {[ "class_agnostic_nms"; "class_filter"; "confidence"; "iou_threshold";
       "max_detections"; "max_candidates" ]}.

Definition KeypointsDetectionModel_validate_field_selector
  (self : step) (field_name : string) (input_step : GraphNone)
  (index : option Z) : result unit :=
  ObjectDetectionModel_validate_field_selector self field_name input_step None;;
  validate_selector_is_inference_parameter
    (get_type self) field_name input_step {[ "keypoint_confidence" ]}.

Definition InstanceSegmentationModel_validate_field_selector
  (self : step) (field_name : string) (input_step : GraphNone)
  (index : option Z) : result unit :=
  ObjectDetectionModel_validate_field_selector self field_name input_step None;;
  validate_selector_is_inference_parameter
    (get_type self) field_name input_step
    {[ "mask_decode_mode"; "tradeoff_factor" ]}.

Definition OCRModel_validate_field_selector
  (m : OCRModel) (field_name : string) (input_step : GraphNone)
  (index : option Z) : result unit :=
  require_selector (SOCRModel m) field_name;;
  validate_selector_holds_image (get_type (SOCRModel m)) field_name input_step.

Definition Crop_validate_field_selector
  (m : Crop) (field_name : string) (input_step : GraphNone)
  (index : option Z) : result unit :=
  require_selector (SCrop m) field_name;;
  validate_selector_holds_image (get_type (SCrop m)) field_name input_step;;
  validate_selector_holds_detections
    (crop_name m) (crop_image m) (crop_detections m) field_name input_step None.

Definition Condition_validate_field_selector
  (m : Condition) (field_name : string) (input_step : GraphNone)
  (index : option Z) : result unit :=
  require_selector (SCondition m) field_name;;
  let input_type := GraphNone_get_type input_step in
  if in_set field_name {[ "left"; "right" ]}
  then if String.eqb input_type "InferenceImage"
       then Raise InvalidStepInputDetected
       else Ok tt
  else Ok tt.

Definition DetectionFilter_validate_field_selector
  (m : DetectionFilter) (field_name : string) (input_step : GraphNone)
  (index : option Z) : result unit :=
  require_selector (SDetectionFilter m) field_name;;
  validate_selector_holds_detections
    (df_name m) PNone (df_predictions m) field_name input_step
    (Some {[ "predictions" ]}).

Definition DetectionOffset_validate_field_selector
  (m : DetectionOffset) (field_name : string) (input_step : GraphNone)
  (index : option Z) : result unit :=
  require_selector (SDetectionOffset m) field_name;;
  validate_selector_holds_detections
    (doff_name m) PNone (doff_predictions m) field_name input_step
    (Some {[ "predictions" ]});;
  validate_selector_is_inference_parameter
    (get_type (SDetectionOffset m)) field_name input_step
    {[ "offset_x"; "offset_y" ]}.

Definition AbsoluteStaticCrop_validate_field_selector
  (m : AbsoluteStaticCrop) (field_name : string) (input_step : GraphNone)
  (index : option Z) : result unit :=
  require_selector (SAbsoluteStaticCrop m) field_name;;
  validate_selector_holds_image
    (get_type (SAbsoluteStaticCrop m)) field_name input_step;;
  validate_selector_is_inference_parameter
    (get_type (SAbsoluteStaticCrop m)) field_name input_step
    {[ "x_center"; "y_center"; "width"; "height" ]}.

Definition RelativeStaticCrop_validate_field_selector
  (m : RelativeStaticCrop) (field_name : string) (input_step : GraphNone)
  (index : option Z) : result unit :=
  require_selector (SRelativeStaticCrop m) field_name;;
  validate_selector_holds_image
    (get_type (SRelativeStaticCrop m)) field_name input_step;;
  validate_selector_is_inference_parameter
    (get_type (SRelativeStaticCrop m)) field_name input_step
    {[ "x_center"; "y_center"; "width"; "height" ]}.

Definition ClipComparison_validate_field_selector
  (m : ClipComparison) (field_name : string) (input_step : GraphNone)
  (index : option Z) : result unit :=
  require_selector (SClipComparison m) field_name;;
  validate_selector_holds_image
    (get_type (SClipComparison m)) field_name input_step;;
  validate_selector_is_inference_parameter
    (get_type (SClipComparison m)) field_name input_step {[ "text" ]}.

Definition DetectionsConsensus_validate_field_selector
  (m : DetectionsConsensus) (field_name : string) (input_step : GraphNone)
  (index : option Z) : result unit :=
  (if negb (String.eqb field_name "predictions")
   then require_selector (SDetectionsConsensus m) field_name
   else Ok tt);;
  if String.eqb field_name "predictions"
  then
    match index with
    | None => Raise ExecutionGraphError
    | Some i =>
        if Z.ltb (Z.of_nat (length (dc_predictions m))) i
        then Raise ExecutionGraphError
        else
          p ← py_getitem (dc_predictions m) i;
          if negb (is_selector p) then Raise ExecutionGraphError
          else
            p' ← py_getitem (dc_predictions m) i;
            validate_selector_holds_detections
              (dc_name m) PNone p' field_name input_step
              (Some {[ "predictions" ]})
    end
  else
    validate_selector_is_inference_parameter
      (get_type (SDetectionsConsensus m)) field_name input_step
      {[ "required_votes"; "class_aware"; "iou_threshold"; "confidence";
         "classes_to_consider"; "required_objects" ]}.

(** Method dispatch on the dynamic class. *)
Definition validate_field_selector
  (self : step) (field_name : string) (input_step : GraphNone)
  (index : option Z) : result unit :=
  match self with
  | SRoboflowModel _ =>
      RoboflowModel_validate_field_selector self field_name input_step index
  | SClassificationModel _ =>
      ClassificationModel_validate_field_selector self field_name input_step index
  | SMultiLabelClassificationModel _ =>
      MultiLabelClassificationModel_validate_field_selector
        self field_name input_step index
  | SObjectDetectionModel _ =>
      ObjectDetectionModel_validate_field_selector self field_name input_step index
  | SKeypointsDetectionModel _ =>
      KeypointsDetectionModel_validate_field_selector
        self field_name input_step index
  | SInstanceSegmentationModel _ =>
      InstanceSegmentationModel_validate_field_selector
        self field_name input_step index
  | SOCRModel m => OCRModel_validate_field_selector m field_name input_step index
  | SCrop m => Crop_validate_field_selector m field_name input_step index
  | SCondition m => Condition_validate_field_selector m field_name input_step index
  | SDetectionFilter m =>
      DetectionFilter_validate_field_selector m field_name input_step index
  | SDetectionOffset m =>
      DetectionOffset_validate_field_selector m field_name input_step index
  | SAbsoluteStaticCrop m =>
      AbsoluteStaticCrop_validate_field_selector m field_name input_step index
  | SRelativeStaticCrop m =>
      RelativeStaticCrop_validate_field_selector m field_name input_step index
  | SClipComparison m =>
      ClipComparison_validate_field_selector m field_name input_step index
  | SDetectionsConsensus m =>
      DetectionsConsensus_validate_field_selector m field_name input_step index
  end.

End StepContracts.

(* ===================================================================== *)
(** ** [validate_field_binding] *)
(* ===================================================================== *)

(** [issubclass(type(value), int)] and [issubclass(type(value), float)]. *)
Definition type_is_int (v : pyval) : bool :=
  match v with PBool _ | PInt _ => true | _ => false end.

Definition type_is_float (v : pyval) : bool :=
  match v with
  | PFloat _ | PFloatInf _ | PFloatNaN => true
  | _ => false
  end.

Definition is_None (v : pyval) : bool :=
  match v with PNone => true | _ => false end.

(** Python [round(value)]: an [int] rounds to itself, a finite float to the
    nearest integer; a NaN raises [ValueError] and an infinity
    [OverflowError]; other values have no [__round__]. *)
Definition py_round (v : pyval) : result pyval :=
  match v with
  | PBool b => Ok (PInt (if b then 1 else 0))
  | PInt z => Ok (PInt z)
  | PFloat q => z ← round_number (binary64 q); Ok (PInt z)
  | PFloatInf negative => z ← round_number (Infinite negative); Ok (PInt z)
  | PFloatNaN => z ← round_number NaN; Ok (PInt z)
  | _ => Raise TypeError
  end.

(** Python [len(value)]. *)
Definition py_len (v : pyval) : result Z :=
  match v with
  | PStr s => Ok (Z.of_nat (String.length s))
  | PList l => Ok (Z.of_nat (length l))
  | PDict d => Ok (Z.of_nat (length d))
  | _ => Raise TypeError
  end.

Section FieldBinding.

Context {V : Validators}.

Definition RoboflowModel_validate_field_binding
  (self : step) (field_name : string) (value : pyval) : result unit :=
  if String.eqb field_name "image" then validate_image_biding value
  else if String.eqb field_name "model_id" then
    validate_field_has_given_type field_name [TStr] value (Some VariableTypeError)
  else if String.eqb field_name "disable_active_learning" then
    validate_field_has_given_type field_name [TBool] value (Some VariableTypeError)
  else Ok tt.

Definition ClassificationModel_validate_field_binding
  (self : step) (field_name : string) (value : pyval) : result unit :=
  RoboflowModel_validate_field_binding self field_name value;;
  if String.eqb field_name "confidence" then
    if is_None value then Raise VariableTypeError
    else validate_value_is_empty_or_number_in_range_zero_one
           value None (Some VariableTypeError)
  else Ok tt.

Definition MultiLabelClassificationModel_validate_field_binding
  (self : step) (field_name : string) (value : pyval) : result unit :=
  RoboflowModel_validate_field_binding self field_name value;;
  if String.eqb field_name "confidence" then
    if is_None value then Raise VariableTypeError
    else validate_value_is_empty_or_number_in_range_zero_one
           value None (Some VariableTypeError)
  else Ok tt.

Definition ObjectDetectionModel_validate_field_binding
  (self : step) (field_name : string) (value : pyval) : result unit :=
  RoboflowModel_validate_field_binding self field_name value;;
  if is_None value then Raise VariableTypeError
  else if String.eqb field_name "class_agnostic_nms" then
    validate_field_has_given_type field_name [TBool] value (Some VariableTypeError)
  else if String.eqb field_name "class_filter" then
    if is_None value then Ok tt
    else validate_field_is_list_of_string value field_name (Some VariableTypeError)
  else if String.eqb field_name "confidence"
          || String.eqb field_name "iou_threshold" then
    validate_value_is_empty_or_number_in_range_zero_one
      value (Some field_name) (Some VariableTypeError)
  else if String.eqb field_name "max_detections"
          || String.eqb field_name "max_candidates" then
    validate_value_is_empty_or_positive_number
      value field_name (Some VariableTypeError)
  else Ok tt.

Definition KeypointsDetectionModel_validate_field_binding
  (self : step) (field_name : string) (value : pyval) : result unit :=
  ObjectDetectionModel_validate_field_binding self field_name value;;
  if String.eqb field_name "keypoint_confidence" then
    validate_value_is_empty_or_number_in_range_zero_one
      value (Some field_name) (Some VariableTypeError)
  else Ok tt.

Definition InstanceSegmentationModel_validate_field_binding
  (self : step) (field_name : string) (value : pyval) : result unit :=
  ObjectDetectionModel_validate_field_binding self field_name value;;
  if String.eqb field_name "mask_decode_mode" then
    validate_field_is_one_of_selected_values
      value field_name DECODE_MODES (Some VariableTypeError)
  else if String.eqb field_name "tradeoff_factor" then
    validate_value_is_empty_or_number_in_range_zero_one
      value (Some field_name) (Some VariableTypeError)
  else Ok tt.

(** [(not int and not float) or value != round(value)]; [or] evaluates its
    right operand only when the left one is false. *)
Definition not_integral (value : pyval) : result bool :=
  if negb (type_is_int value) && negb (type_is_float value) then Ok true
  else r ← py_round value; Ok (py_ne value r).

Definition AbsoluteStaticCrop_validate_field_binding
  (m : AbsoluteStaticCrop) (field_name : string) (value : pyval) : result unit :=
  (if String.eqb field_name "image" then validate_image_biding value else Ok tt);;
  if in_set field_name {[ "x_center"; "y_center"; "width"; "height" ]} then
    bad ← not_integral value;
    if bad : bool then Raise VariableTypeError else Ok tt
  else Ok tt.

End FieldBinding.

(* ===================================================================== *)
(** ** Field validators run at construction *)
(* ===================================================================== *)

(** A method decorated with [@field_validator(f1, ..., fn)].  A validator
    that raises makes the construction of the step fail; all validators of
    [steps.py] return the value unchanged. *)
Record FieldValidator : Type := {
  fv_method : string;
  fv_fields : list string;
  fv_call : pyval -> result unit
}.

(** pydantic keeps the decorated methods of a class by method name: going
    from the base class down, a method of a subclass takes the place of an
    inherited method of the same name (as any overridden class attribute
    does), a method with a new name is added at the end. *)
Fixpoint replace_or_append (d : FieldValidator) (ds : list FieldValidator)
  : list FieldValidator :=
  match ds with
  | [] => [d]
  | d' :: ds' =>
      if String.eqb (fv_method d') (fv_method d)
      then d :: ds'
      else d' :: replace_or_append d ds'
  end.

Definition inherit_validators (parent own : list FieldValidator)
  : list FieldValidator :=
  fold_left (fun acc d => replace_or_append d acc) own parent.

(** The validators registered for [field_name] run in order on the value. *)
Fixpoint run_field_validators
  (ds : list FieldValidator) (field_name : string) (value : pyval)
  : result unit :=
  match ds with
  | [] => Ok tt
  | d :: ds' =>
      (if existsb (String.eqb field_name) (fv_fields d)
       then fv_call d value else Ok tt);;
      run_field_validators ds' field_name value
  end.

(** [RoboflowModel] and the classes derived from it. *)
Inductive model_class : Type :=
| CRoboflowModel
| CClassificationModel
| CMultiLabelClassificationModel
| CObjectDetectionModel
| CKeypointsDetectionModel
| CInstanceSegmentationModel.

Section Construction.

Context {V : Validators}.

Definition RoboflowModel_own_validators : list FieldValidator :=
  [ {| fv_method := "validate_image"; fv_fields := ["image"];
       fv_call := fun value => validate_image_is_valid_selector value |};
    {| fv_method := "model_id_must_be_selector_or_str";
       fv_fields := ["model_id"];
       fv_call := fun value =>
         validate_field_is_selector_or_has_given_type value "model_id" [TStr] |};
    {| fv_method := "disable_active_learning_must_be_selector_or_bool";
       fv_fields := ["disable_active_learning"];
       fv_call := fun value =>
         validate_field_is_selector_or_has_given_type
           value "disable_active_learning" [TNoneType; TBool] |} ].

Definition ClassificationModel_own_validators : list FieldValidator :=
  [ {| fv_method := "confidence_must_be_selector_or_number";
       fv_fields := ["confidence"];
       fv_call := fun value =>
         validate_field_is_in_range_zero_one_or_empty_or_selector value None |} ].

Definition MultiLabelClassificationModel_own_validators : list FieldValidator :=
  [ {| fv_method := "confidence_must_be_selector_or_number";
       fv_fields := ["confidence"];
       fv_call := fun value =>
         validate_field_is_in_range_zero_one_or_empty_or_selector value None |} ].

Definition ObjectDetectionModel_own_validators : list FieldValidator :=
  [ {| fv_method := "class_agnostic_nms_must_be_selector_or_bool";
       fv_fields := ["class_agnostic_nms"];
       fv_call := fun value =>
         validate_field_is_selector_or_has_given_type
           value "class_agnostic_nms" [TNoneType; TBool] |};
    {| fv_method := "class_filter_must_be_selector_or_list_of_string";
       fv_fields := ["class_filter"];
       fv_call := fun value =>
         validate_field_is_empty_or_selector_or_list_of_string
           value "class_filter" |};
    {| fv_method := "field_must_be_selector_or_number_from_zero_to_one";
       fv_fields := ["confidence"; "iou_threshold"];
       fv_call := fun value =>
         validate_field_is_in_range_zero_one_or_empty_or_selector
           value (Some "confidence | iou_threshold") |};
    {| fv_method := "field_must_be_selector_or_positive_number";
       fv_fields := ["max_detections"; "max_candidates"];
       fv_call := fun value =>
         validate_value_is_empty_or_selector_or_positive_number
           value "max_detections | max_candidates" |} ].

Definition KeypointsDetectionModel_own_validators : list FieldValidator :=
  [ {| fv_method :=
         "keypoint_confidence_field_must_be_selector_or_number_from_zero_to_one";
       fv_fields := ["keypoint_confidence"];
       fv_call := fun value =>
         validate_field_is_in_range_zero_one_or_empty_or_selector
           value (Some "keypoint_confidence") |} ].

Definition InstanceSegmentationModel_own_validators : list FieldValidator :=
  [ {| fv_method := "mask_decode_mode_must_be_selector_or_one_of_allowed_values";
       fv_fields := ["mask_decode_mode"];
       fv_call := fun value =>
         validate_field_is_selector_or_one_of_values
           value "mask_decode_mode" DECODE_MODES |};
    {| fv_method := "field_must_be_selector_or_number_from_zero_to_one";
       fv_fields := ["tradeoff_factor"];
       fv_call := fun value =>
         validate_field_is_in_range_zero_one_or_empty_or_selector
           value (Some "tradeoff_factor") |} ].

(** The validators in force for a class, following its chain of bases. *)
Definition field_validators (c : model_class) : list FieldValidator :=
  match c with
  | CRoboflowModel => RoboflowModel_own_validators
  | CClassificationModel =>
      inherit_validators RoboflowModel_own_validators
        ClassificationModel_own_validators
  | CMultiLabelClassificationModel =>
      inherit_validators RoboflowModel_own_validators
        MultiLabelClassificationModel_own_validators
  | CObjectDetectionModel =>
      inherit_validators RoboflowModel_own_validators
        ObjectDetectionModel_own_validators
  | CKeypointsDetectionModel =>
      inherit_validators
        (inherit_validators RoboflowModel_own_validators
           ObjectDetectionModel_own_validators)
        KeypointsDetectionModel_own_validators
  | CInstanceSegmentationModel =>
      inherit_validators
        (inherit_validators RoboflowModel_own_validators
           ObjectDetectionModel_own_validators)
        InstanceSegmentationModel_own_validators
  end.

(** What constructing a step of class [c] does with the value given for
    [field_name]. *)
Definition construct_field (c : model_class) (field_name : string)
  (value : pyval) : result unit :=
  run_field_validators (field_validators c) field_name value.

(** [DetectionsConsensus.predictions_must_be_list_of_selectors]. *)
Definition predictions_must_be_list_of_selectors (value : pyval) : result unit :=
  validate_field_is_list_of_selectors value "predictions";;
  n ← py_len value;
  if Z.ltb n 1 then Raise ValueError else Ok tt.

End Construction.

(* ===================================================================== *)
(** ** The validators, as the specification describes them *)
(* ===================================================================== *)

Module Spec.

(** Modelled from the spec: [is_selector] of [entities/validators.py], which
    is not among the sources.  A selector is a reference string naming a
    workflow input, a workflow parameter or a step output ([$inputs.image],
    [$steps.detect.predictions]), recognised by its prefix; anything else is
    a literal. *)
Definition is_selector (selector_or_value : pyval) : bool :=
  match selector_or_value with
  | PStr s => String.prefix "$" s
  | _ => false
  end.

Definition has_type (value : pyval) (t : pytype) : bool :=
  match t, value with
  | TNoneType, PNone => true
  | TBool, PBool _ => true
  | TInt, (PInt _ | PBool _) => true
  | TFloat, (PFloat _ | PFloatInf _ | PFloatNaN) => true
  | TStr, PStr _ => true
  | TList, PList _ => true
  | TDict, PDict _ => true
  | _, _ => false
  end.

Definition error_or_default (error : option exn) : exn :=
  match error with Some e => e | None => ValueError end.

(** Modelled from the spec: [validate_field_has_given_type] (absent
    [validators.py]); a value of the wrong shape for its field is a
    binding-type or construction error. *)
Definition validate_field_has_given_type
  (field_name : string) (allowed_types : list pytype) (value : pyval)
  (error : option exn) : result unit :=
  if existsb (has_type value) allowed_types then Ok tt
  else Raise (error_or_default error).

(** Modelled from the spec: [validate_field_is_list_of_string] (absent
    [validators.py]); wrong element type or wrong collection shape is an
    error. *)
Definition validate_field_is_list_of_string
  (value : pyval) (field_name : string) (error : option exn) : result unit :=
  match value with
  | PList l =>
      if forallb (fun e => has_type e TStr) l then Ok tt
      else Raise (error_or_default error)
  | _ => Raise (error_or_default error)
  end.

(** Modelled from the spec: [validate_field_is_empty_or_selector_or_list_of_string]
    (absent [validators.py]). *)
Definition validate_field_is_empty_or_selector_or_list_of_string
  (value : pyval) (field_name : string) : result unit :=
  if is_selector value || is_None value then Ok tt
  else validate_field_is_list_of_string value field_name None.

(** Modelled from the spec: [validate_value_is_empty_or_number_in_range_zero_one]
    (absent [validators.py]); numeric fields are constrained to [0,1] when
    literal. *)
Definition validate_value_is_empty_or_number_in_range_zero_one
  (value : pyval) (field_name : option string) (error : option exn)
  : result unit :=
  match value with
  | PNone => Ok tt
  | _ =>
      match num_val value with
      | Some q =>
          if Qle_bool 0 q && Qle_bool q 1 then Ok tt
          else Raise (error_or_default error)
      | None => Raise (error_or_default error)
      end
  end.

(** Modelled from the spec: [validate_field_is_in_range_zero_one_or_empty_or_selector]
    (absent [validators.py]); numeric fields are constrained to [0,1] when
    literal, or hold a selector. *)
Definition validate_field_is_in_range_zero_one_or_empty_or_selector
  (value : pyval) (field_name : option string) : result unit :=
  if is_selector value || is_None value then Ok tt
  else validate_value_is_empty_or_number_in_range_zero_one value field_name None.

(** Modelled from the spec: [validate_value_is_empty_or_positive_number]
    (absent [validators.py]); [max_detections]/[max_candidates] are positive
    integers. *)
Definition validate_value_is_empty_or_positive_number
  (value : pyval) (field_name : string) (error : option exn) : result unit :=
  match value with
  | PNone => Ok tt
  | _ =>
      match num_val value with
      | Some q =>
          if Qle_bool q 0 then Raise (error_or_default error) else Ok tt
      | None => Raise (error_or_default error)
      end
  end.

(** Modelled from the spec: [validate_value_is_empty_or_selector_or_positive_number]
    (absent [validators.py]). *)
Definition validate_value_is_empty_or_selector_or_positive_number
  (value : pyval) (field_name : string) : result unit :=
  if is_selector value then Ok tt
  else validate_value_is_empty_or_positive_number value field_name None.

(** Modelled from the spec: [validate_field_is_list_of_selectors] (absent
    [validators.py]); [predictions] is a list of selectors. *)
Definition validate_field_is_list_of_selectors
  (value : pyval) (field_name : string) : result unit :=
  match value with
  | PList l => if forallb is_selector l then Ok tt else Raise ValueError
  | _ => Raise ValueError
  end.

(** Modelled from the spec: [validate_field_is_one_of_selected_values]
    (absent [validators.py]); the value is constrained to an enumerated
    set. *)
Definition validate_field_is_one_of_selected_values
  (value : pyval) (field_name : string) (selected_values : gset string)
  (error : option exn) : result unit :=
  match value with
  | PStr s =>
      if in_set s selected_values then Ok tt
      else Raise (error_or_default error)
  | _ => Raise (error_or_default error)
  end.

(** Modelled from the spec: [validate_field_is_selector_or_has_given_type]
    (absent [validators.py]). *)
Definition validate_field_is_selector_or_has_given_type
  (value : pyval) (field_name : string) (allowed_types : list pytype)
  : result unit :=
  if is_selector value then Ok tt
  else validate_field_has_given_type field_name allowed_types value None.

(** Modelled from the spec: [validate_field_is_selector_or_one_of_values]
    (absent [validators.py]); [mask_decode_mode] is a selector or one of the
    enumerated values. *)
Definition validate_field_is_selector_or_one_of_values
  (value : pyval) (field_name : string) (selected_values : gset string)
  : result unit :=
  if is_selector value then Ok tt
  else validate_field_is_one_of_selected_values
         value field_name selected_values None.

(** Modelled from the spec: [validate_image_is_valid_selector] (absent
    [validators.py]); [image] must be a selector, or a list of them. *)
Definition validate_image_is_valid_selector (value : pyval) : result unit :=
  match value with
  | PList l => if forallb is_selector l then Ok tt else Raise ValueError
  | _ => if is_selector value then Ok tt else Raise ValueError
  end.

(** Modelled from the spec: [validate_image_biding] (absent
    [validators.py]); a bound image is an image description, or a list of
    them. *)
Definition validate_image_biding (value : pyval) : result unit :=
  match value with
  | PList l =>
      if forallb (fun e => has_type e TDict) l then Ok tt
      else Raise VariableTypeError
  | PDict _ => Ok tt
  | _ => Raise VariableTypeError
  end.

(** The type tags of the producers of kind "image" and of kind
    "object-detection-predictions". *)
Definition image_producers : gset string :=
  {[ "InferenceImage"; "Crop"; "AbsoluteStaticCrop"; "RelativeStaticCrop" ]}.

Definition detections_producers : gset string :=
  {[ "ObjectDetectionModel"; "KeypointsDetectionModel";
     "InstanceSegmentationModel"; "DetectionFilter"; "DetectionsConsensus";
     "DetectionOffset" ]}.

(** Modelled from the spec: [validate_selector_holds_image] (absent
    [validators.py]); [image] must be bound to a producer of kind "image",
    otherwise a kind-mismatch error. *)
Definition validate_selector_holds_image
  (step_type field_name : string) (input_step : GraphNone) : result unit :=
  if negb (String.eqb field_name "image") then Ok tt
  else if in_set (GraphNone_get_type input_step) image_producers then Ok tt
  else Raise InvalidStepInputDetected.

(** Modelled from the spec: [validate_selector_is_inference_parameter]
    (absent [validators.py]); the applicable fields must be bound to a
    scalar-parameter producer. *)
Definition validate_selector_is_inference_parameter
  (step_type field_name : string) (input_step : GraphNone)
  (applicable_fields : gset string) : result unit :=
  if negb (in_set field_name applicable_fields) then Ok tt
  else if String.eqb (GraphNone_get_type input_step) "InferenceParameter"
  then Ok tt
  else Raise InvalidStepInputDetected.

(** Modelled from the spec: [validate_selector_holds_detections] (absent
    [validators.py]); the applicable fields must be bound to a producer of
    detections. *)
Definition validate_selector_holds_detections
  (step_name : string) (image_selector detections_selector : pyval)
  (field_name : string) (input_step : GraphNone)
  (applicable_fields : option (gset string)) : result unit :=
  let fields := match applicable_fields with
                | Some s => s
                | None => {[ "detections" ]}
                end in
  if negb (in_set field_name fields) then Ok tt
  else if in_set (GraphNone_get_type input_step) detections_producers then Ok tt
  else Raise InvalidStepInputDetected.

End Spec.

#[global] Instance spec_validators : Validators := {|
  is_selector := Spec.is_selector;
  validate_field_has_given_type := Spec.validate_field_has_given_type;
  validate_field_is_empty_or_selector_or_list_of_string :=
    Spec.validate_field_is_empty_or_selector_or_list_of_string;
  validate_field_is_in_range_zero_one_or_empty_or_selector :=
    Spec.validate_field_is_in_range_zero_one_or_empty_or_selector;
  validate_field_is_list_of_selectors := Spec.validate_field_is_list_of_selectors;
  validate_field_is_list_of_string := Spec.validate_field_is_list_of_string;
  validate_field_is_one_of_selected_values :=
    Spec.validate_field_is_one_of_selected_values;
  validate_field_is_selector_or_has_given_type :=
    Spec.validate_field_is_selector_or_has_given_type;
  validate_field_is_selector_or_one_of_values :=
    Spec.validate_field_is_selector_or_one_of_values;
  validate_image_biding := Spec.validate_image_biding;
  validate_image_is_valid_selector := Spec.validate_image_is_valid_selector;
  validate_selector_holds_detections := Spec.validate_selector_holds_detections;
  validate_selector_holds_image := Spec.validate_selector_holds_image;
  validate_selector_is_inference_parameter :=
    Spec.validate_selector_is_inference_parameter;
  validate_value_is_empty_or_number_in_range_zero_one :=
    Spec.validate_value_is_empty_or_number_in_range_zero_one;
  validate_value_is_empty_or_positive_number :=
    Spec.validate_value_is_empty_or_positive_number;
  validate_value_is_empty_or_selector_or_positive_number :=
    Spec.validate_value_is_empty_or_selector_or_positive_number
|}.

(* ===================================================================== *)
(** ** [merge_usage_dicts] *)
(* ===================================================================== *)

(** [d.get(k)]: the entry, [None] when the key is missing. *)
Definition dict_get (d : gmap string pyval) (k : string) : pyval :=
  default PNone (d !! k).

(** Truthiness of a dictionary: it has at least one entry. *)
Definition dict_truthy (d : gmap string pyval) : bool :=
  negb (Nat.eqb (size d) 0).

(** [if k in d1 and k in d2: merged[k] = op(d1[k], d2[k])]. *)
Definition merge_field (op : pyval -> pyval -> result pyval) (k : string)
  (d1 d2 merged : gmap string pyval) : result (gmap string pyval) :=
  match d1 !! k, d2 !! k with
  | Some a, Some b => v ← op a b; Ok (<[k := v]> merged)
  | _, _ => Ok merged
  end.

(** The dictionary display [{**d1, **d2, **merged}] lets later entries win;
    the union of [gmap] is biased to the left. *)
Definition merge_usage_dicts (d1 d2 : gmap string pyval)
  : result (gmap string pyval) :=
  let merged : gmap string pyval := ∅ in
  if dict_truthy d1 && dict_truthy d2
     && py_ne (dict_get d1 "resource_id") (dict_get d2 "resource_id")
  then Raise ValueError
  else
    merged ← merge_field py_min "timestamp_start" d1 d2 merged;
    merged ← merge_field py_max "timestamp_stop" d1 d2 merged;
    merged ← merge_field py_add "processed_frames" d1 d2 merged;
    merged ← merge_field py_add "source_duration" d1 d2 merged;
    Ok (merged ∪ d2 ∪ d1).

(** The four fields [merge_usage_dicts] reconciles. *)
Definition reconciled_fields : list string :=
  [ "timestamp_start"; "timestamp_stop"; "processed_frames"; "source_duration" ].

(** The combination the merge applies to a reconciled field. *)
Definition reconcile (k : string) : pyval -> pyval -> result pyval :=
  if String.eqb k "timestamp_start" then py_min
  else if String.eqb k "timestamp_stop" then py_max
  else py_add.


(* ===================================================================== *)
(** ** [get_workspace_name] *)
(* ===================================================================== *)

Definition WORKSPACE_NAME_CACHE_EXPIRE : Z := 900.

(** The two operations of [BaseCache] (of [inference/core/cache/base.py],
    not among the sources) that [get_workspace_name] calls: [get] answers
    [None] for a key it does not hold, [set] stores a value with an expiry
    in seconds. *)
Class BaseCache (C : Type) : Type := {
  cache_get : C -> string -> pyval;
  cache_set : C -> string -> pyval -> Z -> C
}.

Section WorkspaceName.

Context {C : Type} `{BaseCache C}.

(** [hashlib.md5(s.encode("utf-8")).hexdigest()]. *)
Variable md5_hexdigest : string -> string.

(** [get_roboflow_workspace(api_key=...)], a call to the Roboflow API. *)
Variable get_roboflow_workspace : string -> result string.

Definition workspace_cache_key (api_key : string) : string :=
  "workflows:api_key_to_workspace:" ++ md5_hexdigest api_key.

(** The function returns a value and leaves a cache behind.  The last
    statement of the body is the call of [cache.set]; there is no [return]
    after it, so the call answers [None]. *)
Definition get_workspace_name (api_key : string) (cache : C)
  : result pyval * C :=
  let cache_key := workspace_cache_key api_key in
  let cached_workspace_name := cache_get cache cache_key in
  if py_truthy cached_workspace_name
  then (Ok cached_workspace_name, cache)
  else
    match get_roboflow_workspace api_key with
    | Raise e => (Raise e, cache)
    | Ok workspace_name_from_api =>
        (Ok PNone,
         cache_set cache cache_key (PStr workspace_name_from_api)
           WORKSPACE_NAME_CACHE_EXPIRE)
    end.

End WorkspaceName.

(** Modelled from the spec: an implementation of [BaseCache] (absent
    [inference/core/cache/base.py]) as an in-memory dictionary from keys to
    values with their expiry. *)
#[global] Instance dict_cache : BaseCache (gmap string (pyval * Z)) := {|
  cache_get c k := match c !! k with Some (v, _) => v | None => PNone end;
  cache_set c k v expire := <[k := (v, expire)]> c
|}.

(* ===================================================================== *)
(** ** Vocabulary of the statements *)
(* ===================================================================== *)

(** The one list-of-selectors field of the registry: [predictions] of the
    consensus step.  Every other field is single-valued. *)
Definition is_list_field (self : step) (field_name : string) : bool :=
  match self with
  | SDetectionsConsensus _ => String.eqb field_name "predictions"
  | _ => false
  end.

(** An [int], or a float equal to an integer. *)
Definition integral_number (v : pyval) : Prop :=
  match v with
  | PBool _ | PInt _ => True
  | PFloat q =>
      match binary64 q with
      | Finite r => ∃ z : Z, (r == inject_Z z)%Q
      | _ => False
      end
  | _ => False
  end.

(** The float [nan], and the floats [inf] and [-inf]. *)
Definition not_a_number (v : pyval) : Prop := number_of v = Some NaN.

Definition infinite_float (v : pyval) : Prop :=
  ∃ negative : bool, number_of v = Some (Infinite negative).

(** The coordinate fields of the static crops. *)
Definition coordinate_field (field_name : string) : Prop :=
  field_name = "x_center" ∨ field_name = "y_center"
  ∨ field_name = "width" ∨ field_name = "height".

(** *** Example steps and producers *)

Definition classifier_node : GraphNone := mkGraphNone "ClassificationModel".
Definition image_node : GraphNone := mkGraphNone "InferenceImage".
Definition detector_node : GraphNone := mkGraphNone "ObjectDetectionModel".

(** A condition whose [left] is wired to a classifier output and whose
    [right] is a literal. *)
Definition example_condition : Condition := {|
  cond_name := "is_cat";
  cond_left := PStr "$steps.classify.top";
  cond_operator := EQUAL;
  cond_right := PStr "cat";
  cond_step_if_true := "$steps.crop";
  cond_step_if_false := "$steps.skip"
|}.

Definition example_consensus : DetectionsConsensus := {|
  dc_name := "vote";
  dc_predictions := [PStr "$steps.a.predictions"; PStr "$steps.b.predictions"];
  dc_required_votes := PInt 2;
  dc_class_aware := PBool true;
  dc_iou_threshold := PFloat (3 # 10);
  dc_confidence := PFloat 0;
  dc_classes_to_consider := PNone;
  dc_required_objects := PNone;
  dc_presence_confidence_aggregation := MAX;
  dc_detections_merge_confidence_aggregation := AVERAGE;
  dc_detections_merge_coordinates_aggregation := AVERAGE
|}.

Definition example_detector : ObjectDetectionModel := {|
  od_base := {| rm_name := "segment";
                rm_image := PStr "$inputs.image";
                rm_model_id := PStr "yolov8n-seg-640";
                rm_disable_active_learning := PBool false |};
  od_class_agnostic_nms := PBool false;
  od_class_filter := PNone;
  od_confidence := PFloat (2 # 5);
  od_iou_threshold := PFloat (3 # 10);
  od_max_detections := PInt 300;
  od_max_candidates := PInt 3000
|}.

Definition example_segmentation : InstanceSegmentationModel := {|
  is_base := example_detector;
  is_mask_decode_mode := PStr "accurate";
  is_tradeoff_factor := PFloat 0
|}.

Definition example_absolute_crop : AbsoluteStaticCrop := {|
  asc_name := "crop";
  asc_image := PStr "$inputs.image";
  asc_x_center := PInt 50;
  asc_y_center := PInt 60;
  asc_width := PInt 10;
  asc_height := PInt 20
|}.

(** *** Usage values and their combinations

    The minimum, the maximum and the sum of two usage values, stated on the
    numbers the values hold. *)

(** The finite float a number is, or converts to: nothing for a NaN, an
    infinity, an [int] beyond the range of floats, or a value that is not a
    number. *)
Definition float_value (v : pyval) : option Q :=
  match v with
  | PBool b =>
      match binary64 (inject_Z (if b then 1 else 0)) with
      | Finite r => Some r
      | _ => None
      end
  | PInt z => match binary64 (inject_Z z) with Finite r => Some r | _ => None end
  | PFloat q => match binary64 q with Finite r => Some r | _ => None end
  | _ => None
  end.

Definition fits_float (v : pyval) : bool :=
  match float_value v with Some _ => true | None => false end.

(** A finite number: a [bool], an [int], or a float other than a NaN and
    the infinities. *)
Definition finite_number (v : pyval) : bool :=
  match num_val v with Some _ => true | None => false end.

(** Two finite numbers that add up without leaving the numbers: two [int]s,
    or two numbers of which each is, or converts to, a finite float. *)
Definition summable (a b : pyval) : bool :=
  (type_is_int a && type_is_int b) || (fits_float a && fits_float b).

(** What the two values under a reconciled key have to be for the key's
    combination to be defined on numbers. *)
Definition combinable (k : string) (a b : pyval) : bool :=
  if String.eqb k "processed_frames" || String.eqb k "source_duration"
  then summable a b
  else finite_number a && finite_number b.

(** Two payloads whose values under every reconciled key they share are
    combinable. *)
Definition finite_usages (d1 d2 : gmap string pyval) : bool :=
  forallb (fun k => match d1 !! k, d2 !! k with
                    | Some a, Some b => combinable k a b
                    | _, _ => true
                    end) reconciled_fields.

(** [a <= b] on the exact values of two finite numbers. *)
Definition value_le (a b : pyval) : Prop :=
  match num_val a, num_val b with
  | Some p, Some q => (p <= q)%Q
  | _, _ => False
  end.

(** [v] is the smaller of [a] and [b]. *)
Definition minimum_of (a b v : pyval) : Prop :=
  (v = a ∨ v = b) ∧ value_le v a ∧ value_le v b.

(** [v] is the larger of [a] and [b]. *)
Definition maximum_of (a b v : pyval) : Prop :=
  (v = a ∨ v = b) ∧ value_le a v ∧ value_le b v.

(** [v] is the sum of [a] and [b]: the exact integer sum of two [int]s, and
    otherwise the float nearest to the sum of the two taken as floats. *)
Definition sum_of (a b v : pyval) : Prop :=
  match int_val a, int_val b with
  | Some x, Some y => v = PInt (x + y)
  | _, _ =>
      match float_value a, float_value b with
      | Some p, Some q => v = of_number (binary64 (p + q))
      | _, _ => False
      end
  end.

(** The combination each reconciled key stands for. *)
Definition stated_combination (k : string) (a b v : pyval) : Prop :=
  if String.eqb k "timestamp_start" then minimum_of a b v
  else if String.eqb k "timestamp_stop" then maximum_of a b v
  else if String.eqb k "processed_frames" || String.eqb k "source_duration"
  then sum_of a b v
  else False.

(** *** Example usage payloads and an example cache setting *)

Definition usage_morning : gmap string pyval :=
  {[ "resource_id" := PStr "yolov8n-640";
     "timestamp_start" := PInt 1000;
     "timestamp_stop" := PInt 2000;
     "processed_frames" := PInt 30;
     "source_duration" := PFloat (3 # 2) ]}.

Definition usage_evening : gmap string pyval :=
  {[ "resource_id" := PStr "yolov8n-640";
     "timestamp_start" := PInt 1500;
     "timestamp_stop" := PInt 4000;
     "processed_frames" := PInt 12;
     "source_duration" := PInt 2 ]}.

Definition usage_other_resource : gmap string pyval :=
  {[ "resource_id" := PStr "clip"; "processed_frames" := PInt 1 ]}.

(** Payloads of the resource of [usage_morning] with a start time kept as
    text, and payloads with a frame count beyond the range of floats, a
    fractional frame count, and a NaN for a start time. *)
Definition usage_text_timestamp : gmap string pyval :=
  {[ "resource_id" := PStr "yolov8n-640";
     "timestamp_start" := PStr "09:00" ]}.

Definition usage_huge_frames : gmap string pyval :=
  {[ "processed_frames" := PInt (10 ^ 400) ]}.

Definition usage_half_frame : gmap string pyval :=
  {[ "processed_frames" := PFloat (1 # 2) ]}.

Definition usage_nan_timestamp : gmap string pyval :=
  {[ "timestamp_start" := PFloatNaN ]}.

Definition usage_one_timestamp : gmap string pyval :=
  {[ "timestamp_start" := PInt 1 ]}.

(** Payloads with an infinite duration, of either sign, and with a NaN for
    a duration. *)
Definition usage_endless : gmap string pyval :=
  {[ "source_duration" := PFloatInf false ]}.

Definition usage_rewound : gmap string pyval :=
  {[ "source_duration" := PFloatInf true ]}.

Definition usage_nan_duration : gmap string pyval :=
  {[ "source_duration" := PFloatNaN ]}.

(** The digest of the one API key the examples use. *)
Definition example_md5 (s : string) : string :=
  if String.eqb s "password" then "5f4dcc3b5aa765d61d8327deb882cf99" else "".

Definition example_api (api_key : string) : result string := Ok "acme".

Definition example_cache_key : string :=
  "workflows:api_key_to_workspace:5f4dcc3b5aa765d61d8327deb882cf99".

(* ===================================================================== *)
(** ** Declared inputs, and the rest of the binding and field validators *)
(* ===================================================================== *)

Definition RoboflowModel_get_input_names : gset string :=
  {[ "image"; "model_id"; "disable_active_learning" ]}.

Definition ObjectDetectionModel_get_input_names : gset string :=
  RoboflowModel_get_input_names
  ∪ {[ "class_agnostic_nms"; "class_filter"; "confidence"; "iou_threshold";
       "max_detections"; "max_candidates" ]}.

(** [get_input_names()], by dynamic class; a subclass adds to the set of its
    base. *)
Definition get_input_names (self : step) : gset string :=
  match self with
  | SRoboflowModel _ => RoboflowModel_get_input_names
  | SClassificationModel _ => RoboflowModel_get_input_names ∪ {[ "confidence" ]}
  | SMultiLabelClassificationModel _ =>
      RoboflowModel_get_input_names ∪ {[ "confidence" ]}
  | SObjectDetectionModel _ => ObjectDetectionModel_get_input_names
  | SKeypointsDetectionModel _ =>
      ObjectDetectionModel_get_input_names ∪ {[ "keypoint_confidence" ]}
  | SInstanceSegmentationModel _ =>
      ObjectDetectionModel_get_input_names
      ∪ {[ "mask_decode_mode"; "tradeoff_factor" ]}
  | SOCRModel _ => {[ "image" ]}
  | SCrop _ => {[ "image"; "detections" ]}
  | SCondition _ => {[ "left"; "right" ]}
  | SDetectionFilter _ => {[ "predictions" ]}
  | SDetectionOffset _ => {[ "predictions"; "offset_x"; "offset_y" ]}
  | SAbsoluteStaticCrop _ =>
      {[ "image"; "x_center"; "y_center"; "width"; "height" ]}
  | SRelativeStaticCrop _ =>
      {[ "image"; "x_center"; "y_center"; "width"; "height" ]}
  | SClipComparison _ => {[ "image"; "text" ]}
  | SDetectionsConsensus _ =>
      {[ "predictions"; "required_votes"; "class_aware"; "iou_threshold";
         "confidence"; "classes_to_consider"; "required_objects" ]}
  end.

Definition type_is_str (v : pyval) : bool :=
  match v with PStr _ => true | _ => false end.

Definition type_is_list (v : pyval) : bool :=
  match v with PList _ => true | _ => false end.

Section RemainingContracts.

Context {V : Validators}.

Definition OCRModel_validate_field_binding
  (m : OCRModel) (field_name : string) (value : pyval) : result unit :=
  if String.eqb field_name "image" then validate_image_biding value else Ok tt.

Definition Crop_validate_field_binding
  (m : Crop) (field_name : string) (value : pyval) : result unit :=
  if String.eqb field_name "image" then validate_image_biding value else Ok tt.

Definition Condition_validate_field_binding
  (m : Condition) (field_name : string) (value : pyval) : result unit :=
  Ok tt.

Definition DetectionFilter_validate_field_binding
  (m : DetectionFilter) (field_name : string) (value : pyval) : result unit :=
  Ok tt.

Definition DetectionOffset_validate_field_binding
  (m : DetectionOffset) (field_name : string) (value : pyval) : result unit :=
  if in_set field_name {[ "offset_x"; "offset_y" ]} then
    validate_field_has_given_type field_name [TInt] value (Some VariableTypeError)
  else Ok tt.

Definition RelativeStaticCrop_validate_field_binding
  (m : RelativeStaticCrop) (field_name : string) (value : pyval) : result unit :=
  (if String.eqb field_name "image" then validate_image_biding value else Ok tt);;
  if in_set field_name {[ "x_center"; "y_center"; "width"; "height" ]} then
    validate_field_has_given_type field_name [TFloat] value (Some VariableTypeError)
  else Ok tt.

Definition ClipComparison_validate_field_binding
  (m : ClipComparison) (field_name : string) (value : pyval) : result unit :=
  (if String.eqb field_name "image" then validate_image_biding value else Ok tt);;
  if String.eqb field_name "text" then
    if type_is_list value then
      validate_field_is_list_of_string value field_name (Some VariableTypeError)
    else if negb (type_is_str value) then
      validate_field_has_given_type field_name [TStr] value (Some VariableTypeError)
    else Ok tt
  else Ok tt.

(** The loop [for k, v in value.items()] of the two [required_objects]
    checks: an entry that is [None] raises [none_error], any other entry goes
    through the positive-number check under the name [required_objects[k]]. *)
Fixpoint required_objects_items
  (items : list (string * pyval)) (none_error : exn) (error : option exn)
  : result unit :=
  match items with
  | [] => Ok tt
  | kv :: rest =>
      (if is_None (snd kv) then Raise none_error
       else validate_value_is_empty_or_positive_number
              (snd kv) ("required_objects[" ++ fst kv ++ "]") error);;
      required_objects_items rest none_error error
  end.

(** [value.items()]: only a dictionary has the method. *)
Definition py_items (value : pyval) : result (list (string * pyval)) :=
  match value with
  | PDict d => Ok d
  | _ => Raise AttributeError
  end.

Definition DetectionsConsensus__validate_required_objects_binding
  (value : pyval) : result unit :=
  if is_None value then Ok tt
  else
    validate_field_has_given_type
      "required_objects" [TInt; TDict] value (Some VariableTypeError);;
    if type_is_int value then
      validate_value_is_empty_or_positive_number
        value "required_objects" (Some VariableTypeError)
    else
      items ← py_items value;
      required_objects_items items VariableTypeError (Some VariableTypeError).

Definition DetectionsConsensus_validate_field_binding
  (m : DetectionsConsensus) (field_name : string) (value : pyval) : result unit :=
  if String.eqb field_name "required_votes" then
    if is_None value then Raise VariableTypeError
    else validate_value_is_empty_or_positive_number
           value "required_votes" (Some VariableTypeError)
  else if String.eqb field_name "class_aware" then
    validate_field_has_given_type field_name [TBool] value (Some VariableTypeError)
  else if in_set field_name {[ "iou_threshold"; "confidence" ]} then
    if is_None value then Raise VariableTypeError
    else validate_value_is_empty_or_number_in_range_zero_one
           value (Some field_name) (Some VariableTypeError)
  else if String.eqb field_name "classes_to_consider" then
    if is_None value then Ok tt
    else validate_field_is_list_of_string value field_name (Some VariableTypeError)
  else if String.eqb field_name "required_objects" then
    DetectionsConsensus__validate_required_objects_binding value
  else Ok tt.

(** Method dispatch on the dynamic class. *)
Definition validate_field_binding
  (self : step) (field_name : string) (value : pyval) : result unit :=
  match self with
  | SRoboflowModel _ => RoboflowModel_validate_field_binding self field_name value
  | SClassificationModel _ =>
      ClassificationModel_validate_field_binding self field_name value
  | SMultiLabelClassificationModel _ =>
      MultiLabelClassificationModel_validate_field_binding self field_name value
  | SObjectDetectionModel _ =>
      ObjectDetectionModel_validate_field_binding self field_name value
  | SKeypointsDetectionModel _ =>
      KeypointsDetectionModel_validate_field_binding self field_name value
  | SInstanceSegmentationModel _ =>
      InstanceSegmentationModel_validate_field_binding self field_name value
  | SOCRModel m => OCRModel_validate_field_binding m field_name value
  | SCrop m => Crop_validate_field_binding m field_name value
  | SCondition m => Condition_validate_field_binding m field_name value
  | SDetectionFilter m => DetectionFilter_validate_field_binding m field_name value
  | SDetectionOffset m => DetectionOffset_validate_field_binding m field_name value
  | SAbsoluteStaticCrop m =>
      AbsoluteStaticCrop_validate_field_binding m field_name value
  | SRelativeStaticCrop m =>
      RelativeStaticCrop_validate_field_binding m field_name value
  | SClipComparison m => ClipComparison_validate_field_binding m field_name value
  | SDetectionsConsensus m =>
      DetectionsConsensus_validate_field_binding m field_name value
  end.

(** [RelativeStaticCrop.detections_must_hold_selector], the validator of
    the four coordinate fields. *)
Definition RelativeStaticCrop_detections_must_hold_selector
  (value : pyval) : result unit :=
  if type_is_str value then
    if negb (is_selector value) then Raise ValueError else Ok tt
  else if negb (type_is_float value) then Raise ValueError
  else Ok tt.

(** [DetectionsConsensus.required_objects_field_must_be_valid]. *)
Definition required_objects_field_must_be_valid (value : pyval) : result unit :=
  if is_None value then Ok tt
  else
    validate_field_is_selector_or_has_given_type
      value "required_objects" [TInt; TDict];;
    if type_is_int value then
      validate_value_is_empty_or_positive_number value "required_objects" None
    else
      match value with
      | PDict d => required_objects_items d ValueError None
      | _ => Ok tt
      end.

End RemainingContracts.

(* ===================================================================== *)
(** ** [get_api_key_usage_containing_resource] *)
(* ===================================================================== *)

(** A usage payload is a dictionary from API-key hashes to dictionaries
    from resource keys to usage dictionaries.  The function below only
    iterates over [items()], so the two outer levels are kept as lists of
    entries in iteration order. *)

(** [key in d]. *)
Definition dict_has (d : gmap string pyval) (k : string) : bool :=
  match d !! k with Some _ => true | None => false end.

(** The innermost loop: the first usage under a non-empty resource id that
    is non-empty and has a ["resource_id"] entry. *)
Fixpoint first_usage_with_resource
  (resource_payloads : list (string * gmap string pyval))
  : option (gmap string pyval) :=
  match resource_payloads with
  | [] => None
  | (resource_id, resource_usage) :: rest =>
      if String.eqb resource_id "" then first_usage_with_resource rest
      else if negb (dict_truthy resource_usage)
              || negb (dict_has resource_usage "resource_id")
      then first_usage_with_resource rest
      else Some resource_usage
  end.

(** The loop over the API-key hashes of one payload. *)
Fixpoint first_usage_in_payload (api_key_hash : string)
  (usage_payload : list (string * list (string * gmap string pyval)))
  : option (gmap string pyval) :=
  match usage_payload with
  | [] => None
  | (other_api_key_hash, resource_payloads) :: rest =>
      if negb (String.eqb api_key_hash "")
         && negb (String.eqb other_api_key_hash api_key_hash)
      then first_usage_in_payload api_key_hash rest
      else if String.eqb other_api_key_hash ""
      then first_usage_in_payload api_key_hash rest
      else
        match first_usage_with_resource resource_payloads with
        | Some resource_usage => Some resource_usage
        | None => first_usage_in_payload api_key_hash rest
        end
  end.

(** [None] stands for the bare [return] at the end. *)
Fixpoint get_api_key_usage_containing_resource (api_key_hash : string)
  (usage_payloads : list (list (string * list (string * gmap string pyval))))
  : option (gmap string pyval) :=
  match usage_payloads with
  | [] => None
  | usage_payload :: rest =>
      match first_usage_in_payload api_key_hash usage_payload with
      | Some resource_usage => Some resource_usage
      | None => get_api_key_usage_containing_resource api_key_hash rest
      end
  end.

(** What the search looks for: a usage stored under a non-empty hash (the
    requested one, when one is requested) and a non-empty resource id, that
    is itself non-empty and names its resource. *)
Definition usage_qualifies (api_key_hash other_api_key_hash resource_id : string)
  (resource_usage : gmap string pyval) : Prop :=
  (api_key_hash = "" ∨ other_api_key_hash = api_key_hash)
  ∧ other_api_key_hash ≠ ""
  ∧ resource_id ≠ ""
  ∧ resource_usage ≠ ∅
  ∧ is_Some (resource_usage !! "resource_id").

(* ===================================================================== *)
(** ** The data collector sink *)
(* ===================================================================== *)

(** Exceptions on the sink's paths: the classes of [exn], [KeyError],
    whatever other [Exception] a collaborator raises, and the exceptions
    that derive from [BaseException] without being an [Exception]
    ([KeyboardInterrupt], [SystemExit], [GeneratorExit]). *)
Inductive pyexc : Type :=
| Builtin (e : exn)
| KeyError (key : string)
| OtherException (class_name message : string)
| BaseExceptionOnly (class_name : string).

(** [isinstance(error, Exception)]: what [except Exception] catches. *)
Definition is_Exception (error : pyexc) : bool :=
  match error with
  | BaseExceptionOnly _ => false
  | _ => true
  end.

Inductive outcome (A : Type) : Type :=
| Returned (a : A)
| Thrown (e : pyexc).
Arguments Returned {A} a.
Arguments Thrown {A} e.

#[global] Instance outcome_ret : MRet outcome := fun A a => Returned a.

#[global] Instance outcome_bind : MBind outcome := fun A B k c =>
  match c with
  | Returned a => k a
  | Thrown e => Thrown e
  end.

Definition TIMESTAMP_FORMAT : string := "%Y_%m_%d".
Definition DUPLICATED_STATUS : string := "Duplicated image".

(** The operations of [datetime] the timestamp generators use:
    [datetime.today()], [d.weekday()], [d - timedelta(days=n)],
    [d.replace(day=n)] and [d.strftime(format)]. *)
Class Clock (datetime : Type) : Type := {
  today : datetime;
  weekday : datetime -> Z;
  minus_days : datetime -> Z -> datetime;
  replace_day : datetime -> Z -> datetime;
  strftime : datetime -> string -> string
}.

Inductive StrategyLimitType : Type := MINUTELY | HOURLY | DAILY.

(** The collaborators of the sink that are not among the sources: image
    loading and encoding, the Roboflow API, the credit book-keeping kept in
    the cache, and the rendering of an exception in a message. *)
Class Platform (C ndarray : Type) : Type := {
  md5_hexdigest : string -> string;
  get_roboflow_workspace : string -> result string;
  load_image : pyval -> outcome (ndarray * bool);
  flip_channels : ndarray -> ndarray;
  prepare_image_to_registration :
    ndarray -> Z * Z -> Z -> outcome (list Byte.byte * Q);
  register_image_at_roboflow :
    string -> string -> string -> list Byte.byte -> string -> list string ->
    outcome (gmap string pyval);
  use_credit_of_matching_strategy :
    C -> pyval -> string -> list (string * list (StrategyLimitType * Z)) ->
    outcome (option string) * C;
  return_strategy_credit :
    C -> pyval -> string -> string -> outcome unit * C;
  exception_type_repr : pyexc -> string;
  exception_str : pyexc -> string
}.

(** The keyword arguments bound by [partial(execute_registration, ...)],
    the cache aside (it is the state threaded through the calls). *)
Record RegistrationArguments : Type := {
  arg_image : pyval;
  arg_prediction : pyval;
  arg_target_project : string;
  arg_usage_quota_name : string;
  arg_minutely_usage_limit : Z;
  arg_hourly_usage_limit : Z;
  arg_daily_usage_limit : Z;
  arg_max_image_size : Z * Z;
  arg_compression_level : Z;
  arg_registration_tags : list string;
  arg_labeling_batch_prefix : string;
  arg_new_labeling_batch_frequency : string;
  arg_api_key : string
}.

(** What can be handed to [background_tasks.add_task]: the function
    [execute_registration] itself, or the partial application that binds
    its arguments. *)
Inductive callable : Type :=
| Function_execute_registration
| Partial_execute_registration (bound : RegistrationArguments).

(** The [Ellipsis] object written [...]. *)
Definition Ellipsis : pyval := PObject "Ellipsis".

Section Sink.

Context {C ndarray datetime : Type}.
Context `{BaseCache C} `{Platform C ndarray} `{Clock datetime}.

Definition generate_today_timestamp (_ : unit) : string :=
  strftime today TIMESTAMP_FORMAT.

Definition generate_start_timestamp_for_this_week (_ : unit) : string :=
  strftime (minus_days today (weekday today)) TIMESTAMP_FORMAT.

Definition generate_start_timestamp_for_this_month (_ : unit) : string :=
  strftime (replace_day today 1) TIMESTAMP_FORMAT.

Definition RECREATION_INTERVAL2TIMESTAMP_GENERATOR
  : list (string * (unit -> string)) :=
  [ ("daily", generate_today_timestamp);
    ("weekly", generate_start_timestamp_for_this_week);
    ("monthly", generate_start_timestamp_for_this_month) ].

(** [table[key]], a [KeyError] when the key is missing. *)
Fixpoint lookup_generator (table : list (string * (unit -> string)))
  (key : string) : outcome (unit -> string) :=
  match table with
  | [] => Thrown (KeyError key)
  | (k, g) :: rest => if String.eqb key k then Returned g
                      else lookup_generator rest key
  end.

Definition generate_batch_name
  (labeling_batch_prefix new_labeling_batch_frequency : string)
  : outcome string :=
  if String.eqb new_labeling_batch_frequency "never"
  then Returned labeling_batch_prefix
  else
    timestamp_generator ←
      lookup_generator RECREATION_INTERVAL2TIMESTAMP_GENERATOR
        new_labeling_batch_frequency;
    let timestamp := timestamp_generator tt in
    Returned (labeling_batch_prefix ++ "_" ++ timestamp).

(** The identifier of the registered image, or [None] for a duplicate. *)
Definition safe_register_image_at_roboflow
  (target_project : string) (encoded_image : list Byte.byte)
  (local_image_id api_key batch_name : string) (tags : list string)
  : outcome pyval :=
  registration_response ←
    register_image_at_roboflow api_key target_project local_image_id
      encoded_image batch_name tags;
  let image_duplicated :=
    default (PBool false) (registration_response !! "duplicate") in
  if py_truthy image_duplicated then Returned PNone
  else
    match registration_response !! "id" with
    | Some v => Returned v
    | None => Thrown (KeyError "id")
    end.

(** The status string; [None] when the body reaches its end (the part that
    would save the prediction is not written). *)
Definition register_datapoint
  (target_project : string) (encoded_image : list Byte.byte)
  (local_image_id : string) (prediction : pyval)
  (api_key batch_name : string) (tags : list string)
  : outcome (option string) :=
  roboflow_image_id ←
    safe_register_image_at_roboflow target_project encoded_image
      local_image_id api_key batch_name tags;
  if is_None roboflow_image_id then Returned (Some DUPLICATED_STATUS)
  else if is_None prediction then Returned (Some "Successfully registered image")
  else Returned None.

(** The body of the [try] block of [execute_registration];
    [local_image_id] is the value [str(uuid4())] takes in this call. *)
Definition registration_attempt (a : RegistrationArguments)
  (local_image_id : string) : outcome (option string) :=
  loaded ← load_image (arg_image a);
  let image := if negb (snd loaded) then flip_channels (fst loaded)
               else fst loaded in
  encoded ←
    prepare_image_to_registration image (arg_max_image_size a)
      (arg_compression_level a);
  batch_name ←
    generate_batch_name (arg_labeling_batch_prefix a)
      (arg_new_labeling_batch_frequency a);
  let prediction :=
    if negb (is_None (arg_prediction a)) then Ellipsis else arg_prediction a in
  register_datapoint (arg_target_project a) (fst encoded) local_image_id
    prediction (arg_api_key a) batch_name (arg_registration_tags a).

Definition registration_error_message (error : pyexc) : string :=
  "Error while registration. Error type: " ++ exception_type_repr error
  ++ ". Details: " ++ exception_str error.

(** [status == DUPLICATED_STATUS]. *)
Definition is_duplicated_status (status : option string) : bool :=
  match status with
  | Some s => String.eqb s DUPLICATED_STATUS
  | None => false
  end.

(** The [OrderedDict] of the three limits under the quota name. *)
Definition matching_strategies_limits (a : RegistrationArguments)
  : list (string * list (StrategyLimitType * Z)) :=
  [ (arg_usage_quota_name a,
     [ (MINUTELY, arg_minutely_usage_limit a);
       (HOURLY, arg_hourly_usage_limit a);
       (DAILY, arg_daily_usage_limit a) ]) ].

(** [execute_registration] from the call of [use_credit_of_matching_strategy]
    on, [workspace_name] being what [get_workspace_name] returned.  The
    [except Exception] clause turns an [Exception] of the [try] block into
    an error message and sets [credit_to_be_returned]; any other exception
    passes through it.  The [finally] block runs in every case and gives
    the credit back when [credit_to_be_returned] was set. *)
Definition registration_with_workspace (a : RegistrationArguments)
  (local_image_id : string) (workspace_name : pyval) (cache : C)
  : outcome (bool * option string) * C :=
  match use_credit_of_matching_strategy cache workspace_name
          (arg_target_project a) (matching_strategies_limits a) with
  | (Thrown e, cache) => (Thrown e, cache)
  | (Returned None, cache) =>
      (Returned (false,
                 Some "Registration skipped due to usage quota exceeded"),
       cache)
  | (Returned (Some strategy_with_spare_credit), cache) =>
      let attempt := registration_attempt a local_image_id in
      let completion : outcome (bool * option string) :=
        match attempt with
        | Returned status => Returned (false, status)
        | Thrown error =>
            if is_Exception error
            then Returned (true, Some (registration_error_message error))
            else Thrown error
        end in
      let credit_to_be_returned :=
        match attempt with
        | Returned status => is_duplicated_status status
        | Thrown error => is_Exception error
        end in
      if credit_to_be_returned then
        match return_strategy_credit cache workspace_name
                (arg_target_project a) strategy_with_spare_credit with
        | (Thrown e, cache) => (Thrown e, cache)
        | (Returned _, cache) => (completion, cache)
        end
      else (completion, cache)
  end.

(** The pair returned and the cache left behind.  The two calls before
    [try] let their exceptions through. *)
Definition execute_registration (a : RegistrationArguments)
  (local_image_id : string) (cache : C)
  : outcome (bool * option string) * C :=
  match get_workspace_name md5_hexdigest get_roboflow_workspace
          (arg_api_key a) cache with
  | (Raise e, cache) => (Thrown (Builtin e), cache)
  | (Ok workspace_name, cache) =>
      registration_with_workspace a local_image_id workspace_name cache
  end.

(** Calling a queued callable with no arguments, as a background task
    runner does for [add_task(f)]: the bare function misses all its
    required arguments. *)
Definition call_without_arguments (f : callable) (local_image_id : string)
  (cache : C) : outcome (bool * option string) * C :=
  match f with
  | Function_execute_registration => (Thrown (Builtin TypeError), cache)
  | Partial_execute_registration bound =>
      execute_registration bound local_image_id cache
  end.

(** The state the sink works on: the cache, and the queue of the
    [BackgroundTasks] object when there is one. *)
Definition register_datapoint_at_roboflow (a : RegistrationArguments)
  (fire_and_forget : bool) (local_image_id : string)
  (cache : C) (background_tasks : option (list callable))
  : outcome (bool * option string) * C * option (list callable) :=
  if is_None (arg_image a)
  then (Returned (false, Some "Batch element skipped"), cache, background_tasks)
  else
    let registration_task := Partial_execute_registration a in
    match fire_and_forget, background_tasks with
    | true, Some queue =>
        (Returned
           (false, Some "Element registration happens in the background task"),
         cache, Some (queue ++ [Function_execute_registration])%list)
    | _, _ =>
        let '(r, cache) :=
          call_without_arguments registration_task local_image_id cache in
        (r, cache, background_tasks)
    end.

(** The parameters of [run_locally] other than [images] and [predictions]. *)
Record RunParameters : Type := {
  run_target_project : string;
  run_usage_quota_name : string;
  run_minutely_usage_limit : Z;
  run_hourly_usage_limit : Z;
  run_daily_usage_limit : Z;
  run_max_image_size : Z * Z;
  run_compression_level : Z;
  run_registration_tags : list string;
  run_disable_sink : bool;
  run_fire_and_forget : bool;
  run_labeling_batch_prefix : string;
  run_labeling_batches_recreation_frequency : string
}.

Definition registration_arguments (p : RunParameters) (api_key : string)
  (image prediction : pyval) : RegistrationArguments := {|
  arg_image := image;
  arg_prediction := prediction;
  arg_target_project := run_target_project p;
  arg_usage_quota_name := run_usage_quota_name p;
  arg_minutely_usage_limit := run_minutely_usage_limit p;
  arg_hourly_usage_limit := run_hourly_usage_limit p;
  arg_daily_usage_limit := run_daily_usage_limit p;
  arg_max_image_size := run_max_image_size p;
  arg_compression_level := run_compression_level p;
  arg_registration_tags := run_registration_tags p;
  arg_labeling_batch_prefix := run_labeling_batch_prefix p;
  arg_new_labeling_batch_frequency :=
    run_labeling_batches_recreation_frequency p;
  arg_api_key := api_key
|}.

(** The loop [for image, prediction in zip(images, predictions)], from the
    element of position [position] on; [uuid4 i] is the identifier drawn
    for the element of position [i].  An exception ends the loop and the
    call. *)
Fixpoint register_batch (p : RunParameters) (api_key : string)
  (uuid4 : nat -> string) (position : nat)
  (pairs : list (pyval * pyval))
  (cache : C) (background_tasks : option (list callable))
  : outcome (list (bool * option string)) * C * option (list callable) :=
  match pairs with
  | [] => (Returned [], cache, background_tasks)
  | (image, prediction) :: rest =>
      match register_datapoint_at_roboflow
              (registration_arguments p api_key image prediction)
              (run_fire_and_forget p) (uuid4 position)
              cache background_tasks with
      | (Thrown e, cache, background_tasks) =>
          (Thrown e, cache, background_tasks)
      | (Returned entry, cache, background_tasks) =>
          match register_batch p api_key uuid4 (S position) rest
                  cache background_tasks with
          | (Thrown e, cache, background_tasks) =>
              (Thrown e, cache, background_tasks)
          | (Returned entries, cache, background_tasks) =>
              (Returned (entry :: entries), cache, background_tasks)
          end
      end
  end.

(** Python [zip(xs, ys)]: it stops with the shorter list. *)
Fixpoint py_zip {A B : Type} (xs : list A) (ys : list B) : list (A * B) :=
  match xs, ys with
  | x :: xs', y :: ys' => (x, y) :: py_zip xs' ys'
  | _, _ => []
  end.

(** [RoboflowDataCollectorBlock.run_locally]; an entry [(e, m)] of the
    result stands for [{"error_status": e, "message": m}]. *)
Definition run_locally (api_key : option string)
  (images : list pyval) (predictions : option (list pyval))
  (p : RunParameters) (uuid4 : nat -> string)
  (cache : C) (background_tasks : option (list callable))
  : outcome (list (bool * option string)) * C * option (list callable) :=
  match api_key with
  | None => (Thrown (Builtin ValueError), cache, background_tasks)
  | Some api_key =>
      if run_disable_sink p
      then (Returned
              (map (fun _ =>
                      (false,
                       Some "Sink was disabled by parameter `disable_sink`"))
                 (seq 0 (length images))),
            cache, background_tasks)
      else
        let predictions :=
          match predictions with
          | None => repeat PNone (length images)
          | Some l => l
          end in
        register_batch p api_key uuid4 0 (py_zip images predictions)
          cache background_tasks
  end.

End Sink.

(** In fire-and-forget mode with a [BackgroundTasks] object: the entry an
    element of the batch gets, and the elements that are not skipped. *)
Definition background_entry (pair : pyval * pyval) : bool * option string :=
  if is_None (fst pair) then (false, Some "Batch element skipped")
  else (false, Some "Element registration happens in the background task").

Definition has_image (pair : pyval * pyval) : bool := negb (is_None (fst pair)).

(** The pairs [run_locally] iterates over. *)
Definition batch_pairs (images : list pyval) (predictions : option (list pyval))
  : list (pyval * pyval) :=
  py_zip images
    match predictions with
    | None => repeat PNone (length images)
    | Some l => l
    end.

(** *** An example setting for the sink *)

(** A clock stopped on Monday 6 May 2024. *)
#[global] Instance example_clock : Clock unit := {|
  today := tt;
  weekday _ := 0;
  minus_days d _ := d;
  replace_day d _ := d;
  strftime _ _ := "2024_05_06"
|}.

(** A platform that loads any image description, reports the image drawn
    under the identifier ["seen-before"] as a duplicate, is interrupted from
    the keyboard while it sends the one drawn under ["interrupted"], and
    registers any other one as ["img-1"]; it books credits in the cache. *)
#[global] Instance example_platform
  : Platform (gmap string (pyval * Z)) unit := {|
  md5_hexdigest := example_md5;
  get_roboflow_workspace := example_api;
  load_image value :=
    match value with
    | PDict _ => Returned (tt, true)
    | _ => Thrown (OtherException "ValueError" "not an image")
    end;
  flip_channels image := image;
  prepare_image_to_registration _ _ _ := Returned ([], 1%Q);
  register_image_at_roboflow _ _ local_image_id _ _ _ :=
    if String.eqb local_image_id "seen-before"
    then Returned {[ "duplicate" := PBool true ]}
    else if String.eqb local_image_id "interrupted"
    then Thrown (BaseExceptionOnly "KeyboardInterrupt")
    else Returned {[ "id" := PStr "img-1" ]};
  use_credit_of_matching_strategy cache _ _ limits :=
    match limits with
    | (name, _) :: _ => (Returned (Some name), <["used" := (PInt 1, 60)]> cache)
    | [] => (Returned None, cache)
    end;
  return_strategy_credit cache _ _ _ :=
    (Returned tt, <["used" := (PInt 0, 60)]> cache);
  exception_type_repr _ := "<class 'Exception'>";
  exception_str _ := ""
|}.

Definition example_image : pyval :=
  PDict [("type", PStr "url"); ("value", PStr "https://example.com/a.jpg")].

Definition example_run : RunParameters := {|
  run_target_project := "my_dataset";
  run_usage_quota_name := "quota-for-data-sampling-1";
  run_minutely_usage_limit := 10;
  run_hourly_usage_limit := 100;
  run_daily_usage_limit := 1000;
  run_max_image_size := (512, 512);
  run_compression_level := 75;
  run_registration_tags := [];
  run_disable_sink := false;
  run_fire_and_forget := true;
  run_labeling_batch_prefix := "workflows_data_collector";
  run_labeling_batches_recreation_frequency := "never"
|}.

Definition set_mode (p : RunParameters) (disable_sink fire_and_forget : bool)
  : RunParameters := {|
  run_target_project := run_target_project p;
  run_usage_quota_name := run_usage_quota_name p;
  run_minutely_usage_limit := run_minutely_usage_limit p;
  run_hourly_usage_limit := run_hourly_usage_limit p;
  run_daily_usage_limit := run_daily_usage_limit p;
  run_max_image_size := run_max_image_size p;
  run_compression_level := run_compression_level p;
  run_registration_tags := run_registration_tags p;
  run_disable_sink := disable_sink;
  run_fire_and_forget := fire_and_forget;
  run_labeling_batch_prefix := run_labeling_batch_prefix p;
  run_labeling_batches_recreation_frequency :=
    run_labeling_batches_recreation_frequency p
|}.

Definition example_run_disabled : RunParameters := set_mode example_run true true.
Definition example_run_foreground : RunParameters :=
  set_mode example_run false false.

(** The identifiers drawn for the elements of a batch. *)
Definition example_uuid4 (position : nat) : string :=
  match position with
  | O => "fresh"
  | _ => "seen-before"
  end.

Definition example_arguments : RegistrationArguments :=
  registration_arguments example_run "password" example_image PNone.

Definition warm_cache : gmap string (pyval * Z) :=
  {[ example_cache_key := (PStr "acme", 900) ]}.

Definition example_payloads
  : list (list (string * list (string * gmap string pyval))) :=
  [ [ ("", [ ("", {[ "processed_frames" := PInt 1 ]}) ]) ];
    [ ("hash-1", [ ("", {[ "processed_frames" := PInt 2 ]});
                   ("model:yolov8n-640", usage_morning) ]) ] ].

(* ===================================================================== *)
(** ** Selector validation: the guard, the index, the condition step *)
(* ===================================================================== *)

Lemma result_bind_ok {A B : Type} (a : A) (k : A -> result B) :
  (Ok a ≫= k) = k a.
Proof. reflexivity. Qed.

Lemma in_set_true (x : string) (s : gset string) : x ∈ s → in_set x s = true.
Proof. intros Hin. unfold in_set. by apply bool_decide_eq_true. Qed.

Lemma in_set_false (x : string) (s : gset string) : x ∉ s → in_set x s = false.
Proof. intros Hin. unfold in_set. by apply bool_decide_eq_false. Qed.

Section SelectorValidation.

Context {V : Validators}.

Lemma require_selector_literal self field_name v :
  getattr self field_name = Ok v →
  is_selector v = false →
  require_selector self field_name = Raise ExecutionGraphError.
Proof.
  intros Hget Hsel. unfold require_selector.
  rewrite Hget, result_bind_ok, Hsel. reflexivity.
Qed.

Lemma require_selector_selector self field_name v :
  getattr self field_name = Ok v →
  is_selector v = true →
  require_selector self field_name = Ok tt.
Proof.
  intros Hget Hsel. unfold require_selector.
  rewrite Hget, result_bind_ok, Hsel. reflexivity.
Qed.

(** C8.  In every step variant, [validate_field_selector] on a single-valued
    field whose stored value is not a selector raises [ExecutionGraphError].
    The statement holds for every implementation of the producer checks
    ([validate_selector_holds_image] and the like), so their outcome plays
    no part: they are reached only once the field holds a selector. *)
Theorem validate_field_selector_guard :
  ∀ (self : step) (field_name : string) (v : pyval)
    (input_step : GraphNone) (index : option Z),
    is_list_field self field_name = false →
    getattr self field_name = Ok v →
    is_selector v = false →
    validate_field_selector self field_name input_step index
    = Raise ExecutionGraphError.
Proof.
  intros self field_name v input_step index Hlist Hget Hsel.
  pose proof (require_selector_literal _ _ _ Hget Hsel) as Hreq.
  destruct self; simpl in Hlist; simpl;
    unfold KeypointsDetectionModel_validate_field_selector,
      InstanceSegmentationModel_validate_field_selector,
      ObjectDetectionModel_validate_field_selector,
      ClassificationModel_validate_field_selector,
      MultiLabelClassificationModel_validate_field_selector,
      RoboflowModel_validate_field_selector,
      OCRModel_validate_field_selector, Crop_validate_field_selector,
      Condition_validate_field_selector,
      DetectionFilter_validate_field_selector,
      DetectionOffset_validate_field_selector,
      AbsoluteStaticCrop_validate_field_selector,
      RelativeStaticCrop_validate_field_selector,
      ClipComparison_validate_field_selector,
      DetectionsConsensus_validate_field_selector;
    try rewrite Hlist; simpl negb; cbv iota;
    rewrite Hreq; reflexivity.
Qed.

(** C1, as the code has it.  The consensus step's [predictions] field needs
    the index: without one the call raises [ExecutionGraphError].  On every
    single-valued field of every variant the index is not looked at: the
    call with an index does what the call without one does. *)
Theorem validate_field_selector_index :
  (∀ (m : DetectionsConsensus) (input_step : GraphNone),
     validate_field_selector (SDetectionsConsensus m) "predictions"
       input_step None = Raise ExecutionGraphError)
  ∧
  (∀ (self : step) (field_name : string) (input_step : GraphNone) (i : Z),
     is_list_field self field_name = false →
     validate_field_selector self field_name input_step (Some i)
     = validate_field_selector self field_name input_step None).
Proof.
  split.
  - intros m input_step. reflexivity.
  - intros self field_name input_step i Hlist.
    destruct self; try reflexivity.
    simpl in Hlist. simpl.
    unfold DetectionsConsensus_validate_field_selector.
    rewrite Hlist. reflexivity.
Qed.

(** C2.  On the condition step, when [left] (or [right]) holds a selector,
    [validate_field_selector] raises [InvalidStepInputDetected] exactly when
    the producer's type is ["InferenceImage"], and returns normally for a
    producer of any other type. *)
Theorem Condition_validate_field_selector_image_exclusion :
  ∀ (m : Condition) (field_name : string) (v : pyval)
    (input_step : GraphNone) (index : option Z),
    field_name = "left" ∨ field_name = "right" →
    getattr (SCondition m) field_name = Ok v →
    is_selector v = true →
    (validate_field_selector (SCondition m) field_name input_step index
     = Raise InvalidStepInputDetected
     ↔ GraphNone_get_type input_step = "InferenceImage")
    ∧
    (GraphNone_get_type input_step ≠ "InferenceImage" →
     validate_field_selector (SCondition m) field_name input_step index
     = Ok tt).
Proof.
  intros m field_name v input_step index Hfield Hget Hsel.
  simpl. unfold Condition_validate_field_selector.
  rewrite (require_selector_selector _ _ _ Hget Hsel), result_bind_ok.
  assert (Hin : in_set field_name {[ "left"; "right" ]} = true).
  { apply in_set_true. destruct Hfield as [-> | ->]; set_solver. }
  rewrite Hin.
  destruct (String.eqb_spec (GraphNone_get_type input_step) "InferenceImage")
    as [Heq | Hne].
  - split; [tauto | congruence].
  - split; [split; [discriminate | contradiction] | reflexivity].
Qed.

(** C4, the code at the boundary.  With [index = len(self.predictions)] the
    test [index > len(self.predictions)] is false, so the call goes on to
    [self.predictions[index]], which is out of bounds: an [IndexError]
    escapes instead of the designated [ExecutionGraphError]. *)
Theorem DetectionsConsensus_index_equal_length_escapes :
  ∀ (m : DetectionsConsensus) (input_step : GraphNone),
    validate_field_selector (SDetectionsConsensus m) "predictions" input_step
      (Some (Z.of_nat (length (dc_predictions m))))
    = Raise IndexError.
Proof.
  intros m input_step. simpl.
  unfold DetectionsConsensus_validate_field_selector. simpl String.eqb.
  cbv iota. simpl negb. cbv iota. rewrite result_bind_ok.
  rewrite Z.ltb_irrefl. unfold py_getitem.
  destruct (Z.ltb_spec (Z.of_nat (length (dc_predictions m))) 0) as [Hneg | _];
    [lia |].
  rewrite Z.ltb_irrefl, andb_false_r. reflexivity.
Qed.

(** Beyond the boundary the designated error is raised. *)
Lemma DetectionsConsensus_index_beyond_length :
  ∀ (m : DetectionsConsensus) (input_step : GraphNone) (i : Z),
    Z.of_nat (length (dc_predictions m)) < i →
    validate_field_selector (SDetectionsConsensus m) "predictions" input_step
      (Some i) = Raise ExecutionGraphError.
Proof.
  intros m input_step i Hi. simpl.
  unfold DetectionsConsensus_validate_field_selector. simpl String.eqb.
  cbv iota. simpl negb. cbv iota. rewrite result_bind_ok.
  destruct (Z.ltb_spec (Z.of_nat (length (dc_predictions m))) i); [done | lia].
Qed.

End SelectorValidation.

(** The guard at work: a condition whose [right] is the literal ["cat"]. *)
Lemma validate_field_selector_guard_witness :
  is_list_field (SCondition example_condition) "right" = false
  ∧ getattr (SCondition example_condition) "right" = Ok (PStr "cat")
  ∧ is_selector (PStr "cat") = false
  ∧ validate_field_selector (SCondition example_condition) "right"
      classifier_node None = Raise ExecutionGraphError.
Proof.
  split; [reflexivity |].
  split; [reflexivity |].
  split; [reflexivity |].
  apply (validate_field_selector_guard (V := spec_validators)
           (SCondition example_condition) "right" (PStr "cat")
           classifier_node None); reflexivity.
Defined.

(** The consensus step of the examples has two predictions: index 1 is
    validated, index 3 is refused with the designated error, index 2 runs
    into the list access. *)
Example DetectionsConsensus_index_samples :
  validate_field_selector (SDetectionsConsensus example_consensus)
    "predictions" detector_node (Some 1) = Ok tt
  ∧ validate_field_selector (SDetectionsConsensus example_consensus)
      "predictions" detector_node (Some 3) = Raise ExecutionGraphError
  ∧ validate_field_selector (SDetectionsConsensus example_consensus)
      "predictions" detector_node (Some 2) = Raise IndexError.
Proof. repeat split; vm_compute; reflexivity. Qed.

(** The claim of C1 fails on a single-valued field: the condition step
    accepts a call that supplies an index for [left]. *)
Lemma single_valued_field_accepts_index :
  is_list_field (SCondition example_condition) "left" = false
  ∧ validate_field_selector (SCondition example_condition) "left"
      classifier_node (Some 0) = Ok tt.
Proof. split; vm_compute; reflexivity. Qed.

Lemma validate_field_selector_index_witness :
  validate_field_selector (SDetectionsConsensus example_consensus)
    "predictions" detector_node None = Raise ExecutionGraphError
  ∧ is_list_field (SCondition example_condition) "left" = false
  ∧ validate_field_selector (SCondition example_condition) "left"
      classifier_node (Some 0)
    = validate_field_selector (SCondition example_condition) "left"
        classifier_node None.
Proof.
  split; [| split].
  - apply (proj1 (validate_field_selector_index (V := spec_validators))).
  - reflexivity.
  - apply (proj2 (validate_field_selector_index (V := spec_validators))).
    reflexivity.
Defined.

Lemma Condition_validate_field_selector_image_exclusion_witness :
  ("left" = "left" ∨ "left" = "right")
  ∧ getattr (SCondition example_condition) "left"
    = Ok (PStr "$steps.classify.top")
  ∧ is_selector (PStr "$steps.classify.top") = true
  ∧ (validate_field_selector (SCondition example_condition) "left"
       image_node None = Raise InvalidStepInputDetected
     ↔ GraphNone_get_type image_node = "InferenceImage")
  ∧ (GraphNone_get_type image_node ≠ "InferenceImage" →
     validate_field_selector (SCondition example_condition) "left"
       image_node None = Ok tt).
Proof.
  split; [left; reflexivity |].
  split; [reflexivity |].
  split; [reflexivity |].
  apply (Condition_validate_field_selector_image_exclusion
           (V := spec_validators) example_condition "left"
           (PStr "$steps.classify.top") image_node None);
    [left; reflexivity | reflexivity | reflexivity].
Defined.

(* ===================================================================== *)
(** ** Binding of the absolute crop's coordinates *)
(* ===================================================================== *)

(** A float that equals an integer rounds to that integer. *)
Lemma py_round_float_integral (q : Q) (z : Z) :
  (q == inject_Z z)%Q → py_round_float q = z.
Proof.
  intros Hq. unfold py_round_float. cbv zeta.
  rewrite (Qfloor_comp _ _ Hq), Qfloor_Z.
  assert (Hlt : (q - inject_Z z < 1 # 2)%Q).
  { rewrite Hq. unfold Qminus. rewrite Qplus_opp_r. reflexivity. }
  rewrite (proj1 (Qlt_alt _ _) Hlt). reflexivity.
Qed.

Lemma integral_number_decide (value : pyval) :
  integral_number value ∨ ¬ integral_number value.
Proof.
  destruct value as [| b | z | q | s | l | d | r | negative |]; simpl;
    try tauto.
  destruct (binary64 q) as [r | negative |]; try tauto.
  destruct (Qeq_bool r (inject_Z (py_round_float r))) eqn:Heq.
  - left. exists (py_round_float r). by apply Qeq_bool_iff.
  - right. intros [z Hz].
    rewrite (py_round_float_integral r z Hz) in Heq.
    apply Qeq_bool_iff in Hz. congruence.
Qed.

(** [value != round(value)] is false exactly on the integral numbers; on a
    NaN and on an infinity [round] raises before the comparison is made. *)
Lemma not_integral_spec (value : pyval) :
  (integral_number value → not_integral value = Ok false)
  ∧ (¬ integral_number value →
     not_integral value
     = match number_of value with
       | Some NaN => Raise ValueError
       | Some (Infinite _) => Raise OverflowError
       | _ => Ok true
       end).
Proof.
  destruct value as [| b | z | q | s | l | d | r | negative |]; simpl;
    try (split; [contradiction | reflexivity]).
  - split; [intros _ | tauto].
    unfold not_integral; simpl. unfold py_ne; simpl.
    rewrite Qeq_bool_refl. reflexivity.
  - split; [intros _ | tauto].
    unfold not_integral; simpl. unfold py_ne; simpl.
    rewrite Qeq_bool_refl. reflexivity.
  - unfold not_integral; simpl. unfold py_ne; simpl.
    destruct (binary64 q) as [r | negative |]; simpl;
      try (split; [contradiction | reflexivity]).
    split.
    + intros [z Hz]. rewrite (py_round_float_integral r z Hz).
      apply Qeq_bool_iff in Hz. rewrite Hz. reflexivity.
    + intros Hno.
      destruct (Qeq_bool r (inject_Z (py_round_float r))) eqn:Heq;
        [| reflexivity].
      exfalso. apply Hno. exists (py_round_float r).
      by apply Qeq_bool_iff.
Qed.

Lemma coordinate_field_in_set (field_name : string) :
  coordinate_field field_name →
  String.eqb field_name "image" = false
  ∧ in_set field_name {[ "x_center"; "y_center"; "width"; "height" ]} = true.
Proof.
  intros [-> | [-> | [-> | ->]]];
    (split; [reflexivity | apply in_set_true; set_solver]).
Qed.

Section CoordinateBinding.

Context {V : Validators}.

(** C7.  On a coordinate field of the absolute crop, [validate_field_binding]
    accepts exactly the integral values: an [int], or a float equal to its
    own rounding.  Among the other values, non-numeric values and finite
    non-integral floats are rejected with [VariableTypeError]; a NaN and an
    infinity are not: [round] raises on them, and its [ValueError] (NaN) or
    [OverflowError] (infinity) leaves the validator in place of the
    binding-type error. *)
Theorem AbsoluteStaticCrop_validate_field_binding_coordinates :
  ∀ (m : AbsoluteStaticCrop) (field_name : string) (value : pyval),
    coordinate_field field_name →
    (AbsoluteStaticCrop_validate_field_binding m field_name value = Ok tt
     ↔ integral_number value)
    ∧ (not_a_number value →
       ¬ integral_number value
       ∧ AbsoluteStaticCrop_validate_field_binding m field_name value
         = Raise ValueError)
    ∧ (infinite_float value →
       ¬ integral_number value
       ∧ AbsoluteStaticCrop_validate_field_binding m field_name value
         = Raise OverflowError)
    ∧ (¬ not_a_number value → ¬ infinite_float value →
       (AbsoluteStaticCrop_validate_field_binding m field_name value
        = Raise VariableTypeError ↔ ¬ integral_number value)).
Proof.
  intros m field_name value Hfield.
  destruct (coordinate_field_in_set _ Hfield) as [Himg Hin].
  unfold AbsoluteStaticCrop_validate_field_binding, not_a_number,
    infinite_float.
  rewrite Himg, result_bind_ok, Hin.
  destruct (not_integral_spec value) as [Hyes Hno].
  destruct (integral_number_decide value) as [Hi | Hn].
  - rewrite (Hyes Hi), result_bind_ok.
    assert (Hfinite : ∀ x, number_of value = Some x → ∃ r, x = Finite r).
    { intros x Hx.
      destruct value as [| b | z | q | s | l | d | r | negative |];
        simpl in Hi, Hx; try contradiction; injection Hx as <-;
        [eauto | eauto |].
      destruct (binary64 q); [eauto | |]; contradiction. }
    split; [done |]. split; [| split].
    + intros Hnan. destruct (Hfinite _ Hnan) as [r [=]].
    + intros [negative Hinf]. destruct (Hfinite _ Hinf) as [r [=]].
    + intros _ _. split; [discriminate | done].
  - rewrite (Hno Hn).
    split; [| split; [| split]].
    + split; [| done].
      destruct (number_of value) as [[r | negative |] |]; simpl; discriminate.
    + intros ->. done.
    + intros [negative ->]. done.
    + intros Hnan Hinf. split; [done |]. intros _.
      destruct (number_of value) as [[r | negative |] |]; simpl;
        first [reflexivity | exfalso; apply Hnan; reflexivity
              | exfalso; apply Hinf; eauto].
Qed.

End CoordinateBinding.

Lemma AbsoluteStaticCrop_validate_field_binding_coordinates_witness :
  coordinate_field "width"
  ∧ not_a_number PFloatNaN
  ∧ ¬ integral_number PFloatNaN
  ∧ AbsoluteStaticCrop_validate_field_binding example_absolute_crop
      "width" PFloatNaN = Raise ValueError.
Proof.
  split; [right; right; left; reflexivity |].
  split; [reflexivity |].
  apply (AbsoluteStaticCrop_validate_field_binding_coordinates
           (V := spec_validators) example_absolute_crop "width" PFloatNaN);
    [right; right; left; reflexivity | reflexivity].
Defined.

(** A float with a fractional part is rejected, an integral float and an
    [int] are accepted. *)
Example AbsoluteStaticCrop_binding_samples :
  AbsoluteStaticCrop_validate_field_binding example_absolute_crop
    "width" (PFloat (21 # 2)) = Raise VariableTypeError
  ∧ AbsoluteStaticCrop_validate_field_binding example_absolute_crop
      "width" (PFloat (20 # 2)) = Ok tt
  ∧ AbsoluteStaticCrop_validate_field_binding example_absolute_crop
      "x_center" (PInt 50) = Ok tt
  ∧ AbsoluteStaticCrop_validate_field_binding example_absolute_crop
      "height" (PStr "20") = Raise VariableTypeError.
Proof. repeat split; vm_compute; reflexivity. Qed.

(** [round(float("nan"))] and [round(float("inf"))] raise inside the
    validator. *)
Example AbsoluteStaticCrop_binding_non_finite :
  AbsoluteStaticCrop_validate_field_binding example_absolute_crop
    "width" PFloatNaN = Raise ValueError
  ∧ AbsoluteStaticCrop_validate_field_binding example_absolute_crop
      "height" (PFloatInf false) = Raise OverflowError
  ∧ AbsoluteStaticCrop_validate_field_binding example_absolute_crop
      "x_center" (PFloatInf true) = Raise OverflowError.
Proof. repeat split; vm_compute; reflexivity. Qed.

(* ===================================================================== *)
(** ** Construction: the validators in force for each model class *)
(* ===================================================================== *)

Section ConstructionTables.

Context {V : Validators}.

(** In [InstanceSegmentationModel] the validator of [tradeoff_factor] bears
    the name of the validator [ObjectDetectionModel] declares for
    [confidence] and [iou_threshold], and takes its place: the only
    validators left are listed here, none of them for [confidence]. *)
Lemma InstanceSegmentationModel_validated_fields :
  map (fun d => (fv_method d, fv_fields d))
    (field_validators CInstanceSegmentationModel)
  = [ ("validate_image", ["image"]);
      ("model_id_must_be_selector_or_str", ["model_id"]);
      ("disable_active_learning_must_be_selector_or_bool",
        ["disable_active_learning"]);
      ("class_agnostic_nms_must_be_selector_or_bool", ["class_agnostic_nms"]);
      ("class_filter_must_be_selector_or_list_of_string", ["class_filter"]);
      ("field_must_be_selector_or_number_from_zero_to_one", ["tradeoff_factor"]);
      ("field_must_be_selector_or_positive_number",
        ["max_detections"; "max_candidates"]);
      ("mask_decode_mode_must_be_selector_or_one_of_allowed_values",
        ["mask_decode_mode"]) ].
Proof. reflexivity. Qed.

(** C6, the code on the instance-segmentation class.  Construction runs no
    validator on [confidence]: whatever the value, and whatever the range
    check does, the field is accepted. *)
Theorem InstanceSegmentationModel_confidence_unchecked :
  ∀ value : pyval,
    construct_field CInstanceSegmentationModel "confidence" value = Ok tt.
Proof. intros value. reflexivity. Qed.

(** The same holds for [iou_threshold], which shared the validator. *)
Lemma InstanceSegmentationModel_iou_threshold_unchecked :
  ∀ value : pyval,
    construct_field CInstanceSegmentationModel "iou_threshold" value = Ok tt.
Proof. intros value. reflexivity. Qed.

(** In the four other classes of the family, construction hands
    [confidence] to the range check. *)
Lemma construct_confidence_checked (c : model_class) (value : pyval) :
  c ≠ CRoboflowModel → c ≠ CInstanceSegmentationModel →
  ∃ field_name : option string,
    construct_field c "confidence" value
    = (validate_field_is_in_range_zero_one_or_empty_or_selector
         value field_name;; Ok tt).
Proof.
  intros Hbase Hseg. destruct c; try contradiction.
  - exists None. reflexivity.
  - exists None. reflexivity.
  - exists (Some "confidence | iou_threshold"). reflexivity.
  - exists (Some "confidence | iou_threshold"). reflexivity.
Qed.

End ConstructionTables.

(** With the range check of the specification, the literal [1.5] is
    rejected by the classification, multi-label, object-detection and
    keypoints classes, and accepted by the instance-segmentation class. *)
Example construct_confidence_one_and_a_half :
  construct_field CClassificationModel "confidence" (PFloat (3 # 2))
  = Raise ValueError
  ∧ construct_field CMultiLabelClassificationModel "confidence" (PFloat (3 # 2))
    = Raise ValueError
  ∧ construct_field CObjectDetectionModel "confidence" (PFloat (3 # 2))
    = Raise ValueError
  ∧ construct_field CKeypointsDetectionModel "confidence" (PFloat (3 # 2))
    = Raise ValueError
  ∧ construct_field CInstanceSegmentationModel "confidence" (PFloat (3 # 2))
    = Ok tt.
Proof. repeat split. Qed.

(** At invocation time the instance-segmentation class does check the
    range of [confidence]. *)
Example InstanceSegmentationModel_binding_confidence :
  InstanceSegmentationModel_validate_field_binding
    (SInstanceSegmentationModel example_segmentation) "confidence"
    (PFloat (3 # 2)) = Raise VariableTypeError.
Proof. reflexivity. Qed.

(* ===================================================================== *)
(** ** The mask decode mode *)
(* ===================================================================== *)

Lemma construct_mask_decode_mode (value : pyval) :
  construct_field (V := spec_validators) CInstanceSegmentationModel
    "mask_decode_mode" value
  = Spec.validate_field_is_selector_or_one_of_values
      value "mask_decode_mode" DECODE_MODES.
Proof.
  change (construct_field CInstanceSegmentationModel "mask_decode_mode" value)
    with (Spec.validate_field_is_selector_or_one_of_values
            value "mask_decode_mode" DECODE_MODES;; Ok tt).
  by destruct (Spec.validate_field_is_selector_or_one_of_values _ _ _) as [[]|].
Qed.

Lemma bind_mask_decode_mode (m : InstanceSegmentationModel) (s : string) :
  InstanceSegmentationModel_validate_field_binding (V := spec_validators)
    (SInstanceSegmentationModel m) "mask_decode_mode" (PStr s)
  = Spec.validate_field_is_one_of_selected_values
      (PStr s) "mask_decode_mode" DECODE_MODES (Some VariableTypeError).
Proof. reflexivity. Qed.

(** C5.  A string literal outside [DECODE_MODES] is refused when an
    instance-segmentation step is constructed ([ValueError] from the field
    validator) and when it is bound through [validate_field_binding]
    ([VariableTypeError]); each of the three modes is accepted by both. *)
Theorem mask_decode_mode_enumerated :
  ∀ (m : InstanceSegmentationModel) (s : string),
    (s ∉ DECODE_MODES → is_selector (PStr s) = false →
     construct_field CInstanceSegmentationModel "mask_decode_mode" (PStr s)
     = Raise ValueError)
    ∧ (s ∉ DECODE_MODES →
       InstanceSegmentationModel_validate_field_binding
         (SInstanceSegmentationModel m) "mask_decode_mode" (PStr s)
       = Raise VariableTypeError)
    ∧ (s ∈ DECODE_MODES →
       construct_field CInstanceSegmentationModel "mask_decode_mode" (PStr s)
       = Ok tt
       ∧ InstanceSegmentationModel_validate_field_binding
           (SInstanceSegmentationModel m) "mask_decode_mode" (PStr s)
         = Ok tt).
Proof.
  intros m s. rewrite construct_mask_decode_mode, bind_mask_decode_mode.
  unfold Spec.validate_field_is_selector_or_one_of_values,
    Spec.validate_field_is_one_of_selected_values.
  split; [| split].
  - intros Hout Hsel. change (Spec.is_selector (PStr s) = false) in Hsel.
    rewrite Hsel, (in_set_false _ _ Hout).
    reflexivity.
  - intros Hout. rewrite (in_set_false _ _ Hout). reflexivity.
  - intros Hin. rewrite (in_set_true _ _ Hin).
    split; [| reflexivity]. by destruct (Spec.is_selector (PStr s)).
Qed.

Lemma mask_decode_mode_enumerated_witness :
  ("ultra" ∉ DECODE_MODES)
  ∧ is_selector (PStr "ultra") = false
  ∧ ("fast" ∈ DECODE_MODES)
  ∧ construct_field CInstanceSegmentationModel "mask_decode_mode"
      (PStr "ultra") = Raise ValueError
  ∧ InstanceSegmentationModel_validate_field_binding
      (SInstanceSegmentationModel example_segmentation) "mask_decode_mode"
      (PStr "ultra") = Raise VariableTypeError
  ∧ construct_field CInstanceSegmentationModel "mask_decode_mode"
      (PStr "fast") = Ok tt
  ∧ InstanceSegmentationModel_validate_field_binding
      (SInstanceSegmentationModel example_segmentation) "mask_decode_mode"
      (PStr "fast") = Ok tt.
Proof.
  assert (Hout : "ultra" ∉ DECODE_MODES)
    by (apply (bool_decide_unpack _); vm_compute; exact I).
  assert (Hin : "fast" ∈ DECODE_MODES)
    by (apply (bool_decide_unpack _); vm_compute; exact I).
  destruct (mask_decode_mode_enumerated example_segmentation "ultra")
    as (Hconstruct & Hbind & _).
  destruct (mask_decode_mode_enumerated example_segmentation "fast")
    as (_ & _ & Hfast).
  split; [exact Hout |].
  split; [reflexivity |].
  split; [exact Hin |].
  split; [exact (Hconstruct Hout eq_refl) |].
  split; [exact (Hbind Hout) |].
  exact (Hfast Hin).
Defined.

(* ===================================================================== *)
(** ** The consensus step's list of predictions *)
(* ===================================================================== *)

Section ConsensusConstruction.

Context {V : Validators}.

(** Whatever [validate_field_is_list_of_selectors] does, an empty list does
    not get past the validator: the length test follows it. *)
Lemma predictions_empty_never_accepted :
  is_ok (predictions_must_be_list_of_selectors (PList [])) = false.
Proof.
  unfold predictions_must_be_list_of_selectors.
  by destruct (validate_field_is_list_of_selectors (PList []) "predictions").
Qed.

End ConsensusConstruction.

(** C3.  The field validator of [predictions] raises on the empty list and
    on a list with an element that is not a selector, and a value it
    accepts is a non-empty list of selectors: a constructed consensus step
    never has an empty [predictions], so nothing is left to graph-level
    validation. *)
Theorem predictions_must_be_nonempty_list_of_selectors :
  predictions_must_be_list_of_selectors (PList []) = Raise ValueError
  ∧ (∀ (l : list pyval) (e : pyval),
       e ∈ l → is_selector e = false →
       predictions_must_be_list_of_selectors (PList l) = Raise ValueError)
  ∧ (∀ value : pyval,
       predictions_must_be_list_of_selectors value = Ok tt →
       ∃ l : list pyval,
         value = PList l ∧ (0 < length l)%nat
         ∧ Forall (fun e => is_selector e = true) l).
Proof.
  split; [reflexivity | split].
  - intros l e Hin Hsel.
    unfold predictions_must_be_list_of_selectors. simpl.
    assert (Hall : forallb Spec.is_selector l = false).
    { apply not_true_is_false. intros Hall.
      rewrite forallb_forall in Hall.
      apply list_elem_of_In in Hin. specialize (Hall e Hin).
      simpl in Hsel. congruence. }
    rewrite Hall. reflexivity.
  - intros value Hok.
    unfold predictions_must_be_list_of_selectors in Hok. simpl in Hok.
    destruct value as [| b | z | q | s | l | d | r | negative |];
      try discriminate Hok.
    simpl in Hok.
    destruct (forallb Spec.is_selector l) eqn:Hall; [| discriminate Hok].
    exists l. split; [reflexivity |].
    rewrite result_bind_ok in Hok. simpl in Hok.
    split.
    + destruct l; [discriminate Hok | simpl; lia].
    + apply Forall_forall. intros e He.
      rewrite forallb_forall in Hall. apply Hall.
      by apply list_elem_of_In.
Qed.

Lemma predictions_must_be_nonempty_list_of_selectors_witness :
  predictions_must_be_list_of_selectors (PList []) = Raise ValueError
  ∧ PStr "detections" ∈ [PStr "$steps.a.predictions"; PStr "detections"]
  ∧ is_selector (PStr "detections") = false
  ∧ predictions_must_be_list_of_selectors
      (PList [PStr "$steps.a.predictions"; PStr "detections"])
    = Raise ValueError
  ∧ predictions_must_be_list_of_selectors
      (PList (dc_predictions example_consensus)) = Ok tt
  ∧ ∃ l : list pyval,
      PList (dc_predictions example_consensus) = PList l
      ∧ (0 < length l)%nat ∧ Forall (fun e => is_selector e = true) l.
Proof.
  destruct predictions_must_be_nonempty_list_of_selectors
    as (Hempty & Helem & Hacc).
  split; [exact Hempty |].
  split; [set_solver |].
  split; [reflexivity |].
  split; [apply (Helem _ (PStr "detections")); [set_solver | reflexivity] |].
  split; [reflexivity |].
  apply Hacc. reflexivity.
Defined.

(* ===================================================================== *)
(** ** The workspace-name cache *)
(* ===================================================================== *)

Section WorkspaceNameCache.

Context {C : Type} `{BaseCache C}.
Variable md5_hexdigest : string -> string.
Variable get_roboflow_workspace : string -> result string.

(** C10.  When the cache holds a non-empty entry under the key of the hashed
    API key, [get_workspace_name] returns it and leaves the cache as it is.
    Otherwise it asks the API for the workspace name, stores the name under
    that key with the 900 s expiry, and returns [None], not the name. *)
Theorem get_workspace_name_hit_and_miss :
  ∀ (api_key : string) (cache : C),
    let cache_key := workspace_cache_key md5_hexdigest api_key in
    (py_truthy (cache_get cache cache_key) = true →
     get_workspace_name md5_hexdigest get_roboflow_workspace api_key cache
     = (Ok (cache_get cache cache_key), cache))
    ∧
    (py_truthy (cache_get cache cache_key) = false →
     ∀ name : string,
       get_roboflow_workspace api_key = Ok name →
       get_workspace_name md5_hexdigest get_roboflow_workspace api_key cache
       = (Ok PNone, cache_set cache cache_key (PStr name) 900)).
Proof.
  intros api_key cache cache_key. unfold get_workspace_name.
  fold cache_key. split.
  - intros Hhit. rewrite Hhit. reflexivity.
  - intros Hmiss name Hapi. rewrite Hmiss, Hapi. reflexivity.
Qed.

End WorkspaceNameCache.

Lemma get_workspace_name_hit_and_miss_witness :
  py_truthy (cache_get (∅ : gmap string (pyval * Z)) example_cache_key) = false
  ∧ example_api "password" = Ok "acme"
  ∧ get_workspace_name example_md5 example_api "password"
      (∅ : gmap string (pyval * Z))
    = (Ok PNone, <[example_cache_key := (PStr "acme", 900)]> ∅)
  ∧ py_truthy
      (cache_get (<[example_cache_key := (PStr "acme", 900)]> ∅
                    : gmap string (pyval * Z)) example_cache_key) = true
  ∧ get_workspace_name example_md5 example_api "password"
      (<[example_cache_key := (PStr "acme", 900)]> ∅
         : gmap string (pyval * Z))
    = (Ok (PStr "acme"), <[example_cache_key := (PStr "acme", 900)]> ∅).
Proof.
  split; [reflexivity |].
  split; [reflexivity |].
  split.
  - exact (proj2 (get_workspace_name_hit_and_miss example_md5 example_api
                    "password" (∅ : gmap string (pyval * Z)))
             eq_refl "acme" eq_refl).
  - split; [vm_compute; reflexivity |].
    refine (eq_trans
              (proj1 (get_workspace_name_hit_and_miss example_md5 example_api
                        "password"
                        (<[example_cache_key := (PStr "acme", 900)]> ∅
                           : gmap string (pyval * Z))) _) _);
      vm_compute; reflexivity.
Defined.

(* ===================================================================== *)
(** ** Merging usage payloads *)
(* ===================================================================== *)

Lemma dict_truthy_nonempty (d : gmap string pyval) :
  dict_truthy d = true ↔ d ≠ ∅.
Proof.
  unfold dict_truthy. rewrite negb_true_iff, Nat.eqb_neq.
  by rewrite map_size_empty_iff.
Qed.

Lemma py_lt_number (a b : pyval) (x y : number) :
  number_of a = Some x → number_of b = Some y →
  py_lt a b = Some (num_ltb x y).
Proof.
  destruct a, b; simpl; try discriminate;
    intros [= <-] [= <-]; reflexivity.
Qed.

Lemma py_eq_number (a b : pyval) (x y : number) :
  number_of a = Some x → number_of b = Some y →
  py_eq a b = num_eqb x y.
Proof.
  destruct a, b; simpl; try discriminate;
    intros [= <-] [= <-]; reflexivity.
Qed.

Lemma num_val_number_of (v : pyval) (p : Q) :
  num_val v = Some p → number_of v = Some (Finite p).
Proof.
  unfold num_val. destruct (number_of v) as [[r | negative |] |];
    try discriminate. by intros [= ->].
Qed.

Lemma py_lt_numeric (a b : pyval) (p q : Q) :
  num_val a = Some p → num_val b = Some q → py_lt a b = Some (Qlt_bool p q).
Proof.
  intros Ha%num_val_number_of Hb%num_val_number_of.
  by rewrite (py_lt_number a b _ _ Ha Hb).
Qed.

Lemma py_eq_numeric (a b : pyval) (p q : Q) :
  num_val a = Some p → num_val b = Some q → py_eq a b = Qeq_bool p q.
Proof.
  intros Ha%num_val_number_of Hb%num_val_number_of.
  by rewrite (py_eq_number a b _ _ Ha Hb).
Qed.

Lemma Qlt_bool_true (p q : Q) : Qlt_bool p q = true ↔ (p < q)%Q.
Proof.
  unfold Qlt_bool. rewrite negb_true_iff. split.
  - intros Hle. apply Qnot_le_lt. intros Hqp.
    apply Qle_bool_iff in Hqp. congruence.
  - intros Hlt. apply not_true_is_false. intros Hle.
    apply Qle_bool_iff in Hle. by apply Qlt_not_le in Hlt.
Qed.

Lemma Qlt_bool_false (p q : Q) : Qlt_bool p q = false ↔ (q <= p)%Q.
Proof.
  unfold Qlt_bool. rewrite negb_false_iff. apply Qle_bool_iff.
Qed.

(** Rounding to a float never gives a NaN, and does not depend on the
    fraction a rational is written as. *)
Lemma binary64_not_NaN (q : Q) : binary64 q ≠ NaN.
Proof.
  unfold binary64. cbv zeta.
  destruct (Z.eqb _ 0); [discriminate |].
  destruct (Qle_bool _ _); discriminate.
Qed.

Lemma binary64_Qeq (p q : Q) : (p == q)%Q → binary64 p = binary64 q.
Proof.
  intros Heq. unfold binary64. by rewrite (Qred_complete _ _ Heq).
Qed.

Lemma int_to_float_raises (z : Z) (e : exn) :
  int_to_float z = Raise e → e = OverflowError.
Proof.
  unfold int_to_float. destruct (binary64 _); congruence.
Qed.

(** [a + b] raises [TypeError] on operands that cannot be added and
    [OverflowError] on an [int] too large for the float it is added to. *)
Lemma py_add_raises (a b : pyval) (e : exn) :
  py_add a b = Raise e → e = TypeError ∨ e = OverflowError.
Proof.
  unfold py_add.
  destruct a, b; simpl; try (intros [= <-]; by left); try discriminate;
    repeat match goal with
           | |- context [int_to_float ?z] =>
               let Hz := fresh "Hz" in
               destruct (int_to_float z) eqn:Hz; simpl;
               [| apply int_to_float_raises in Hz ]
           end;
    try discriminate; intros [= <-]; by right.
Qed.

(** The three combinations raise [TypeError] or [OverflowError] only. *)
Lemma reconcile_raises (k : string) (a b : pyval) (e : exn) :
  reconcile k a b = Raise e → e = TypeError ∨ e = OverflowError.
Proof.
  unfold reconcile.
  destruct (String.eqb k "timestamp_start");
    [| destruct (String.eqb k "timestamp_stop")].
  - unfold py_min. destruct (py_lt b a); [discriminate |].
    intros [= <-]. by left.
  - unfold py_max. destruct (py_lt a b); [discriminate |].
    intros [= <-]. by left.
  - apply py_add_raises.
Qed.

Lemma finite_number_num_val (v : pyval) :
  finite_number v = true → ∃ p, num_val v = Some p.
Proof.
  unfold finite_number. destruct (num_val v); [eauto | discriminate].
Qed.

Lemma fits_float_float_value (v : pyval) :
  fits_float v = true → ∃ r, float_value v = Some r.
Proof.
  unfold fits_float. destruct (float_value v); [eauto | discriminate].
Qed.

Lemma type_is_int_int_val (v : pyval) :
  type_is_int v = true ↔ ∃ z, int_val v = Some z.
Proof.
  destruct v; simpl; split; try discriminate; eauto;
    intros [z Hz]; discriminate Hz.
Qed.

Lemma float_value_to_float (v : pyval) (r : Q) :
  float_value v = Some r → to_float v = Some (Ok (Finite r)).
Proof.
  unfold float_value, to_float, int_to_float.
  destruct v as [| b | z | q | s | l | d | o | negative |];
    try discriminate.
  - destruct (binary64 (inject_Z (if b then 1 else 0)));
      [by intros [= ->] | discriminate | discriminate].
  - destruct (binary64 (inject_Z z));
      [by intros [= ->] | discriminate | discriminate].
  - destruct (binary64 q);
      [by intros [= ->] | discriminate | discriminate].
Qed.

Lemma value_le_refl (a : pyval) (p : Q) : num_val a = Some p → value_le a a.
Proof. unfold value_le. intros ->. apply Qle_refl. Qed.

(** Two numbers each below the other are equal for [==]. *)
Lemma value_le_antisym (x y : pyval) :
  value_le x y → value_le y x → py_eq x y = true.
Proof.
  unfold value_le.
  destruct (num_val x) as [p|] eqn:Hp; [| contradiction].
  destruct (num_val y) as [q|] eqn:Hq; [| contradiction].
  intros Hpq Hqp. rewrite (py_eq_numeric x y p q Hp Hq).
  apply Qeq_bool_iff. by apply Qle_antisym.
Qed.

(** On finite numbers [min] gives the smaller of its operands. *)
Lemma py_min_minimum (a b : pyval) :
  finite_number a = true → finite_number b = true →
  ∃ v, py_min a b = Ok v ∧ minimum_of a b v.
Proof.
  intros [p Hp]%finite_number_num_val [q Hq]%finite_number_num_val.
  unfold py_min, minimum_of, value_le.
  rewrite (py_lt_numeric b a q p Hq Hp).
  destruct (Qlt_bool q p) eqn:Hlt; eexists; (split; [reflexivity |]).
  - apply Qlt_bool_true in Hlt. rewrite Hp, Hq.
    split; [by right |]. split; [by apply Qlt_le_weak | apply Qle_refl].
  - apply Qlt_bool_false in Hlt. rewrite Hp, Hq.
    split; [by left |]. split; [apply Qle_refl | exact Hlt].
Qed.

(** On finite numbers [max] gives the larger of its operands. *)
Lemma py_max_maximum (a b : pyval) :
  finite_number a = true → finite_number b = true →
  ∃ v, py_max a b = Ok v ∧ maximum_of a b v.
Proof.
  intros [p Hp]%finite_number_num_val [q Hq]%finite_number_num_val.
  unfold py_max, maximum_of, value_le.
  rewrite (py_lt_numeric a b p q Hp Hq).
  destruct (Qlt_bool p q) eqn:Hlt; eexists; (split; [reflexivity |]).
  - apply Qlt_bool_true in Hlt. rewrite Hp, Hq.
    split; [by right |]. split; [by apply Qlt_le_weak | apply Qle_refl].
  - apply Qlt_bool_false in Hlt. rewrite Hp, Hq.
    split; [by left |]. split; [apply Qle_refl | exact Hlt].
Qed.

Lemma py_add_floats (a b : pyval) (x y : number) :
  int_val a = None ∨ int_val b = None →
  to_float a = Some (Ok x) → to_float b = Some (Ok y) →
  py_add a b = Ok (of_number (fadd x y)).
Proof.
  intros Hint Ha Hb. unfold py_add.
  destruct a, b; simpl in Hint, Ha, Hb |- *;
    try discriminate Ha; try discriminate Hb;
    try (destruct Hint as [Hint | Hint]; discriminate Hint);
    injection Ha as Ha; injection Hb as Hb;
    rewrite ?Ha, ?Hb; subst; reflexivity.
Qed.

(** On summable numbers [+] gives the sum of its operands. *)
Lemma py_add_sum (a b : pyval) :
  summable a b = true → ∃ v, py_add a b = Ok v ∧ sum_of a b v.
Proof.
  unfold summable, sum_of. intros Hsum.
  destruct (int_val a) as [x|] eqn:Hx; [destruct (int_val b) as [y|] eqn:Hy |].
  - exists (PInt (x + y)). split; [| reflexivity].
    destruct a, b; try discriminate; simpl in Hx, Hy |- *; congruence.
  - assert (Hb : type_is_int b = false).
    { apply not_true_is_false. intros [y Hy']%type_is_int_int_val. congruence. }
    rewrite Hb, andb_false_r, orb_false_l, andb_true_iff in Hsum.
    destruct Hsum as [[p Hp]%fits_float_float_value
                        [q Hq]%fits_float_float_value].
    rewrite Hp, Hq. eexists. split; [| reflexivity].
    rewrite (py_add_floats a b (Finite p) (Finite q));
      [reflexivity | by right | by apply float_value_to_float
      | by apply float_value_to_float].
  - assert (Ha : type_is_int a = false).
    { apply not_true_is_false. intros [x Hx']%type_is_int_int_val. congruence. }
    rewrite Ha, andb_false_l, orb_false_l, andb_true_iff in Hsum.
    destruct Hsum as [[p Hp]%fits_float_float_value
                        [q Hq]%fits_float_float_value].
    rewrite Hp, Hq. eexists. split; [| reflexivity].
    rewrite (py_add_floats a b (Finite p) (Finite q));
      [reflexivity | by left | by apply float_value_to_float
      | by apply float_value_to_float].
Qed.

(** The combination the merge applies under a reconciled key is the one the
    key stands for. *)
Lemma reconcile_stated (k : string) (a b : pyval) :
  k ∈ reconciled_fields → combinable k a b = true →
  ∃ v, reconcile k a b = Ok v ∧ stated_combination k a b v.
Proof.
  intros Hk. unfold reconciled_fields in Hk.
  repeat (apply elem_of_cons in Hk as [-> | Hk]); [| | | | by inversion Hk];
    unfold combinable; simpl.
  - intros [Ha Hb]%andb_true_iff. by apply py_min_minimum.
  - intros [Ha Hb]%andb_true_iff. by apply py_max_maximum.
  - apply py_add_sum.
  - apply py_add_sum.
Qed.

Lemma py_eq_rounded (q : Q) :
  py_eq (of_number (binary64 q)) (of_number (binary64 q)) = true.
Proof.
  pose proof (binary64_not_NaN q) as Hq.
  destruct (binary64 q) as [r | negative |]; simpl; [| | done].
  - pose proof (binary64_not_NaN r) as Hr.
    destruct (binary64 r) as [r' | negative |]; simpl;
      [apply Qeq_bool_refl | by destruct negative | done].
  - by destruct negative.
Qed.

(** The minimum, the maximum and the sum do not depend on the order of the
    two values, up to Python's [==] (which identifies [1] and [1.0]). *)
Lemma minimum_of_comm (a b x y : pyval) :
  minimum_of a b x → minimum_of b a y → py_eq x y = true.
Proof.
  intros (Hx & Hxa & Hxb) (Hy & Hyb & Hya).
  apply value_le_antisym.
  - destruct Hy as [-> | ->]; assumption.
  - destruct Hx as [-> | ->]; assumption.
Qed.

Lemma maximum_of_comm (a b x y : pyval) :
  maximum_of a b x → maximum_of b a y → py_eq x y = true.
Proof.
  intros (Hx & Hxa & Hxb) (Hy & Hyb & Hya).
  apply value_le_antisym.
  - destruct Hx as [-> | ->]; assumption.
  - destruct Hy as [-> | ->]; assumption.
Qed.

Lemma sum_of_comm (a b x y : pyval) :
  sum_of a b x → sum_of b a y → py_eq x y = true.
Proof.
  unfold sum_of.
  destruct (int_val a) as [xa|], (int_val b) as [xb|];
    try (destruct (float_value a) as [p|]; [| contradiction];
         destruct (float_value b) as [q|]; [| contradiction];
         intros -> ->;
         rewrite (binary64_Qeq (q + p) (p + q) (Qplus_comm q p));
         apply py_eq_rounded).
  intros -> ->. simpl. rewrite (Z.add_comm xb xa). apply Qeq_bool_refl.
Qed.

Lemma stated_combination_comm (k : string) (a b x y : pyval) :
  stated_combination k a b x → stated_combination k b a y →
  py_eq x y = true.
Proof.
  unfold stated_combination.
  destruct (String.eqb k "timestamp_start"); [apply minimum_of_comm |].
  destruct (String.eqb k "timestamp_stop"); [apply maximum_of_comm |].
  destruct (String.eqb k "processed_frames" || String.eqb k "source_duration");
    [apply sum_of_comm | contradiction].
Qed.

Lemma combinable_comm (k : string) (a b : pyval) :
  combinable k a b = combinable k b a.
Proof.
  unfold combinable, summable.
  destruct (String.eqb k "processed_frames" || String.eqb k "source_duration").
  - by rewrite (andb_comm (type_is_int a)), (andb_comm (fits_float a)).
  - apply andb_comm.
Qed.

Lemma finite_usages_lookup (d1 d2 : gmap string pyval) (k : string)
  (a b : pyval) :
  finite_usages d1 d2 = true → k ∈ reconciled_fields →
  d1 !! k = Some a → d2 !! k = Some b → combinable k a b = true.
Proof.
  unfold finite_usages. rewrite forallb_forall. intros Hall Hk Ha Hb.
  apply list_elem_of_In in Hk. specialize (Hall k Hk).
  by rewrite Ha, Hb in Hall.
Qed.

Lemma finite_usages_comm (d1 d2 : gmap string pyval) :
  finite_usages d1 d2 = true → finite_usages d2 d1 = true.
Proof.
  unfold finite_usages. rewrite !forallb_forall. intros Hall k Hk.
  specialize (Hall k Hk).
  destruct (d1 !! k) as [a|], (d2 !! k) as [b|]; try reflexivity.
  by rewrite combinable_comm.
Qed.

Lemma merge_field_other op (k k' : string) (d1 d2 merged merged' : gmap string pyval) :
  merge_field op k d1 d2 merged = Ok merged' → k ≠ k' →
  merged' !! k' = merged !! k'.
Proof.
  unfold merge_field. intros Hm Hne.
  destruct (d1 !! k) as [a|], (d2 !! k) as [b|]; try (by inversion Hm).
  destruct (op a b) as [v|e]; simpl in Hm; [| discriminate Hm].
  inversion Hm; subst. by apply lookup_insert_ne.
Qed.

Lemma merge_field_same op (k : string) (d1 d2 merged merged' : gmap string pyval)
  (a b : pyval) :
  merge_field op k d1 d2 merged = Ok merged' →
  d1 !! k = Some a → d2 !! k = Some b →
  ∃ v, op a b = Ok v ∧ merged' !! k = Some v.
Proof.
  unfold merge_field. intros Hm Ha Hb. rewrite Ha, Hb in Hm.
  destruct (op a b) as [v|e]; simpl in Hm; [| discriminate Hm].
  inversion Hm; subst. exists v. split; [reflexivity | apply lookup_insert_eq].
Qed.

Lemma merge_field_raises (k : string) (d1 d2 merged : gmap string pyval) (e : exn) :
  merge_field (reconcile k) k d1 d2 merged = Raise e →
  e = TypeError ∨ e = OverflowError.
Proof.
  unfold merge_field.
  destruct (d1 !! k) as [a|], (d2 !! k) as [b|]; try discriminate.
  destruct (reconcile k a b) as [v|e'] eqn:Hop; simpl; [discriminate |].
  intros [= <-]. by apply reconcile_raises in Hop.
Qed.

Lemma merge_field_finite (k : string) (d1 d2 merged : gmap string pyval) :
  finite_usages d1 d2 = true → k ∈ reconciled_fields →
  ∃ merged', merge_field (reconcile k) k d1 d2 merged = Ok merged'.
Proof.
  intros Hn Hk. unfold merge_field.
  destruct (d1 !! k) as [a|] eqn:Ha, (d2 !! k) as [b|] eqn:Hb; eauto.
  destruct (reconcile_stated k a b Hk) as (v & Hv & _).
  - by apply (finite_usages_lookup d1 d2 k).
  - rewrite Hv. simpl. eauto.
Qed.

(** The body of [merge_usage_dicts] once the resource ids agree. *)
Lemma merge_usage_dicts_unfold (d1 d2 : gmap string pyval) :
  merge_usage_dicts d1 d2
  = if dict_truthy d1 && dict_truthy d2
       && py_ne (dict_get d1 "resource_id") (dict_get d2 "resource_id")
    then Raise ValueError
    else
      m1 ← merge_field (reconcile "timestamp_start") "timestamp_start" d1 d2 ∅;
      m2 ← merge_field (reconcile "timestamp_stop") "timestamp_stop" d1 d2 m1;
      m3 ← merge_field (reconcile "processed_frames") "processed_frames" d1 d2 m2;
      m4 ← merge_field (reconcile "source_duration") "source_duration" d1 d2 m3;
      Ok (m4 ∪ d2 ∪ d1).
Proof. reflexivity. Qed.

(** A merge that returns has, under each reconciled key present in both
    payloads, the combination of the two values. *)
Lemma merge_usage_dicts_fields (d1 d2 m : gmap string pyval) :
  merge_usage_dicts d1 d2 = Ok m →
  ∀ k a b, k ∈ reconciled_fields → d1 !! k = Some a → d2 !! k = Some b →
    ∃ v, reconcile k a b = Ok v ∧ m !! k = Some v.
Proof.
  rewrite merge_usage_dicts_unfold. intros Hm.
  destruct (dict_truthy d1 && dict_truthy d2 && py_ne _ _); [discriminate Hm |].
  destruct (merge_field _ "timestamp_start" d1 d2 ∅) as [m1|] eqn:H1;
    [rewrite result_bind_ok in Hm | discriminate Hm].
  destruct (merge_field _ "timestamp_stop" d1 d2 m1) as [m2|] eqn:H2;
    [rewrite result_bind_ok in Hm | discriminate Hm].
  destruct (merge_field _ "processed_frames" d1 d2 m2) as [m3|] eqn:H3;
    [rewrite result_bind_ok in Hm | discriminate Hm].
  destruct (merge_field _ "source_duration" d1 d2 m3) as [m4|] eqn:H4;
    [rewrite result_bind_ok in Hm | discriminate Hm].
  inversion Hm; subst m. clear Hm.
  intros k a b Hk Ha Hb.
  assert (Hlift : ∀ v, m4 !! k = Some v → (m4 ∪ d2 ∪ d1) !! k = Some v).
  { intros v Hv. by do 2 apply lookup_union_Some_l. }
  unfold reconciled_fields in Hk.
  repeat (apply elem_of_cons in Hk as [-> | Hk]); [| | | | by inversion Hk].
  - destruct (merge_field_same _ _ _ _ _ _ _ _ H1 Ha Hb) as (v & Hv & Hl).
    exists v. split; [exact Hv |]. apply Hlift.
    rewrite (merge_field_other _ _ _ _ _ _ _ H4) by done.
    rewrite (merge_field_other _ _ _ _ _ _ _ H3) by done.
    by rewrite (merge_field_other _ _ _ _ _ _ _ H2).
  - destruct (merge_field_same _ _ _ _ _ _ _ _ H2 Ha Hb) as (v & Hv & Hl).
    exists v. split; [exact Hv |]. apply Hlift.
    rewrite (merge_field_other _ _ _ _ _ _ _ H4) by done.
    by rewrite (merge_field_other _ _ _ _ _ _ _ H3).
  - destruct (merge_field_same _ _ _ _ _ _ _ _ H3 Ha Hb) as (v & Hv & Hl).
    exists v. split; [exact Hv |]. apply Hlift.
    by rewrite (merge_field_other _ _ _ _ _ _ _ H4).
  - destruct (merge_field_same _ _ _ _ _ _ _ _ H4 Ha Hb) as (v & Hv & Hl).
    exists v. split; [exact Hv |]. by apply Hlift.
Qed.

(** A merge that raises something else than the [ValueError] of its guard
    raises [TypeError] or [OverflowError]. *)
Lemma merge_usage_dicts_raises (d1 d2 : gmap string pyval) (e : exn) :
  merge_usage_dicts d1 d2 = Raise e →
  (e = ValueError
   ∧ dict_truthy d1 && dict_truthy d2
     && py_ne (dict_get d1 "resource_id") (dict_get d2 "resource_id") = true)
  ∨ ((e = TypeError ∨ e = OverflowError)
     ∧ dict_truthy d1 && dict_truthy d2
       && py_ne (dict_get d1 "resource_id") (dict_get d2 "resource_id") = false).
Proof.
  rewrite merge_usage_dicts_unfold.
  destruct (dict_truthy d1 && dict_truthy d2 && py_ne _ _);
    [intros [= <-]; by left |].
  intros Hraise. right. split; [| reflexivity].
  destruct (merge_field _ "timestamp_start" d1 d2 ∅) as [m1|e1] eqn:H1;
    [rewrite result_bind_ok in Hraise
    | apply merge_field_raises in H1; simpl in Hraise; congruence].
  destruct (merge_field _ "timestamp_stop" d1 d2 m1) as [m2|e2] eqn:H2;
    [rewrite result_bind_ok in Hraise
    | apply merge_field_raises in H2; simpl in Hraise; congruence].
  destruct (merge_field _ "processed_frames" d1 d2 m2) as [m3|e3] eqn:H3;
    [rewrite result_bind_ok in Hraise
    | apply merge_field_raises in H3; simpl in Hraise; congruence].
  destruct (merge_field _ "source_duration" d1 d2 m3) as [m4|e4] eqn:H4;
    [rewrite result_bind_ok in Hraise
    | apply merge_field_raises in H4; simpl in Hraise; congruence].
  discriminate Hraise.
Qed.

(** Outside the finite numbers a merge of two payloads of one resource need
    not return, and the two orders need not agree.  A string and an [int]
    under [timestamp_start] raise [TypeError]: not the [ValueError] of
    differing resources, and no dictionary.  An [int] beyond the range of
    floats added to a float raises [OverflowError].  With a NaN the two
    orders of merging disagree: [min(nan, 1)] is [nan], [min(1, nan)] is
    [1]; and the sum of the two infinities is a NaN, which is not equal to
    itself. *)
Lemma merge_usage_dicts_unsupported_values :
  (py_ne (dict_get usage_text_timestamp "resource_id")
     (dict_get usage_morning "resource_id") = false
   ∧ merge_usage_dicts usage_text_timestamp usage_morning = Raise TypeError)
  ∧ (py_ne (dict_get usage_huge_frames "resource_id")
       (dict_get usage_half_frame "resource_id") = false
     ∧ merge_usage_dicts usage_huge_frames usage_half_frame
       = Raise OverflowError)
  ∧ (merge_usage_dicts usage_nan_timestamp usage_one_timestamp
     = Ok usage_nan_timestamp
     ∧ merge_usage_dicts usage_one_timestamp usage_nan_timestamp
       = Ok usage_one_timestamp
     ∧ py_eq PFloatNaN (PInt 1) = false)
  ∧ (merge_usage_dicts usage_endless usage_rewound = Ok usage_nan_duration
     ∧ merge_usage_dicts usage_rewound usage_endless = Ok usage_nan_duration
     ∧ py_eq PFloatNaN PFloatNaN = false).
Proof. repeat split; vm_compute; reflexivity. Qed.

(** C9.  [merge_usage_dicts] raises [ValueError] exactly when both payloads
    are non-empty and their [resource_id] entries differ.  Otherwise, when
    the two values under each of [timestamp_start], [timestamp_stop],
    [processed_frames] and [source_duration] present in both payloads are
    finite numbers (for the two sums: two [int]s, or two numbers within the
    range of floats), it returns a dictionary that holds under each such
    key the minimum, the maximum, the sum and the sum of the two values;
    and on such payloads the two orders of merging agree on these four
    fields, up to [==]. *)
Theorem merge_usage_dicts_combines_finite_numbers :
  ∀ d1 d2 : gmap string pyval,
    (merge_usage_dicts d1 d2 = Raise ValueError
     ↔ d1 ≠ ∅ ∧ d2 ≠ ∅
       ∧ py_ne (dict_get d1 "resource_id") (dict_get d2 "resource_id") = true)
    ∧
    (finite_usages d1 d2 = true →
     ¬ (d1 ≠ ∅ ∧ d2 ≠ ∅
        ∧ py_ne (dict_get d1 "resource_id") (dict_get d2 "resource_id") = true) →
     ∃ m, merge_usage_dicts d1 d2 = Ok m
          ∧ ∀ k a b, k ∈ reconciled_fields →
              d1 !! k = Some a → d2 !! k = Some b →
              ∃ v, m !! k = Some v ∧ stated_combination k a b v)
    ∧
    (finite_usages d1 d2 = true →
     ∀ m12 m21,
       merge_usage_dicts d1 d2 = Ok m12 → merge_usage_dicts d2 d1 = Ok m21 →
       ∀ k a b, k ∈ reconciled_fields →
         d1 !! k = Some a → d2 !! k = Some b →
         ∃ x y, m12 !! k = Some x ∧ m21 !! k = Some y ∧ py_eq x y = true).
Proof.
  intros d1 d2.
  assert (Hguard :
    dict_truthy d1 && dict_truthy d2
      && py_ne (dict_get d1 "resource_id") (dict_get d2 "resource_id") = true
    ↔ d1 ≠ ∅ ∧ d2 ≠ ∅
      ∧ py_ne (dict_get d1 "resource_id") (dict_get d2 "resource_id") = true).
  { rewrite !andb_true_iff, !dict_truthy_nonempty. tauto. }
  assert (Hfields : ∀ e1 e2 m, finite_usages e1 e2 = true →
            merge_usage_dicts e1 e2 = Ok m →
            ∀ k a b, k ∈ reconciled_fields →
              e1 !! k = Some a → e2 !! k = Some b →
              ∃ v, m !! k = Some v ∧ stated_combination k a b v).
  { intros e1 e2 m Hn Hm k a b Hk Ha Hb.
    destruct (merge_usage_dicts_fields e1 e2 m Hm k a b Hk Ha Hb)
      as (v & Hv & Hl).
    destruct (reconcile_stated k a b Hk) as (v' & Hv' & Hstated).
    - by apply (finite_usages_lookup e1 e2 k).
    - exists v. split; [exact Hl |]. congruence. }
  split; [| split].
  - rewrite <- Hguard. split.
    + intros Hraise.
      destruct (merge_usage_dicts_raises d1 d2 _ Hraise)
        as [[_ Hg] | [[He | He] _]]; [exact Hg | discriminate He ..].
    + intros Hg. rewrite merge_usage_dicts_unfold, Hg. reflexivity.
  - intros Hn Hsame.
    assert (∃ m, merge_usage_dicts d1 d2 = Ok m) as [m Hm].
    { rewrite merge_usage_dicts_unfold.
      destruct (dict_truthy d1 && dict_truthy d2 && py_ne _ _) eqn:Hg;
        [exfalso; by apply Hsame, Hguard |].
      destruct (merge_field_finite "timestamp_start" d1 d2 ∅ Hn)
        as [m1 ->]; [apply list_elem_of_In; simpl; tauto |]. rewrite result_bind_ok.
      destruct (merge_field_finite "timestamp_stop" d1 d2 m1 Hn)
        as [m2 ->]; [apply list_elem_of_In; simpl; tauto |]. rewrite result_bind_ok.
      destruct (merge_field_finite "processed_frames" d1 d2 m2 Hn)
        as [m3 ->]; [apply list_elem_of_In; simpl; tauto |]. rewrite result_bind_ok.
      destruct (merge_field_finite "source_duration" d1 d2 m3 Hn)
        as [m4 ->]; [apply list_elem_of_In; simpl; tauto |]. rewrite result_bind_ok.
      eauto. }
    exists m. split; [exact Hm |]. by apply Hfields.
  - intros Hn m12 m21 H12 H21 k a b Hk Ha Hb.
    destruct (Hfields d1 d2 m12 Hn H12 k a b Hk Ha Hb) as (x & Hlx & Hx).
    destruct (Hfields d2 d1 m21 (finite_usages_comm _ _ Hn) H21 k b a Hk Hb Ha)
      as (y & Hly & Hy).
    exists x, y. split; [exact Hlx |]. split; [exact Hly |].
    by apply (stated_combination_comm k a b).
Qed.

Lemma merge_usage_dicts_combines_finite_numbers_witness :
  finite_usages usage_morning usage_evening = true
  ∧ ¬ (usage_morning ≠ ∅ ∧ usage_evening ≠ ∅
       ∧ py_ne (dict_get usage_morning "resource_id")
           (dict_get usage_evening "resource_id") = true)
  ∧ ∃ m, merge_usage_dicts usage_morning usage_evening = Ok m
         ∧ ∀ k a b, k ∈ reconciled_fields →
             usage_morning !! k = Some a → usage_evening !! k = Some b →
             ∃ v, m !! k = Some v ∧ stated_combination k a b v.
Proof.
  assert (Hsame : ¬ (usage_morning ≠ ∅ ∧ usage_evening ≠ ∅
                     ∧ py_ne (dict_get usage_morning "resource_id")
                         (dict_get usage_evening "resource_id") = true)).
  { intros (_ & _ & Hne). vm_compute in Hne. discriminate Hne. }
  split; [vm_compute; reflexivity |].
  split; [exact Hsame |].
  apply (proj1 (proj2 (merge_usage_dicts_combines_finite_numbers
                         usage_morning usage_evening)));
    [vm_compute; reflexivity | exact Hsame].
Defined.

(** The merge on two payloads of one resource, and on payloads of two
    resources.  The float sum of [1.5] and [2] is [3.5]; the float sum of
    [0.1] and [0.2] is the float above [0.3]. *)
Example merge_usage_dicts_samples :
  (∃ m, merge_usage_dicts usage_morning usage_evening = Ok m
        ∧ m !! "timestamp_start" = Some (PInt 1000)
        ∧ m !! "timestamp_stop" = Some (PInt 4000)
        ∧ m !! "processed_frames" = Some (PInt 42)
        ∧ m !! "source_duration" = Some (PFloat ((3 # 2) + inject_Z 2))
        ∧ m !! "resource_id" = Some (PStr "yolov8n-640"))
  ∧ merge_usage_dicts usage_morning usage_other_resource = Raise ValueError
  ∧ merge_usage_dicts usage_morning ∅ = Ok usage_morning
  ∧ py_add (PFloat (1 # 10)) (PFloat (2 # 10))
    = Ok (PFloat (1351079888211149 # 4503599627370496)).
Proof.
  split; [| split; [| split]].
  - eexists. split; [reflexivity |]. repeat split; vm_compute; reflexivity.
  - vm_compute; reflexivity.
  - rewrite merge_usage_dicts_unfold. simpl.
    unfold merge_field. rewrite !lookup_empty.
    destruct (usage_morning !! "timestamp_start"),
      (usage_morning !! "timestamp_stop"),
      (usage_morning !! "processed_frames"),
      (usage_morning !! "source_duration"); simpl;
      f_equal; by rewrite !(left_id_L ∅ (∪)).
  - vm_compute; reflexivity.
Qed.

(* ===================================================================== *)
(** ** Declared inputs and binding: further properties of the steps *)
(* ===================================================================== *)

Lemma eqb_false_of_ne (a b : string) : a ≠ b → String.eqb a b = false.
Proof. intros Hne. by apply String.eqb_neq. Qed.

(** X1.  Every name a step lists in [get_input_names()] is a field of the
    instance: [getattr] on it never raises. *)
Theorem get_input_names_are_fields :
  ∀ (self : step) (field_name : string),
    field_name ∈ get_input_names self →
    ∃ v : pyval, getattr self field_name = Ok v.
Proof.
  intros self field_name Hin.
  destruct self; simpl in Hin;
    unfold ObjectDetectionModel_get_input_names,
      RoboflowModel_get_input_names in Hin;
    set_unfold in Hin; destruct_or?; subst; eexists; reflexivity.
Qed.

Lemma get_input_names_are_fields_witness :
  "required_objects" ∈ get_input_names (SDetectionsConsensus example_consensus)
  ∧ ∃ v : pyval,
      getattr (SDetectionsConsensus example_consensus) "required_objects" = Ok v.
Proof.
  assert (Hin : "required_objects"
                ∈ get_input_names (SDetectionsConsensus example_consensus))
    by (apply (bool_decide_unpack _); vm_compute; exact I).
  split; [exact Hin |].
  exact (get_input_names_are_fields _ _ Hin).
Defined.

Section BindingProperties.

Context {V : Validators}.

Lemma RoboflowModel_binding_other_field (self : step) (field_name : string)
  (value : pyval) :
  field_name ∉ RoboflowModel_get_input_names →
  RoboflowModel_validate_field_binding self field_name value = Ok tt.
Proof.
  unfold RoboflowModel_get_input_names. intros Hout. set_unfold in Hout.
  unfold RoboflowModel_validate_field_binding.
  rewrite !eqb_false_of_ne by tauto. reflexivity.
Qed.

(** X2.  In [ObjectDetectionModel] and its two subclasses, binding [None]
    raises [VariableTypeError] on every field the base [RoboflowModel] does
    not handle.  This includes [class_filter]: the test [value is None]
    that would let it through comes after the one that raises. *)
Theorem ObjectDetectionModel_binding_None :
  ∀ (self : step) (field_name : string),
    field_name ∉ RoboflowModel_get_input_names →
    ObjectDetectionModel_validate_field_binding self field_name PNone
    = Raise VariableTypeError
    ∧ KeypointsDetectionModel_validate_field_binding self field_name PNone
      = Raise VariableTypeError
    ∧ InstanceSegmentationModel_validate_field_binding self field_name PNone
      = Raise VariableTypeError.
Proof.
  intros self field_name Hout.
  assert (Hod : ObjectDetectionModel_validate_field_binding self field_name PNone
                = Raise VariableTypeError).
  { unfold ObjectDetectionModel_validate_field_binding.
    rewrite (RoboflowModel_binding_other_field _ _ _ Hout). reflexivity. }
  unfold KeypointsDetectionModel_validate_field_binding,
    InstanceSegmentationModel_validate_field_binding.
  rewrite Hod. repeat split.
Qed.

(** X3.  A field name that is not among the declared inputs is never
    refused at binding time, whatever the value, except that the
    object-detection family refuses [None] (X2). *)
Theorem validate_field_binding_undeclared_field :
  ∀ (self : step) (field_name : string) (value : pyval),
    field_name ∉ get_input_names self →
    value ≠ PNone →
    validate_field_binding self field_name value = Ok tt.
Proof.
  intros self field_name value Hout Hval.
  assert (Hnone : is_None value = false) by (by destruct value).
  destruct self; simpl in Hout;
    unfold ObjectDetectionModel_get_input_names,
      RoboflowModel_get_input_names in Hout;
    set_unfold in Hout; simpl;
    unfold KeypointsDetectionModel_validate_field_binding,
      InstanceSegmentationModel_validate_field_binding,
      ObjectDetectionModel_validate_field_binding,
      ClassificationModel_validate_field_binding,
      MultiLabelClassificationModel_validate_field_binding,
      RoboflowModel_validate_field_binding,
      OCRModel_validate_field_binding, Crop_validate_field_binding,
      Condition_validate_field_binding, DetectionFilter_validate_field_binding,
      DetectionOffset_validate_field_binding,
      AbsoluteStaticCrop_validate_field_binding,
      RelativeStaticCrop_validate_field_binding,
      ClipComparison_validate_field_binding,
      DetectionsConsensus_validate_field_binding;
    rewrite ?Hnone;
    rewrite ?eqb_false_of_ne by tauto;
    rewrite ?in_set_false by (set_unfold; tauto);
    rewrite ?Hnone;
    reflexivity.
Qed.

(** X4.  [None] at the consensus step's binding: [required_votes],
    [iou_threshold] and [confidence] refuse it with [VariableTypeError],
    [classes_to_consider] and [required_objects] accept it; a value bound to
    [predictions] is not looked at. *)
Theorem DetectionsConsensus_binding_None :
  ∀ (m : DetectionsConsensus),
    DetectionsConsensus_validate_field_binding m "required_votes" PNone
    = Raise VariableTypeError
    ∧ DetectionsConsensus_validate_field_binding m "iou_threshold" PNone
      = Raise VariableTypeError
    ∧ DetectionsConsensus_validate_field_binding m "confidence" PNone
      = Raise VariableTypeError
    ∧ DetectionsConsensus_validate_field_binding m "classes_to_consider" PNone
      = Ok tt
    ∧ DetectionsConsensus_validate_field_binding m "required_objects" PNone
      = Ok tt
    ∧ ∀ value, DetectionsConsensus_validate_field_binding m "predictions" value
               = Ok tt.
Proof. intros m. repeat split. Qed.

(** The loop over the entries of a [required_objects] mapping succeeds only
    if no entry is [None] and each entry passes the positive-number check. *)
Lemma required_objects_items_ok items none_error error :
  required_objects_items items none_error error = Ok tt →
  ∀ k v, (k, v) ∈ items →
    v ≠ PNone
    ∧ validate_value_is_empty_or_positive_number
        v ("required_objects[" ++ k ++ "]") error = Ok tt.
Proof.
  induction items as [| [k0 v0] rest IH]; intros Hok k v Hin.
  - by apply elem_of_nil in Hin.
  - simpl in Hok.
    destruct (is_None v0) eqn:Hnone; [discriminate Hok |].
    destruct (validate_value_is_empty_or_positive_number v0 _ error)
      as [[]|e] eqn:Hpos; [| discriminate Hok].
    rewrite result_bind_ok in Hok.
    apply elem_of_cons in Hin as [[= -> ->] | Hin].
    + split; [by destruct v0 | exact Hpos].
    + by apply IH.
Qed.

(** X5.  A [required_objects] mapping accepted at construction, or at
    binding, has no [None] entry, and each entry [k: v] went through the
    positive-number check under the name [required_objects[k]]. *)
Theorem required_objects_mapping_entries :
  ∀ (d : list (string * pyval)) (k : string) (v : pyval),
    (k, v) ∈ d →
    (required_objects_field_must_be_valid (PDict d) = Ok tt →
     v ≠ PNone
     ∧ validate_value_is_empty_or_positive_number
         v ("required_objects[" ++ k ++ "]") None = Ok tt)
    ∧ (DetectionsConsensus__validate_required_objects_binding (PDict d) = Ok tt →
       v ≠ PNone
       ∧ validate_value_is_empty_or_positive_number
           v ("required_objects[" ++ k ++ "]") (Some VariableTypeError) = Ok tt).
Proof.
  intros d k v Hin. split.
  - unfold required_objects_field_must_be_valid. simpl.
    destruct (validate_field_is_selector_or_has_given_type _ _ _) as [[]|e];
      [| discriminate].
    rewrite result_bind_ok. intros Hok.
    by apply (required_objects_items_ok d ValueError None).
  - unfold DetectionsConsensus__validate_required_objects_binding. simpl.
    destruct (validate_field_has_given_type _ _ _ _) as [[]|e];
      [| discriminate].
    rewrite !result_bind_ok. intros Hok.
    by apply (required_objects_items_ok d VariableTypeError
                (Some VariableTypeError)).
Qed.

(** X6.  The validator of the relative crop's coordinates accepts exactly
    the floats and the strings that are selectors; an [int] is refused. *)
Theorem RelativeStaticCrop_coordinate_validator :
  ∀ value : pyval,
    (RelativeStaticCrop_detections_must_hold_selector value = Ok tt
     ↔ (type_is_str value = true ∧ is_selector value = true)
       ∨ type_is_float value = true)
    ∧ (RelativeStaticCrop_detections_must_hold_selector value
       = Raise ValueError
       ↔ ¬ ((type_is_str value = true ∧ is_selector value = true)
            ∨ type_is_float value = true)).
Proof.
  intros value. unfold RelativeStaticCrop_detections_must_hold_selector.
  destruct value; simpl; try destruct (is_selector _); simpl;
    (split; split; intros; intuition discriminate).
Qed.

End BindingProperties.

Lemma ObjectDetectionModel_binding_None_witness :
  ("class_filter" ∉ RoboflowModel_get_input_names)
  ∧ ObjectDetectionModel_validate_field_binding
      (SObjectDetectionModel example_detector) "class_filter" PNone
    = Raise VariableTypeError.
Proof.
  assert (Hout : "class_filter" ∉ RoboflowModel_get_input_names)
    by (apply (bool_decide_unpack _); vm_compute; exact I).
  split; [exact Hout |].
  exact (proj1 (ObjectDetectionModel_binding_None (V := spec_validators)
                  (SObjectDetectionModel example_detector) "class_filter" Hout)).
Defined.

Lemma validate_field_binding_undeclared_field_witness :
  ("confidense" ∉ get_input_names (SObjectDetectionModel example_detector))
  ∧ PFloat (3 # 2) ≠ PNone
  ∧ validate_field_binding (SObjectDetectionModel example_detector)
      "confidense" (PFloat (3 # 2)) = Ok tt.
Proof.
  assert (Hout : "confidense"
                 ∉ get_input_names (SObjectDetectionModel example_detector))
    by (apply (bool_decide_unpack _); vm_compute; exact I).
  split; [exact Hout |].
  split; [discriminate |].
  apply (validate_field_binding_undeclared_field (V := spec_validators));
    [exact Hout | discriminate].
Defined.

Lemma required_objects_mapping_entries_witness :
  ("car", PInt 2) ∈ [("car", PInt 2); ("person", PInt 1)]
  ∧ (required_objects_field_must_be_valid
       (PDict [("car", PInt 2); ("person", PInt 1)]) = Ok tt →
     PInt 2 ≠ PNone
     ∧ validate_value_is_empty_or_positive_number
         (PInt 2) ("required_objects[" ++ "car" ++ "]") None = Ok tt)
  ∧ required_objects_field_must_be_valid
      (PDict [("car", PInt 2); ("person", PInt 1)]) = Ok tt.
Proof.
  assert (Hin : ("car", PInt 2) ∈ [("car", PInt 2); ("person", PInt 1)])
    by (apply elem_of_cons; by left).
  split; [exact Hin |].
  split; [| reflexivity].
  exact (proj1 (required_objects_mapping_entries (V := spec_validators)
                  _ "car" (PInt 2) Hin)).
Defined.

(* ===================================================================== *)
(** ** The consensus index below zero, and inherited validators *)
(* ===================================================================== *)

Lemma py_getitem_negative {A : Type} (l : list A) (i : Z) :
  - Z.of_nat (length l) <= i < 0 →
  py_getitem l i = py_getitem l (i + Z.of_nat (length l)).
Proof.
  intros [Hlo Hhi]. unfold py_getitem.
  destruct (Z.ltb_spec i 0) as [_ | Hge]; [| lia].
  destruct (Z.ltb_spec (i + Z.of_nat (length l)) 0) as [Hneg | _]; [lia |].
  reflexivity.
Qed.

Lemma py_getitem_below {A : Type} (l : list A) (i : Z) :
  i < - Z.of_nat (length l) → py_getitem l i = Raise IndexError.
Proof.
  intros Hlo. unfold py_getitem.
  destruct (Z.ltb_spec i 0) as [_ | Hge]; [| lia].
  destruct (Z.leb_spec 0 (i + Z.of_nat (length l))) as [Hge | _]; [lia |].
  reflexivity.
Qed.

Section ConsensusNegativeIndex.

Context {V : Validators}.

(** X7.  The consensus step does not refuse a negative index.  An index in
    [-len, 0) is validated as the element counted from the end, exactly as
    [index + len] would be; an index below [-len] runs into the list access
    and an [IndexError] escapes. *)
Theorem DetectionsConsensus_negative_index :
  ∀ (m : DetectionsConsensus) (input_step : GraphNone) (i : Z),
    let n := Z.of_nat (length (dc_predictions m)) in
    (- n <= i < 0 →
     validate_field_selector (SDetectionsConsensus m) "predictions"
       input_step (Some i)
     = validate_field_selector (SDetectionsConsensus m) "predictions"
         input_step (Some (i + n)))
    ∧ (i < - n →
       validate_field_selector (SDetectionsConsensus m) "predictions"
         input_step (Some i) = Raise IndexError).
Proof.
  intros m input_step i n. simpl.
  unfold DetectionsConsensus_validate_field_selector. simpl String.eqb.
  cbv iota. simpl negb. cbv iota. rewrite !result_bind_ok. fold n.
  split.
  - intros Hi.
    destruct (Z.ltb_spec n i) as [Hgt | _]; [lia |].
    destruct (Z.ltb_spec n (i + n)) as [Hgt | _]; [lia |].
    unfold n. rewrite (py_getitem_negative _ i) by (fold n; lia).
    reflexivity.
  - intros Hi.
    destruct (Z.ltb_spec n i) as [Hgt | _]; [lia |].
    unfold n in Hi. rewrite (py_getitem_below _ i Hi). reflexivity.
Qed.

End ConsensusNegativeIndex.

Lemma DetectionsConsensus_negative_index_witness :
  (- Z.of_nat (length (dc_predictions example_consensus)) <= -1 < 0)
  ∧ validate_field_selector (SDetectionsConsensus example_consensus)
      "predictions" detector_node (Some (-1))
    = validate_field_selector (SDetectionsConsensus example_consensus)
        "predictions" detector_node
        (Some (-1 + Z.of_nat (length (dc_predictions example_consensus))))
  ∧ -3 < - Z.of_nat (length (dc_predictions example_consensus))
  ∧ validate_field_selector (SDetectionsConsensus example_consensus)
      "predictions" detector_node (Some (-3)) = Raise IndexError.
Proof.
  assert (H1 : - Z.of_nat (length (dc_predictions example_consensus)) <= -1 < 0)
    by (simpl; lia).
  assert (H3 : -3 < - Z.of_nat (length (dc_predictions example_consensus)))
    by (simpl; lia).
  split; [exact H1 |].
  split; [exact (proj1 (DetectionsConsensus_negative_index
                          (V := spec_validators) example_consensus
                          detector_node (-1)) H1) |].
  split; [exact H3 |].
  exact (proj2 (DetectionsConsensus_negative_index
                  (V := spec_validators) example_consensus
                  detector_node (-3)) H3).
Defined.

Section InheritedValidators.

Context {V : Validators}.

(** X8.  Subclassing keeps the validators of the fields the subclass does
    not redeclare a validator name for: the three [RoboflowModel] fields
    are checked alike in all six classes, and the keypoints class checks
    every field but [keypoint_confidence] as [ObjectDetectionModel] does. *)
Theorem field_validators_inherited :
  (∀ (c : model_class) (field_name : string) (value : pyval),
     field_name ∈ RoboflowModel_get_input_names →
     construct_field c field_name value
     = construct_field CRoboflowModel field_name value)
  ∧
  (∀ (field_name : string) (value : pyval),
     field_name ≠ "keypoint_confidence" →
     construct_field CKeypointsDetectionModel field_name value
     = construct_field CObjectDetectionModel field_name value).
Proof.
  split.
  - intros c field_name value Hin.
    unfold RoboflowModel_get_input_names in Hin. set_unfold in Hin.
    destruct_or!; subst; destruct c; unfold construct_field; simpl;
      repeat match goal with
             | |- context [?r ≫= _] =>
                 match r with
                 | Ok _ => rewrite result_bind_ok
                 | _ => destruct r as [[]|]; simpl
                 end
             end; reflexivity.
  - intros field_name value Hne.
    unfold construct_field. simpl.
    rewrite (eqb_false_of_ne _ _ Hne). simpl.
    repeat match goal with
           | |- context [if ?b then _ else _] => destruct b; simpl
           end;
      repeat match goal with
             | |- context [?r ≫= _] =>
                 match r with
                 | Ok _ => rewrite result_bind_ok
                 | _ => destruct r as [[]|]; simpl
                 end
             end; reflexivity.
Qed.

End InheritedValidators.

Lemma field_validators_inherited_witness :
  ("model_id" ∈ RoboflowModel_get_input_names)
  ∧ construct_field CInstanceSegmentationModel "model_id" (PInt 7)
    = construct_field CRoboflowModel "model_id" (PInt 7)
  ∧ "max_detections" ≠ "keypoint_confidence"
  ∧ construct_field CKeypointsDetectionModel "max_detections" (PInt (-1))
    = construct_field CObjectDetectionModel "max_detections" (PInt (-1)).
Proof.
  assert (Hin : "model_id" ∈ RoboflowModel_get_input_names)
    by (apply (bool_decide_unpack _); vm_compute; exact I).
  split; [exact Hin |].
  split; [exact (proj1 (field_validators_inherited (V := spec_validators))
                   CInstanceSegmentationModel "model_id" (PInt 7) Hin) |].
  split; [discriminate |].
  apply (proj2 (field_validators_inherited (V := spec_validators))).
  discriminate.
Defined.

(* ===================================================================== *)
(** ** Usage payloads: the empty payload, the other keys, the search *)
(* ===================================================================== *)

Lemma merge_field_absent_r op (k : string) (d1 merged : gmap string pyval) :
  merge_field op k d1 ∅ merged = Ok merged.
Proof. unfold merge_field. rewrite lookup_empty. by destruct (d1 !! k). Qed.

Lemma merge_field_absent_l op (k : string) (d2 merged : gmap string pyval) :
  merge_field op k ∅ d2 merged = Ok merged.
Proof. unfold merge_field. by rewrite lookup_empty. Qed.

(** X9.  The empty payload is neutral for [merge_usage_dicts], on either
    side: the merge returns the other payload unchanged, whatever it
    holds. *)
Theorem merge_usage_dicts_empty :
  ∀ d : gmap string pyval,
    merge_usage_dicts d ∅ = Ok d ∧ merge_usage_dicts ∅ d = Ok d.
Proof.
  intros d. rewrite !merge_usage_dicts_unfold.
  assert (Hempty : dict_truthy (∅ : gmap string pyval) = false) by reflexivity.
  rewrite Hempty, andb_false_r. simpl andb. cbv iota.
  split.
  - do 4 (rewrite merge_field_absent_r, result_bind_ok).
    f_equal. by rewrite !(left_id_L ∅ (∪)).
  - do 4 (rewrite merge_field_absent_l, result_bind_ok).
    f_equal. by rewrite (left_id_L ∅ (∪)), (right_id_L ∅ (∪)).
Qed.

Lemma merge_field_lookup_None op (k0 k : string)
  (d1 d2 merged merged' : gmap string pyval) :
  merge_field op k0 d1 d2 merged = Ok merged' →
  merged !! k = None →
  k ≠ k0 ∨ d1 !! k0 = None ∨ d2 !! k0 = None →
  merged' !! k = None.
Proof.
  unfold merge_field. intros Hm Hk Hcase.
  destruct (d1 !! k0) as [a|] eqn:Ha, (d2 !! k0) as [b|] eqn:Hb;
    try (by inversion Hm; subst).
  destruct (op a b) as [v|e]; simpl in Hm; [| discriminate Hm].
  inversion Hm; subst.
  destruct Hcase as [Hne | [Hnone | Hnone]]; try discriminate Hnone.
  by rewrite lookup_insert_ne.
Qed.

(** X10.  Outside the reconciled fields present in both payloads, the
    merged dictionary holds the entry of the second payload when it has
    one, and the entry of the first otherwise; the merge neither drops nor
    invents a key. *)
Theorem merge_usage_dicts_other_keys :
  ∀ (d1 d2 m : gmap string pyval),
    merge_usage_dicts d1 d2 = Ok m →
    (∀ k, k ∉ reconciled_fields ∨ d1 !! k = None ∨ d2 !! k = None →
          m !! k = match d2 !! k with
                   | Some v => Some v
                   | None => d1 !! k
                   end)
    ∧ (∀ k, is_Some (m !! k) ↔ is_Some (d1 !! k) ∨ is_Some (d2 !! k)).
Proof.
  intros d1 d2 m Hm.
  assert (Hother : ∀ k, k ∉ reconciled_fields ∨ d1 !! k = None ∨ d2 !! k = None →
            m !! k = match d2 !! k with
                     | Some v => Some v
                     | None => d1 !! k
                     end).
  { pose proof Hm as Hm'. rewrite merge_usage_dicts_unfold in Hm'.
    destruct (dict_truthy d1 && dict_truthy d2 && py_ne _ _);
      [discriminate Hm' |].
    destruct (merge_field _ "timestamp_start" d1 d2 ∅) as [m1|] eqn:H1;
      [rewrite result_bind_ok in Hm' | discriminate Hm'].
    destruct (merge_field _ "timestamp_stop" d1 d2 m1) as [m2|] eqn:H2;
      [rewrite result_bind_ok in Hm' | discriminate Hm'].
    destruct (merge_field _ "processed_frames" d1 d2 m2) as [m3|] eqn:H3;
      [rewrite result_bind_ok in Hm' | discriminate Hm'].
    destruct (merge_field _ "source_duration" d1 d2 m3) as [m4|] eqn:H4;
      [rewrite result_bind_ok in Hm' | discriminate Hm'].
    inversion Hm'; subst m. clear Hm'.
    intros k Hk.
    assert (Hcase : ∀ k0, k0 ∈ reconciled_fields →
              k ≠ k0 ∨ d1 !! k0 = None ∨ d2 !! k0 = None).
    { intros k0 Hk0. destruct (decide (k = k0)) as [-> | Hne]; [| by left].
      destruct Hk as [Hout | Hnone]; [contradiction | by right]. }
    assert (Hin : ∀ k0, In k0 reconciled_fields → k0 ∈ reconciled_fields)
      by (intros k0; apply list_elem_of_In).
    assert (H4' : m4 !! k = None).
    { apply (merge_field_lookup_None _ _ _ _ _ _ _ H4);
        [| apply Hcase, Hin; simpl; tauto].
      apply (merge_field_lookup_None _ _ _ _ _ _ _ H3);
        [| apply Hcase, Hin; simpl; tauto].
      apply (merge_field_lookup_None _ _ _ _ _ _ _ H2);
        [| apply Hcase, Hin; simpl; tauto].
      apply (merge_field_lookup_None _ _ _ _ _ _ _ H1);
        [apply lookup_empty | apply Hcase, Hin; simpl; tauto]. }
    rewrite !lookup_union, H4'.
    by destruct (d2 !! k), (d1 !! k). }
  split; [exact Hother |].
  intros k.
  destruct (d1 !! k) as [a|] eqn:Ha, (d2 !! k) as [b|] eqn:Hb.
  - destruct (decide (k ∈ reconciled_fields)) as [Hk | Hk].
    + destruct (merge_usage_dicts_fields d1 d2 m Hm k a b Hk Ha Hb)
        as (v & _ & ->). split; eauto.
    + rewrite (Hother k (or_introl Hk)), Hb. split; eauto.
  - rewrite (Hother k (or_intror (or_intror Hb))), Hb, Ha. split; eauto.
  - rewrite (Hother k (or_intror (or_introl Ha))), Hb. split; eauto.
  - rewrite (Hother k (or_intror (or_introl Ha))), Hb, Ha.
    split; [intros [? [=]] | intros [[? [=]] | [? [=]]]].
Qed.

Lemma merge_usage_dicts_other_keys_witness :
  merge_usage_dicts usage_morning usage_evening
  = Ok (<["timestamp_start" := PInt 1000]>
          (<["processed_frames" := PInt 42]>
             (<["source_duration" := PFloat ((3 # 2) + inject_Z 2)]>
                usage_evening)))
  ∧ ("resource_id" ∉ reconciled_fields
     ∨ usage_morning !! "resource_id" = None
     ∨ usage_evening !! "resource_id" = None)
  ∧ (<["timestamp_start" := PInt 1000]>
       (<["processed_frames" := PInt 42]>
          (<["source_duration" := PFloat ((3 # 2) + inject_Z 2)]>
             usage_evening))) !! "resource_id"
    = match usage_evening !! "resource_id" with
      | Some v => Some v
      | None => usage_morning !! "resource_id"
      end.
Proof.
  assert (Hm : merge_usage_dicts usage_morning usage_evening
               = Ok (<["timestamp_start" := PInt 1000]>
                       (<["processed_frames" := PInt 42]>
                          (<["source_duration" := PFloat ((3 # 2) + inject_Z 2)]>
                             usage_evening))))
    by (vm_compute; reflexivity).
  assert (Hk : "resource_id" ∉ reconciled_fields
               ∨ usage_morning !! "resource_id" = None
               ∨ usage_evening !! "resource_id" = None).
  { left. apply (bool_decide_unpack _). vm_compute. exact I. }
  split; [exact Hm |].
  split; [exact Hk |].
  exact (proj1 (merge_usage_dicts_other_keys _ _ _ Hm) "resource_id" Hk).
Defined.

(** X11.  [merge_usage_dicts] raises nothing but [ValueError] (the resource
    ids differ), [TypeError] (two values of a reconciled field cannot be
    compared or added) and [OverflowError] (an [int] beyond the range of
    floats is added to a float); the last two only once the guard on the
    resource ids has passed. *)
Theorem merge_usage_dicts_errors :
  ∀ (d1 d2 : gmap string pyval) (e : exn),
    merge_usage_dicts d1 d2 = Raise e →
    (e = ValueError ∨ e = TypeError ∨ e = OverflowError)
    ∧ (e ≠ ValueError →
       dict_truthy d1 && dict_truthy d2
       && py_ne (dict_get d1 "resource_id") (dict_get d2 "resource_id")
       = false).
Proof.
  intros d1 d2 e Hraise.
  destruct (merge_usage_dicts_raises d1 d2 e Hraise)
    as [[-> _] | [[-> | ->] Hg]].
  - split; [by left | done].
  - split; [right; by left | done].
  - split; [right; by right | done].
Qed.

Lemma merge_usage_dicts_errors_witness :
  merge_usage_dicts usage_huge_frames usage_half_frame = Raise OverflowError
  ∧ (OverflowError = ValueError ∨ OverflowError = TypeError
     ∨ OverflowError = OverflowError)
  ∧ (OverflowError ≠ ValueError →
     dict_truthy usage_huge_frames && dict_truthy usage_half_frame
     && py_ne (dict_get usage_huge_frames "resource_id")
          (dict_get usage_half_frame "resource_id")
     = false).
Proof.
  assert (Hraise : merge_usage_dicts usage_huge_frames usage_half_frame
                   = Raise OverflowError) by (vm_compute; reflexivity).
  split; [exact Hraise |].
  exact (merge_usage_dicts_errors _ _ _ Hraise).
Defined.

Lemma first_usage_with_resource_Some resource_payloads u :
  first_usage_with_resource resource_payloads = Some u →
  ∃ resource_id, (resource_id, u) ∈ resource_payloads
    ∧ resource_id ≠ "" ∧ u ≠ ∅ ∧ is_Some (u !! "resource_id").
Proof.
  induction resource_payloads as [| [rid usage] rest IH]; simpl;
    [discriminate |].
  destruct (String.eqb_spec rid "") as [-> | Hrid].
  - intros Hrest. destruct (IH Hrest) as (r & Hin & Hq).
    exists r. split; [by right | exact Hq].
  - destruct (dict_truthy usage) eqn:Htruthy; simpl.
    + unfold dict_has. destruct (usage !! "resource_id") as [v|] eqn:Hv; simpl.
      * intros [= <-]. exists rid. split; [by left |].
        split; [exact Hrid |]. split; [by apply dict_truthy_nonempty |].
        rewrite Hv. eauto.
      * intros Hrest. destruct (IH Hrest) as (r & Hin & Hq).
        exists r. split; [by right | exact Hq].
    + intros Hrest. destruct (IH Hrest) as (r & Hin & Hq).
      exists r. split; [by right | exact Hq].
Qed.

Lemma first_usage_with_resource_None resource_payloads :
  first_usage_with_resource resource_payloads = None →
  ∀ resource_id u, (resource_id, u) ∈ resource_payloads →
    ¬ (resource_id ≠ "" ∧ u ≠ ∅ ∧ is_Some (u !! "resource_id")).
Proof.
  induction resource_payloads as [| [rid usage] rest IH]; simpl;
    intros Hnone resource_id u Hin.
  - by apply elem_of_nil in Hin.
  - apply elem_of_cons in Hin as [[= -> ->] | Hin].
    + intros (Hrid & Hne & Hhas).
      rewrite (eqb_false_of_ne _ _ Hrid) in Hnone.
      apply dict_truthy_nonempty in Hne. rewrite Hne in Hnone.
      unfold dict_has in Hnone. destruct Hhas as [v Hv].
      rewrite Hv in Hnone. discriminate Hnone.
    + apply IH; [| exact Hin].
      destruct (String.eqb rid ""); [exact Hnone |].
      by destruct (negb (dict_truthy usage) || negb (dict_has usage "resource_id")).
Qed.

Lemma first_usage_in_payload_Some api_key_hash usage_payload u :
  first_usage_in_payload api_key_hash usage_payload = Some u →
  ∃ other_api_key_hash resource_payloads resource_id,
    (other_api_key_hash, resource_payloads) ∈ usage_payload
    ∧ (resource_id, u) ∈ resource_payloads
    ∧ usage_qualifies api_key_hash other_api_key_hash resource_id u.
Proof.
  induction usage_payload as [| [other resource_payloads] rest IH]; simpl;
    [discriminate |].
  assert (Hrest : first_usage_in_payload api_key_hash rest = Some u →
            ∃ o rps rid, (o, rps) ∈ (other, resource_payloads) :: rest
              ∧ (rid, u) ∈ rps ∧ usage_qualifies api_key_hash o rid u).
  { intros Hsome. destruct (IH Hsome) as (o & rps & rid & Hin & Hq).
    exists o, rps, rid. split; [by right | exact Hq]. }
  destruct (String.eqb_spec api_key_hash "") as [Hany | Hasked]; simpl.
  - destruct (String.eqb_spec other "") as [Hempty | Hother]; [exact Hrest |].
    destruct (first_usage_with_resource resource_payloads) as [u'|] eqn:Hfirst;
      [| exact Hrest].
    intros [= <-].
    destruct (first_usage_with_resource_Some _ _ Hfirst)
      as (rid & Hin & Hrid & Hne & Hhas).
    exists other, resource_payloads, rid.
    split; [by left |]. split; [exact Hin |].
    unfold usage_qualifies. tauto.
  - destruct (String.eqb_spec other api_key_hash) as [-> | Hdiff]; simpl;
      [| exact Hrest].
    rewrite (eqb_false_of_ne _ _ Hasked).
    destruct (first_usage_with_resource resource_payloads) as [u'|] eqn:Hfirst;
      [| exact Hrest].
    intros [= <-].
    destruct (first_usage_with_resource_Some _ _ Hfirst)
      as (rid & Hin & Hrid & Hne & Hhas).
    exists api_key_hash, resource_payloads, rid.
    split; [by left |]. split; [exact Hin |].
    unfold usage_qualifies. tauto.
Qed.

Lemma first_usage_in_payload_None api_key_hash usage_payload :
  first_usage_in_payload api_key_hash usage_payload = None →
  ∀ other_api_key_hash resource_payloads resource_id u,
    (other_api_key_hash, resource_payloads) ∈ usage_payload →
    (resource_id, u) ∈ resource_payloads →
    ¬ usage_qualifies api_key_hash other_api_key_hash resource_id u.
Proof.
  induction usage_payload as [| [other rps0] rest IH]; simpl;
    intros Hnone o rps rid u Hin Hinr.
  - by apply elem_of_nil in Hin.
  - apply elem_of_cons in Hin as [[= -> ->] | Hin].
    + intros (Hkey & Hother & Hq).
      assert (Hskip : negb (String.eqb api_key_hash "")
                      && negb (String.eqb other api_key_hash) = false).
      { destruct Hkey as [-> | ->]; [reflexivity |].
        rewrite String.eqb_refl. by rewrite andb_false_r. }
      rewrite Hskip, (eqb_false_of_ne _ _ Hother) in Hnone.
      destruct (first_usage_with_resource rps0) as [u'|] eqn:Hfirst;
        [discriminate Hnone |].
      by apply (first_usage_with_resource_None _ Hfirst rid u Hinr).
    + apply (IH) with (resource_payloads := rps); [| exact Hin | exact Hinr].
      destruct (negb (String.eqb api_key_hash "")
                && negb (String.eqb other api_key_hash)); [exact Hnone |].
      destruct (String.eqb other ""); [exact Hnone |].
      by destruct (first_usage_with_resource rps0).
Qed.

(** X12.  What [get_api_key_usage_containing_resource] returns is a usage
    found in the payloads under a non-empty API-key hash (the requested
    one, when the requested hash is not empty) and a non-empty resource id,
    and it is non-empty and has a ["resource_id"] entry; it returns [None]
    only when the payloads hold no such usage. *)
Theorem get_api_key_usage_containing_resource_spec :
  ∀ (api_key_hash : string)
    (usage_payloads : list (list (string * list (string * gmap string pyval)))),
    (∀ u, get_api_key_usage_containing_resource api_key_hash usage_payloads
          = Some u →
          ∃ usage_payload other_api_key_hash resource_payloads resource_id,
            usage_payload ∈ usage_payloads
            ∧ (other_api_key_hash, resource_payloads) ∈ usage_payload
            ∧ (resource_id, u) ∈ resource_payloads
            ∧ usage_qualifies api_key_hash other_api_key_hash resource_id u)
    ∧ (get_api_key_usage_containing_resource api_key_hash usage_payloads = None →
       ∀ usage_payload other_api_key_hash resource_payloads resource_id u,
         usage_payload ∈ usage_payloads →
         (other_api_key_hash, resource_payloads) ∈ usage_payload →
         (resource_id, u) ∈ resource_payloads →
         ¬ usage_qualifies api_key_hash other_api_key_hash resource_id u).
Proof.
  intros api_key_hash usage_payloads.
  induction usage_payloads as [| payload rest [IHsome IHnone]]; simpl.
  - split; [discriminate |].
    intros _ usage_payload o rps rid u Hin. by apply elem_of_nil in Hin.
  - destruct (first_usage_in_payload api_key_hash payload) as [u'|] eqn:Hfirst.
    + split; [| discriminate].
      intros u [= <-].
      destruct (first_usage_in_payload_Some _ _ _ Hfirst)
        as (o & rps & rid & Hin & Hq).
      exists payload, o, rps, rid. split; [by left | split; [exact Hin | exact Hq]].
    + split.
      * intros u Hsome.
        destruct (IHsome u Hsome) as (p & o & rps & rid & Hin & Hq).
        exists p, o, rps, rid. split; [by right | exact Hq].
      * intros Hnone usage_payload o rps rid u Hin Hino Hinr.
        apply elem_of_cons in Hin as [-> | Hin].
        -- by apply (first_usage_in_payload_None _ _ Hfirst o rps rid u).
        -- by apply (IHnone Hnone usage_payload o rps rid u).
Qed.

Lemma get_api_key_usage_containing_resource_spec_witness :
  get_api_key_usage_containing_resource "" example_payloads = Some usage_morning
  ∧ ∃ usage_payload other_api_key_hash resource_payloads resource_id,
      usage_payload ∈ example_payloads
      ∧ (other_api_key_hash, resource_payloads) ∈ usage_payload
      ∧ (resource_id, usage_morning) ∈ resource_payloads
      ∧ usage_qualifies "" other_api_key_hash resource_id usage_morning.
Proof.
  assert (Hsome : get_api_key_usage_containing_resource "" example_payloads
                  = Some usage_morning) by (vm_compute; reflexivity).
  split; [exact Hsome |].
  exact (proj1 (get_api_key_usage_containing_resource_spec "" example_payloads)
           usage_morning Hsome).
Defined.

(* ===================================================================== *)
(** ** The data collector sink: batch names and registration statuses *)
(* ===================================================================== *)

Lemma prefix_app (s t : string) : String.prefix s (s ++ t) = true.
Proof.
  induction s as [| a s IH]; simpl; [by destruct t |].
  destruct (Ascii.ascii_dec a a) as [_ | Hne]; [exact IH | contradiction].
Qed.

Lemma prefix_refl (s : string) : String.prefix s s = true.
Proof.
  induction s as [| a s IH]; simpl; [reflexivity |].
  destruct (Ascii.ascii_dec a a) as [_ | Hne]; [exact IH | contradiction].
Qed.

Section BatchNames.

Context {datetime : Type} `{Clock datetime}.

(** X13.  With the frequency ["never"] the batch name is the prefix itself.
    Whenever [generate_batch_name] returns, the name starts with the
    prefix.  A frequency other than ["never"], ["daily"], ["weekly"] and
    ["monthly"] raises [KeyError]. *)
Theorem generate_batch_name_prefix :
  ∀ (labeling_batch_prefix new_labeling_batch_frequency : string),
    generate_batch_name labeling_batch_prefix "never"
    = Returned labeling_batch_prefix
    ∧ (∀ name,
         generate_batch_name labeling_batch_prefix new_labeling_batch_frequency
         = Returned name →
         String.prefix labeling_batch_prefix name = true)
    ∧ (new_labeling_batch_frequency ∉ ["never"; "daily"; "weekly"; "monthly"] →
       generate_batch_name labeling_batch_prefix new_labeling_batch_frequency
       = Thrown (KeyError new_labeling_batch_frequency)).
Proof.
  intros prefix frequency. split; [reflexivity | split].
  - intros name. unfold generate_batch_name.
    destruct (String.eqb frequency "never").
    + intros [= <-]. apply prefix_refl.
    + destruct (lookup_generator _ frequency) as [g|e]; simpl;
        [| discriminate].
      intros [= <-]. apply prefix_app.
  - intros Hout.
    rewrite !not_elem_of_cons in Hout.
    destruct Hout as (Hnever & Hdaily & Hweekly & Hmonthly & _).
    unfold generate_batch_name. simpl.
    by rewrite !eqb_false_of_ne.
Qed.

End BatchNames.

Lemma generate_batch_name_prefix_witness :
  generate_batch_name (datetime := unit) "workflows_data_collector" "weekly"
  = Returned "workflows_data_collector_2024_05_06"
  ∧ String.prefix "workflows_data_collector"
      "workflows_data_collector_2024_05_06" = true
  ∧ ("yearly" ∉ ["never"; "daily"; "weekly"; "monthly"])
  ∧ generate_batch_name (datetime := unit) "workflows_data_collector" "yearly"
    = Thrown (KeyError "yearly").
Proof.
  assert (Hname : generate_batch_name (datetime := unit)
                    "workflows_data_collector" "weekly"
                  = Returned "workflows_data_collector_2024_05_06")
    by reflexivity.
  assert (Hout : "yearly" ∉ ["never"; "daily"; "weekly"; "monthly"]).
  { rewrite !not_elem_of_cons. repeat split; try discriminate.
    apply not_elem_of_nil. }
  destruct (generate_batch_name_prefix (datetime := unit)
              "workflows_data_collector" "weekly") as (_ & Hprefix & _).
  destruct (generate_batch_name_prefix (datetime := unit)
              "workflows_data_collector" "yearly") as (_ & _ & Hkey).
  split; [exact Hname |].
  split; [exact (Hprefix _ Hname) |].
  split; [exact Hout |].
  exact (Hkey Hout).
Defined.

Section RegistrationStatus.

Context {C ndarray : Type} `{Platform C ndarray}.

(** X14.  The status of [register_datapoint], by the answer of the API.  An
    answer with a truthy ["duplicate"] gives ["Duplicated image"], and so
    does an answer whose ["id"] is [None]; an answer with neither
    ["duplicate"] nor ["id"] raises [KeyError]; a registered image gives
    ["Successfully registered image"] when there is no prediction and
    [None] when there is one; an exception of the API goes through. *)
Theorem register_datapoint_status :
  ∀ (target_project : string) (encoded_image : list Byte.byte)
    (local_image_id : string) (prediction : pyval)
    (api_key batch_name : string) (tags : list string),
    let answer :=
      register_image_at_roboflow api_key target_project local_image_id
        encoded_image batch_name tags in
    let status :=
      register_datapoint target_project encoded_image local_image_id
        prediction api_key batch_name tags in
    (∀ e, answer = Thrown e → status = Thrown e)
    ∧ (∀ response, answer = Returned response →
         let duplicated :=
           py_truthy (default (PBool false) (response !! "duplicate")) in
         (duplicated = true → status = Returned (Some DUPLICATED_STATUS))
         ∧ (duplicated = false → response !! "id" = None →
            status = Thrown (KeyError "id"))
         ∧ (duplicated = false → response !! "id" = Some PNone →
            status = Returned (Some DUPLICATED_STATUS))
         ∧ (∀ v, duplicated = false → response !! "id" = Some v → v ≠ PNone →
              (prediction = PNone →
               status = Returned (Some "Successfully registered image"))
              ∧ (prediction ≠ PNone → status = Returned None))).
Proof.
  intros target_project encoded_image local_image_id prediction api_key
    batch_name tags answer status.
  unfold status, register_datapoint, safe_register_image_at_roboflow.
  fold answer. split.
  - intros e ->. reflexivity.
  - intros response ->. simpl.
    destruct (py_truthy (default (PBool false) (response !! "duplicate")));
      simpl.
    + split; [reflexivity |]. split; [discriminate |].
      split; [discriminate |]. intros v Hfalse. discriminate Hfalse.
    + split; [discriminate |].
      split; [intros _ ->; reflexivity |].
      split; [intros _ ->; reflexivity |].
      intros v _ -> Hv. simpl.
      assert (Hnone : is_None v = false) by (by destruct v).
      rewrite Hnone. split.
      * intros ->. reflexivity.
      * intros Hp. by destruct prediction.
Qed.

End RegistrationStatus.

Lemma register_datapoint_status_witness :
  register_image_at_roboflow (C := gmap string (pyval * Z)) (ndarray := unit)
    "password" "my_dataset" "fresh" [] "batch" []
  = Returned {[ "id" := PStr "img-1" ]}
  ∧ Ellipsis ≠ PNone
  ∧ register_datapoint (C := gmap string (pyval * Z)) (ndarray := unit)
      "my_dataset" [] "fresh" Ellipsis "password" "batch" []
    = Returned None.
Proof.
  split; [reflexivity |].
  split; [discriminate |].
  destruct (register_datapoint_status (C := gmap string (pyval * Z))
              (ndarray := unit) "my_dataset" [] "fresh" Ellipsis
              "password" "batch" []) as [_ Hanswer].
  destruct (Hanswer {[ "id" := PStr "img-1" ]} eq_refl)
    as (_ & _ & _ & Hregistered).
  apply (Hregistered (PStr "img-1")); [reflexivity | reflexivity | | ];
    discriminate.
Defined.

(* ===================================================================== *)
(** ** The data collector sink: credits, the workspace, the batch *)
(* ===================================================================== *)

Section SinkProperties.

Context {C ndarray datetime : Type}.
Context `{BaseCache C} `{Platform C ndarray} `{Clock datetime}.


(** X16.  The workspace a registration is booked under.  With a non-empty
    cached name the credit is asked for under that name.  On a cache miss
    the name is fetched and stored, but the credit is asked for under
    [None], since that is what [get_workspace_name] returns then; a failure
    of the fetch escapes before anything else happens. *)
Theorem execute_registration_workspace :
  ∀ (a : RegistrationArguments) (local_image_id : string) (cache : C),
    let cache_key := workspace_cache_key md5_hexdigest (arg_api_key a) in
    (py_truthy (cache_get cache cache_key) = true →
     execute_registration (datetime := datetime) a local_image_id cache
     = registration_with_workspace (datetime := datetime) a local_image_id
         (cache_get cache cache_key) cache)
    ∧ (py_truthy (cache_get cache cache_key) = false →
       (∀ name, get_roboflow_workspace (arg_api_key a) = Ok name →
          execute_registration (datetime := datetime) a local_image_id cache
          = registration_with_workspace (datetime := datetime) a local_image_id
              PNone (cache_set cache cache_key (PStr name) 900))
       ∧ (∀ e, get_roboflow_workspace (arg_api_key a) = Raise e →
            execute_registration (datetime := datetime) a local_image_id cache
            = (Thrown (Builtin e), cache))).
Proof.
  intros a local_image_id cache cache_key.
  unfold execute_registration, get_workspace_name. fold cache_key.
  split.
  - intros ->. reflexivity.
  - intros ->. split.
    + intros name ->. reflexivity.
    + intros e ->. reflexivity.
Qed.

(** X17.  The statuses an attempt can end with.  Without a prediction it is
    ["Duplicated image"] or ["Successfully registered image"]; with a
    prediction it is ["Duplicated image"] or [None]: a registration that
    carries a prediction never reports success. *)
Theorem registration_attempt_status :
  ∀ (a : RegistrationArguments) (local_image_id : string)
    (status : option string),
    registration_attempt (datetime := datetime) a local_image_id
    = Returned status →
    (arg_prediction a = PNone →
     status = Some DUPLICATED_STATUS
     ∨ status = Some "Successfully registered image")
    ∧ (arg_prediction a ≠ PNone →
       status = Some DUPLICATED_STATUS ∨ status = None).
Proof.
  intros a local_image_id status. unfold registration_attempt.
  destruct (load_image (arg_image a)) as [loaded|]; simpl; [| discriminate].
  destruct (prepare_image_to_registration _ _ _) as [encoded|]; simpl;
    [| discriminate].
  destruct (generate_batch_name _ _) as [batch_name|]; simpl; [| discriminate].
  unfold register_datapoint.
  destruct (safe_register_image_at_roboflow _ _ _ _ _ _) as [image_id|]; simpl;
    [| discriminate].
  destruct (is_None image_id).
  - intros [= <-]. split; intros _; by left.
  - destruct (arg_prediction a); simpl; intros [= <-];
      (split; [intros Hp | intros Hp]);
      first [by right | discriminate Hp | contradiction].
Qed.

(** The batch loop returns one entry per pair it is given. *)
Lemma register_batch_length (p : RunParameters) (api_key : string)
  (uuid4 : nat → string) (pairs : list (pyval * pyval)) :
  ∀ (position : nat) (cache cache' : C)
    (background_tasks background_tasks' : option (list callable))
    (entries : list (bool * option string)),
    register_batch (datetime := datetime) p api_key uuid4 position pairs
      cache background_tasks
    = (Returned entries, cache', background_tasks') →
    length entries = length pairs.
Proof.
  induction pairs as [| [image prediction] rest IH];
    intros position cache cache' bt bt' entries; simpl.
  - intros [= <- _ _]. reflexivity.
  - destruct (register_datapoint_at_roboflow _ _ _ _ _) as [[[entry|e] c1] b1];
      [| discriminate].
    destruct (register_batch p api_key uuid4 (S position) rest c1 b1)
      as [[[entries'|e] c2] b2] eqn:Hrest; [| discriminate].
    intros [= <- _ _]. simpl. f_equal. by apply (IH _ _ _ _ _ _ Hrest).
Qed.

Lemma py_zip_length {A B : Type} (xs : list A) (ys : list B) :
  length (py_zip xs ys) = Nat.min (length xs) (length ys).
Proof.
  revert ys. induction xs as [| x xs IH]; intros [| y ys]; simpl;
    try reflexivity. by rewrite IH.
Qed.

(** X18.  The guards of [run_locally].  Without an API key the call raises
    [ValueError], even when the sink is disabled.  With a key and the sink
    disabled it returns one fixed entry per image and touches neither the
    cache nor the background tasks. *)
Theorem run_locally_guards :
  ∀ (images : list pyval) (predictions : option (list pyval))
    (p : RunParameters) (uuid4 : nat → string)
    (cache : C) (background_tasks : option (list callable)),
    run_locally (datetime := datetime) None images predictions p uuid4
      cache background_tasks
    = (Thrown (Builtin ValueError), cache, background_tasks)
    ∧ (∀ api_key, run_disable_sink p = true →
         run_locally (datetime := datetime) (Some api_key) images predictions
           p uuid4 cache background_tasks
         = (Returned
              (repeat
                 (false, Some "Sink was disabled by parameter `disable_sink`")
                 (length images)),
            cache, background_tasks)).
Proof.
  intros images predictions p uuid4 cache background_tasks.
  split; [reflexivity |].
  intros api_key Hdisabled. unfold run_locally. rewrite Hdisabled.
  do 2 f_equal. f_equal.
  generalize 0%nat. induction (length images) as [| n IH]; intros start;
    simpl; [reflexivity |]. by rewrite IH.
Qed.

(** X19.  When [run_locally] returns with the sink enabled, the result has
    one entry per image if [predictions] is [None], and as many entries as
    the shorter of [images] and [predictions] otherwise: images beyond the
    end of [predictions] are left out without an error. *)
Theorem run_locally_length :
  ∀ (api_key : string) (images : list pyval)
    (predictions : option (list pyval)) (p : RunParameters)
    (uuid4 : nat → string) (cache cache' : C)
    (background_tasks background_tasks' : option (list callable))
    (entries : list (bool * option string)),
    run_disable_sink p = false →
    run_locally (datetime := datetime) (Some api_key) images predictions p
      uuid4 cache background_tasks
    = (Returned entries, cache', background_tasks') →
    length entries
    = match predictions with
      | None => length images
      | Some l => Nat.min (length images) (length l)
      end.
Proof.
  intros api_key images predictions p uuid4 cache cache' bt bt' entries
    Henabled. unfold run_locally. rewrite Henabled. intros Hrun.
  rewrite (register_batch_length _ _ _ _ _ _ _ _ _ _ Hrun), py_zip_length.
  destruct predictions as [l|]; [reflexivity |].
  rewrite repeat_length. apply Nat.min_id.
Qed.

End SinkProperties.

Section BackgroundTasks.

Context {C ndarray datetime : Type}.
Context `{BaseCache C} `{Platform C ndarray} `{Clock datetime}.

Lemma register_batch_background (p : RunParameters) (api_key : string)
  (uuid4 : nat → string) (pairs : list (pyval * pyval)) :
  run_fire_and_forget p = true →
  ∀ (position : nat) (cache : C) (queue : list callable),
    register_batch (datetime := datetime) p api_key uuid4 position pairs
      cache (Some queue)
    = (Returned (map background_entry pairs), cache,
       Some (queue ++ repeat Function_execute_registration
                        (length (List.filter has_image pairs)))%list).
Proof.
  intros Hfire.
  induction pairs as [| [image prediction] rest IH];
    intros position cache queue; simpl.
  - by rewrite app_nil_r.
  - assert (Hentry : background_entry (image, prediction)
                     = if is_None image
                       then (false, Some "Batch element skipped")
                       else (false,
                             Some "Element registration happens in the background task"))
      by reflexivity.
    assert (Hkept : has_image (image, prediction) = negb (is_None image))
      by reflexivity.
    unfold register_datapoint_at_roboflow. simpl arg_image. rewrite Hfire.
    rewrite Hentry, Hkept.
    destruct (is_None image); simpl negb; cbv iota; rewrite IH.
    + reflexivity.
    + simpl length. by rewrite <- app_assoc.
Qed.

(** X20.  Fire-and-forget with a [BackgroundTasks] object.  Every element
    with an image is answered ["Element registration happens in the
    background task"], the cache is not touched, and for each such element
    one task is queued: the function [execute_registration] itself, not the
    partial application that carries the arguments.  Called as queued, with
    no arguments, it raises [TypeError]. *)
Theorem run_locally_fire_and_forget :
  ∀ (api_key : string) (images : list pyval)
    (predictions : option (list pyval)) (p : RunParameters)
    (uuid4 : nat → string) (cache : C) (queue : list callable),
    run_disable_sink p = false →
    run_fire_and_forget p = true →
    let pairs := batch_pairs images predictions in
    run_locally (datetime := datetime) (Some api_key) images predictions p
      uuid4 cache (Some queue)
    = (Returned (map background_entry pairs), cache,
       Some (queue ++ repeat Function_execute_registration
                        (length (List.filter has_image pairs)))%list)
    ∧ ∀ local_image_id cache',
        call_without_arguments (datetime := datetime)
          Function_execute_registration local_image_id cache'
        = (Thrown (Builtin TypeError), cache').
Proof.
  intros api_key images predictions p uuid4 cache queue Henabled Hfire pairs.
  split; [| reflexivity].
  unfold run_locally. rewrite Henabled.
  by apply register_batch_background.
Qed.

Lemma register_batch_queue_kept (p : RunParameters) (api_key : string)
  (uuid4 : nat → string) (pairs : list (pyval * pyval))
  (background_tasks : option (list callable)) :
  run_fire_and_forget p = false ∨ background_tasks = None →
  ∀ (position : nat) (cache : C),
    snd (register_batch (datetime := datetime) p api_key uuid4 position pairs
           cache background_tasks)
    = background_tasks.
Proof.
  intros Hsync.
  induction pairs as [| [image prediction] rest IH];
    intros position cache; simpl; [reflexivity |].
  assert (Hone : ∀ a id c,
            snd (register_datapoint_at_roboflow (datetime := datetime)
                   a (run_fire_and_forget p) id c background_tasks)
            = background_tasks).
  { intros a id c. unfold register_datapoint_at_roboflow.
    destruct (is_None (arg_image a)); [reflexivity |].
    destruct Hsync as [-> | ->].
    - by destruct (call_without_arguments _ _ _).
    - destruct (run_fire_and_forget p);
        by destruct (call_without_arguments _ _ _). }
  specialize (Hone (registration_arguments p api_key image prediction)
                (uuid4 position) cache).
  destruct (register_datapoint_at_roboflow _ _ _ _ _) as [[[entry|e] c1] b1];
    simpl in Hone; subst b1; [| reflexivity].
  specialize (IH (S position) c1).
  destruct (register_batch p api_key uuid4 (S position) rest c1 background_tasks)
    as [[[entries|e] c2] b2]; simpl in IH; subst b2; reflexivity.
Qed.

(** X21.  Without [fire_and_forget], or without a [BackgroundTasks] object,
    [run_locally] registers in the foreground and queues nothing, whether
    it returns or raises. *)
Theorem run_locally_queue_kept :
  ∀ (api_key : option string) (images : list pyval)
    (predictions : option (list pyval)) (p : RunParameters)
    (uuid4 : nat → string) (cache : C)
    (background_tasks : option (list callable)),
    run_fire_and_forget p = false ∨ background_tasks = None →
    snd (run_locally (datetime := datetime) api_key images predictions p
           uuid4 cache background_tasks)
    = background_tasks.
Proof.
  intros api_key images predictions p uuid4 cache background_tasks Hsync.
  unfold run_locally.
  destruct api_key as [key|]; [| reflexivity].
  destruct (run_disable_sink p); [reflexivity |].
  by apply register_batch_queue_kept.
Qed.

End BackgroundTasks.

(** *** The sink on the example platform *)


Lemma execute_registration_workspace_witness :
  py_truthy (cache_get (∅ : gmap string (pyval * Z))
               (workspace_cache_key md5_hexdigest (arg_api_key example_arguments)))
  = false
  ∧ get_roboflow_workspace (arg_api_key example_arguments) = Ok "acme"
  ∧ execute_registration (datetime := unit) example_arguments "fresh" ∅
    = registration_with_workspace (datetime := unit) example_arguments "fresh"
        PNone
        (cache_set (∅ : gmap string (pyval * Z))
           (workspace_cache_key md5_hexdigest (arg_api_key example_arguments))
           (PStr "acme") 900).
Proof.
  split; [reflexivity |].
  split; [reflexivity |].
  exact (proj1 (proj2 (execute_registration_workspace (datetime := unit)
                         example_arguments "fresh" ∅) eq_refl)
           "acme" eq_refl).
Defined.

Lemma registration_attempt_status_witness :
  registration_attempt (datetime := unit)
    (registration_arguments example_run "password" example_image Ellipsis)
    "fresh" = Returned None
  ∧ (arg_prediction
       (registration_arguments example_run "password" example_image Ellipsis)
     ≠ PNone →
     (None : option string) = Some DUPLICATED_STATUS
     ∨ (None : option string) = None).
Proof.
  assert (Hattempt : registration_attempt (datetime := unit)
                       (registration_arguments example_run "password"
                          example_image Ellipsis) "fresh" = Returned None)
    by reflexivity.
  split; [exact Hattempt |].
  exact (proj2 (registration_attempt_status (datetime := unit) _ _ _ Hattempt)).
Defined.

Lemma run_locally_guards_witness :
  run_disable_sink example_run_disabled = true
  ∧ run_locally (datetime := unit) (Some "password")
      [example_image; PNone] None example_run_disabled example_uuid4
      warm_cache None
    = (Returned
         (repeat (false, Some "Sink was disabled by parameter `disable_sink`")
            (length [example_image; PNone])),
       warm_cache, None).
Proof.
  split; [reflexivity |].
  exact (proj2 (run_locally_guards (datetime := unit) [example_image; PNone]
                  None example_run_disabled example_uuid4 warm_cache None)
           "password" eq_refl).
Defined.

Lemma run_locally_length_witness :
  run_disable_sink example_run_foreground = false
  ∧ run_locally (datetime := unit) (Some "password")
      [example_image; example_image; PNone] (Some [PNone; PNone])
      example_run_foreground example_uuid4 warm_cache None
    = (Returned [ (false, Some "Successfully registered image");
                  (false, Some DUPLICATED_STATUS) ],
       <["used" := (PInt 0, 60)]> warm_cache, None)
  ∧ length [ (false, Some "Successfully registered image");
             (false, Some DUPLICATED_STATUS) ]
    = Nat.min (length [example_image; example_image; PNone])
        (length [PNone; PNone]).
Proof.
  assert (Hrun : run_locally (datetime := unit) (Some "password")
                   [example_image; example_image; PNone] (Some [PNone; PNone])
                   example_run_foreground example_uuid4 warm_cache None
                 = (Returned [ (false, Some "Successfully registered image");
                               (false, Some DUPLICATED_STATUS) ],
                    <["used" := (PInt 0, 60)]> warm_cache, None))
    by (vm_compute; reflexivity).
  split; [reflexivity |].
  split; [exact Hrun |].
  exact (run_locally_length (datetime := unit) "password" _ (Some [PNone; PNone])
           example_run_foreground example_uuid4 warm_cache _ None None _
           eq_refl Hrun).
Defined.

Lemma run_locally_fire_and_forget_witness :
  run_disable_sink example_run = false
  ∧ run_fire_and_forget example_run = true
  ∧ run_locally (datetime := unit) (Some "password")
      [example_image; PNone; example_image] None example_run example_uuid4
      warm_cache (Some [])
    = (Returned
         [ (false, Some "Element registration happens in the background task");
           (false, Some "Batch element skipped");
           (false, Some "Element registration happens in the background task") ],
       warm_cache,
       Some [Function_execute_registration; Function_execute_registration]).
Proof.
  split; [reflexivity |].
  split; [reflexivity |].
  exact (proj1 (run_locally_fire_and_forget (datetime := unit) "password"
                  [example_image; PNone; example_image] None example_run
                  example_uuid4 warm_cache [] eq_refl eq_refl)).
Defined.

Lemma run_locally_queue_kept_witness :
  (run_fire_and_forget example_run_foreground = false
   ∨ Some [Function_execute_registration] = None)
  ∧ snd (run_locally (datetime := unit) (Some "password") [example_image] None
           example_run_foreground example_uuid4 warm_cache
           (Some [Function_execute_registration]))
    = Some [Function_execute_registration].
Proof.
  assert (Hsync : run_fire_and_forget example_run_foreground = false
                  ∨ Some [Function_execute_registration] = None)
    by (left; reflexivity).
  split; [exact Hsync |].
  exact (run_locally_queue_kept (datetime := unit) (Some "password")
           [example_image] None example_run_foreground example_uuid4
           warm_cache (Some [Function_execute_registration]) Hsync).
Defined.

(* ===================================================================== *)
(** ** The consensus index within range *)
(* ===================================================================== *)

Lemma py_getitem_in_range {A : Type} (l : list A) (i : nat) (x : A) :
  nth_error l i = Some x → py_getitem l (Z.of_nat i) = Ok x.
Proof.
  intros Hnth. unfold py_getitem.
  assert (Hlt : (i < length l)%nat) by (apply nth_error_Some; congruence).
  destruct (Z.ltb_spec (Z.of_nat i) 0) as [Hneg | _]; [lia |].
  destruct (Z.leb_spec 0 (Z.of_nat i)) as [_ | Hneg]; [| lia].
  destruct (Z.ltb_spec (Z.of_nat i) (Z.of_nat (length l))) as [_ | Hge];
    [| lia].
  simpl. by rewrite Nat2Z.id, Hnth.
Qed.

Section ConsensusElement.

Context {V : Validators}.

(** X22.  With an index inside the list, the consensus step validates the
    element at that index and nothing else: an element that is not a
    selector raises [ExecutionGraphError], a selector is handed, alone, to
    the detections check of the producer. *)
Theorem DetectionsConsensus_validates_indexed_element :
  ∀ (m : DetectionsConsensus) (input_step : GraphNone) (i : nat) (e : pyval),
    nth_error (dc_predictions m) i = Some e →
    validate_field_selector (SDetectionsConsensus m) "predictions" input_step
      (Some (Z.of_nat i))
    = if is_selector e
      then validate_selector_holds_detections (dc_name m) PNone e
             "predictions" input_step (Some {[ "predictions" ]})
      else Raise ExecutionGraphError.
Proof.
  intros m input_step i e Hnth. simpl.
  unfold DetectionsConsensus_validate_field_selector. simpl String.eqb.
  cbv iota. simpl negb. cbv iota. rewrite result_bind_ok.
  assert (Hlt : (i < length (dc_predictions m))%nat)
    by (apply nth_error_Some; congruence).
  destruct (Z.ltb_spec (Z.of_nat (length (dc_predictions m))) (Z.of_nat i))
    as [Hgt | _]; [lia |].
  rewrite (py_getitem_in_range _ _ _ Hnth), !result_bind_ok.
  by destruct (is_selector e).
Qed.

End ConsensusElement.

Lemma DetectionsConsensus_validates_indexed_element_witness :
  nth_error (dc_predictions example_consensus) 1
  = Some (PStr "$steps.b.predictions")
  ∧ validate_field_selector (SDetectionsConsensus example_consensus)
      "predictions" classifier_node (Some (Z.of_nat 1))
    = if is_selector (PStr "$steps.b.predictions")
      then validate_selector_holds_detections (dc_name example_consensus)
             PNone (PStr "$steps.b.predictions") "predictions" classifier_node
             (Some {[ "predictions" ]})
      else Raise ExecutionGraphError.
Proof.
  split; [reflexivity |].
  exact (DetectionsConsensus_validates_indexed_element (V := spec_validators)
           example_consensus classifier_node 1 (PStr "$steps.b.predictions")
           eq_refl).
Defined.
